(** * Chunked map-reduce pipelines of the data cube UI

    A shallow embedding of [apps/fractional_cover/tasks.py] and
    [apps/tsm/tasks.py]: the celery stages are state-passing functions over
    a world holding the task record, the scratch directory, the result
    directory and an event trace; xarray datasets are finite maps from
    variable names to pixel arrays. *)

From Stdlib Require Import ZArith QArith Qcanon String Ascii List Lia Lqa Permutation.
From stdpp Require Import base option list gmap strings pretty.

Set Warnings "-register-all".

Local Open Scope string_scope.
Local Open Scope list_scope.

(** ** Python built-ins used by the tasks *)
Module Py.

(** [str(n)] for a non-negative integer. *)
Definition str (n : nat) : string := pretty n.

(** [a < b] on [str]: lexicographic on code points. *)
Definition str_lt (a b : string) : bool := String.ltb a b.

Definition starts_with_slash (s : string) : bool :=
  match s with
  | String c _ => Ascii.eqb c "/"%char
  | EmptyString => false
  end.

Fixpoint ends_with_slash (s : string) : bool :=
  match s with
  | EmptyString => false
  | String c EmptyString => Ascii.eqb c "/"%char
  | String _ s' => ends_with_slash s'
  end.

(** [os.path.join(a, b)] (posixpath). *)
Definition path_join (a b : string) : string :=
  if starts_with_slash b then b
  else if (String.eqb a "" || ends_with_slash a)%bool then a ++ b
  else a ++ "/" ++ b.

(** [sorted(l, key=key)] for string keys: the stable sort, written as
    insertion from the right so that equal keys keep their input order. *)
Fixpoint insert_by {A} (key : A -> string) (x : A) (l : list A) : list A :=
  match l with
  | [] => [x]
  | y :: l' =>
      if str_lt (key y) (key x) then y :: insert_by key x l'
      else x :: y :: l'
  end.

Definition sorted {A} (key : A -> string) (l : list A) : list A :=
  fold_right (insert_by key) [] l.

(** [round(a / b)] for non-negative integers: true division followed by
    rounding half to even; [None] stands for [ZeroDivisionError]. The
    quotient is taken exactly, which is what float64 gives for the scene
    counts at hand. *)
Definition round_div (a b : nat) : option nat :=
  if (b =? 0)%nat then None
  else
    let q := (a / b)%nat in
    let r := (a mod b)%nat in
    Some (if (2 * r <? b)%nat then q
          else if (b <? 2 * r)%nat then S q
          else if Nat.even q then q else S q).

(** Datetimes are microseconds since the epoch; [timedelta.days]. *)
Definition days (delta : Z) : Z := (delta / 86400000000)%Z.

(** [enumerate(l)]. *)
Definition enumerate {A} (l : list A) : list (nat * A) :=
  combine (seq 0 (length l)) l.

End Py.

(** ** Pixel values

    The arithmetic of pixel values is kept behind one interface; the laws of
    exact arithmetic are a separate class, so that every statement that
    depends on them says so. *)
Class Numeric (num : Type) := {
  nadd : num -> num -> num;
  nsub : num -> num -> num;
  ndiv : num -> num -> num;
  (** minimum and maximum over a two-step time axis with [skipna=True] *)
  nmin : num -> num -> num;
  nmax : num -> num -> num;
  neqb : num -> num -> bool;
  nltb : num -> num -> bool;
  nof_Q : Q -> num;
  nnan : num;
  nfinite : num -> bool
}.

Class ExactArith (num : Type) `{Numeric num} := {
  nadd_assoc : forall a b c : num, nadd a (nadd b c) = nadd (nadd a b) c;
  nadd_comm : forall a b : num, nadd a b = nadd b a;
  nmin_assoc : forall a b c : num, nmin a (nmin b c) = nmin (nmin a b) c;
  nmin_comm : forall a b : num, nmin a b = nmin b a;
  nmax_assoc : forall a b c : num, nmax a (nmax b c) = nmax (nmax a b) c;
  nmax_comm : forall a b : num, nmax a b = nmax b a
}.

(** ** Task record, parameters and provenance *)

Definition range : Type := Z * Z.

(** The keyword arguments handed to the data access API. *)
Record Params := {
  platforms : list string;
  products : list string;
  time : range;
  longitude : range;
  latitude : range;
  measurements : list string
}.

(** A geographic chunk: a dict with the keys [latitude] and [longitude]. *)
Record GeoChunk := {
  gc_latitude : range;
  gc_longitude : range
}.

(** [updated_params.update(geographic_chunk)] *)
Definition update_geo (p : Params) (g : GeoChunk) : Params :=
  {| platforms := platforms p; products := products p; time := time p;
     longitude := gc_longitude g; latitude := gc_latitude g;
     measurements := measurements p |}.

(** [updated_params.update({'time': time})] *)
Definition update_time (p : Params) (t : range) : Params :=
  {| platforms := platforms p; products := products p; time := t;
     longitude := longitude p; latitude := latitude p;
     measurements := measurements p |}.

Record ChunkIds := {
  geo_chunk_id : nat;
  time_chunk_id : nat
}.

(** Metadata dicts. *)
Abbreviation Meta := (gmap string string).

(** What a chunk stage returns: path, metadata and the chunk ids. *)
Definition ChunkOut : Type := string * Meta * ChunkIds.

Definition co_path (c : ChunkOut) : string := c.1.1.
Definition co_meta (c : ChunkOut) : Meta := c.1.2.
Definition co_ids (c : ChunkOut) : ChunkIds := c.2.

(** The mutable fields of the task model. Attribute writes are applied to
    the record itself: every path of the sources that assigns one of these
    fields saves the record before it returns. *)
Record TaskRecord := {
  status : string;
  message : string;
  complete : bool;
  scenes_processed : nat;
  total_scenes : nat;
  (** registered output paths, by field name ([plot_path], [result_path], ...) *)
  paths : gmap string string
}.

(** The fields of the task model that a run only reads. *)
Record TaskConfig := {
  temp_path : string;
  result_dir : string;
  cfg_platforms : list string;
  cfg_products : list string;
  cfg_measurements : list string;
  time_start : Z;
  time_end : Z;
  longitude_min : Z;
  longitude_max : Z;
  latitude_min : Z;
  latitude_max : Z;
  compositor_is_iterative : bool;
  iterative : bool;
  reverse_time : bool;
  chunk_size_time : option nat;
  chunk_size_geographic : option Q;
  animation_id : string;
  satellite_name : string
}.

(** ** The celery canvas

    Signatures of the pipeline tasks with their keyword arguments, and the
    two composition primitives the orchestrators use: [group([...])] and the
    chain operator [|]. *)
Inductive signature :=
| ProcessingTask (geo_id time_id : nat) (geographic_chunk : GeoChunk)
    (time_chunk : list Z) (parameters : Params)
| RecombineTimeChunks (num_scn_per_chk : option nat)
| ProcessBandMath (num_scn_per_chk : nat)
| RecombineGeographicChunks (num_scn_per_chk : option nat)
| CreateOutputProducts
| TaskCleanUp.

Inductive canvas :=
| Sig (s : signature)
(** [.si(...)]: an immutable signature, which is not given the result of
    its predecessor *)
| SigI (s : signature)
| Group (members : list canvas)
| Chain (steps : list canvas).

(** Values passed between tasks. *)
Inductive value :=
| VNone
| VTrue
| VParams (p : Params)
| VDetails (parameters : Params) (geographic_chunks : list GeoChunk)
    (time_chunks : list (list Z))
| VChunk (c : ChunkOut)
| VList (l : list value).

(** ** Events, world and environment *)
Inductive event :=
| EvCheck (cancelled : bool)
| EvStatus (st msg : string)
| EvScenes (n : nat)
| EvWrite (path : string)
| EvRemove (path : string)
| EvProduct (path : string)
| EvPlot (path : string)
| EvAnimation (path : string) (frames : nat)
| EvSchedule.

Abbreviation Mask := (list bool).

Declare Scope stage_scope.
Delimit Scope stage_scope with stage.

Section Model.

Context {num : Type} `{Numeric num}.

Local Abbreviation Dataset := (gmap string (list num)).

(** The world a stage runs in. [trace] is newest first; [clock] counts the
    cancellation checks made so far. *)
Record World := {
  task : TaskRecord;
  temp_exists : bool;
  scratch : gmap string Dataset;
  results : gmap string Dataset;
  scheduled : option canvas;
  clock : nat;
  trace : list event
}.

(** The collaborators of the pipelines: the data access API, the methods of
    the task and satellite models, the chunker and the classifiers. They
    live outside the two task modules and are taken as parameters. *)
Record Env := {
  (** the cancellation flag as the [n]-th check reads it *)
  cancel_flag : nat -> bool;
  list_combined_acquisition_dates : Params -> list Z;
  get_stacked_datasets_by_extent : Params -> option Dataset;
  validate_measurements : string -> list string -> bool;
  clean_mask_func : Dataset -> Mask;
  metadata_from_dataset : Meta -> Dataset -> Mask -> Params -> Meta;
  combine_metadata : Meta -> Meta -> Meta;
  (** [task._get_field_as_list('acquisition_list')] once the metadata has
      been stored on the task *)
  acquisition_list : Meta -> list Z;
  create_geographic_chunks : range -> range -> option Q -> list GeoChunk;
  create_time_chunks : list Z -> bool -> option nat -> list (list Z);
  combine_geographic_chunks : list Dataset -> Dataset;
  add_timestamp_data_to_xr : Dataset -> Dataset;
  (** [ds.isel(latitude=0, longitude=0)], [ds.where(ds != no_data)] and
      [ds.astype('int32')] *)
  isel_first_pixel : Dataset -> Dataset;
  where_valid : Dataset -> Dataset;
  astype_int32 : Dataset -> Dataset;
  (** [ds.isel(time=0, drop=True)] *)
  isel_time0 : Dataset -> Dataset;
  (** the water confidence below which [mask_water_quality] suppresses a
      pixel *)
  low_water_confidence : num -> bool;
  (** fractional cover: [task.get_processing_method()] and the classifiers *)
  fc_processing_method : Dataset -> Mask -> option Dataset -> Dataset;
  wofs_classify : Dataset -> Mask -> Dataset;
  frac_coverage_classify : Dataset -> Mask -> Dataset;
  (** TSM: [task.get_processing_method()], [tsm] and the running analysis *)
  tsm_processing_method : Dataset -> Mask -> Dataset;
  tsm : Dataset -> Mask -> Dataset;
  perform_timeseries_analysis : Dataset -> string -> option Dataset -> Dataset
}.

Variable E : Env.
Variable cfg : TaskConfig.

(** *** The stage monad: state, early [return] and exceptions *)
Inductive outcome (R A : Type) :=
| Next (a : A) (w : World)
| Return (r : R) (w : World)
| Raise (e : string) (w : World).
Arguments Next {R A}.
Arguments Return {R A}.
Arguments Raise {R A}.

Definition stage (R A : Type) : Type := World -> outcome R A.

Definition ret {R A} (a : A) : stage R A := fun w => Next a w.

Definition bind {R A B} (m : stage R A) (k : A -> stage R B) : stage R B :=
  fun w =>
    match m w with
    | Next a w' => k a w'
    | Return r w' => Return r w'
    | Raise e w' => Raise e w'
    end.

Definition return_ {R A} (r : R) : stage R A := fun w => Return r w.
Definition raise {R A} (e : string) : stage R A := fun w => Raise e w.

Definition world_of {R A} (o : outcome R A) : World :=
  match o with
  | Next _ w | Return _ w | Raise _ w => w
  end.

(** Running a task body: falling off the end and [return] are the same. *)
Definition call {R} (m : stage R R) : stage R R :=
  fun w =>
    match m w with
    | Next r w' | Return r w' => Next r w'
    | Raise e w' => Raise e w'
    end.

Notation "x <- m ;; k" := (bind m (fun x => k))
  (at level 100, m at next level, right associativity) : stage_scope.
Notation "m ;; k" := (bind m (fun _ => k))
  (at level 100, right associativity) : stage_scope.
Local Open Scope stage_scope.

(** [for x in l: body], with the loop-carried variables in [acc];
    [continue] is [ret acc]. *)
Fixpoint for_each {R A S} (body : A -> S -> stage R S) (l : list A) (acc : S)
  : stage R S :=
  match l with
  | [] => ret acc
  | x :: l' => bind (body x acc) (for_each body l')
  end.

(** *** Primitive effects *)

Definition with_task (f : TaskRecord -> TaskRecord) (w : World) : World :=
  {| task := f (task w); temp_exists := temp_exists w; scratch := scratch w;
     results := results w; scheduled := scheduled w; clock := clock w;
     trace := trace w |}.

Definition with_scratch (f : gmap string Dataset -> gmap string Dataset)
  (w : World) : World :=
  {| task := task w; temp_exists := temp_exists w; scratch := f (scratch w);
     results := results w; scheduled := scheduled w; clock := clock w;
     trace := trace w |}.

Definition with_results (f : gmap string Dataset -> gmap string Dataset)
  (w : World) : World :=
  {| task := task w; temp_exists := temp_exists w; scratch := scratch w;
     results := f (results w); scheduled := scheduled w; clock := clock w;
     trace := trace w |}.

Definition log (ev : event) (w : World) : World :=
  {| task := task w; temp_exists := temp_exists w; scratch := scratch w;
     results := results w; scheduled := scheduled w; clock := clock w;
     trace := ev :: trace w |}.

Definition tick (w : World) : World :=
  {| task := task w; temp_exists := temp_exists w; scratch := scratch w;
     results := results w; scheduled := scheduled w; clock := S (clock w);
     trace := trace w |}.

(** Modelled from the spec: [check_cancel_task] of apps/dc_algorithm/tasks.py,
    which is not among the sources. It reads the cooperative cancellation
    flag and writes nothing: the cancel path has set the status itself. *)
Definition check_cancel_task {R} : stage R bool :=
  fun w =>
    let b := cancel_flag E (clock w) in
    Next b (log (EvCheck b) (tick w)).

(** [if check_cancel_task(self, task): return] *)
Definition cancellable : stage value unit :=
  b <- check_cancel_task ;;
  if b : bool then return_ VNone else ret tt.

(** Modelled from the spec: [Task.update_status(code, message)] of the task
    model, which is not among the sources. It stores the status code and
    the message and saves the record. *)
Definition update_status {R} (st msg : string) : stage R unit :=
  fun w =>
    Next tt (log (EvStatus st msg)
      (with_task (fun t =>
         {| status := st; message := msg; complete := complete t;
            scenes_processed := scenes_processed t;
            total_scenes := total_scenes t; paths := paths t |}) w)).

(** [task.complete = True] *)
Definition set_complete {R} : stage R unit :=
  fun w =>
    Next tt (with_task (fun t =>
      {| status := status t; message := message t; complete := true;
         scenes_processed := scenes_processed t;
         total_scenes := total_scenes t; paths := paths t |}) w).

(** [task.scenes_processed = F('scenes_processed') + n] followed by
    [task.save(update_fields=['scenes_processed'])] *)
Definition add_scenes {R} (n : nat) : stage R unit :=
  fun w =>
    Next tt (log (EvScenes n)
      (with_task (fun t =>
         {| status := status t; message := message t; complete := complete t;
            scenes_processed := scenes_processed t + n;
            total_scenes := total_scenes t; paths := paths t |}) w)).

(** [task.total_scenes = total; task.scenes_processed = 0] and the save of
    both fields *)
Definition reset_scenes {R} (total : nat) : stage R unit :=
  fun w =>
    Next tt (with_task (fun t =>
      {| status := status t; message := message t; complete := complete t;
         scenes_processed := 0; total_scenes := total; paths := paths t |}) w).

(** [task.<field> = path] *)
Definition set_path {R} (field path : string) : stage R unit :=
  fun w =>
    Next tt (with_task (fun t =>
      {| status := status t; message := message t; complete := complete t;
         scenes_processed := scenes_processed t;
         total_scenes := total_scenes t;
         paths := <[field := path]> (paths t) |}) w).

(** [os.path.exists(task.get_temp_path())] *)
Definition temp_path_exists {R} : stage R bool :=
  fun w => Next (temp_exists w) w.

(** [os.path.exists(path)] for a file of the scratch directory *)
Definition path_exists {R} (path : string) : stage R bool :=
  fun w => Next (bool_decide (is_Some (scratch w !! path))) w.

(** [xr.open_dataset(path)] *)
Definition open_dataset {R} (path : string) : stage R Dataset :=
  fun w =>
    match scratch w !! path with
    | Some d => Next d w
    | None => Raise "FileNotFoundError" w
    end.

(** [export_xarray_to_netcdf(data, path)] and [data.to_netcdf(path)] on the
    scratch directory *)
Definition to_netcdf {R} (data : Dataset) (path : string) : stage R unit :=
  fun w =>
    if temp_exists w
    then Next tt (log (EvWrite path) (with_scratch (insert path data) w))
    else Raise "FileNotFoundError" w.

(** [os.remove(path)] *)
Definition os_remove {R} (path : string) : stage R unit :=
  fun w =>
    match scratch w !! path with
    | Some _ => Next tt (log (EvRemove path) (with_scratch (delete path) w))
    | None => Raise "FileNotFoundError" w
    end.

(** The writers of the result directory (netCDF, GeoTIFF, PNG): the entry
    records the dataset handed to the writer. *)
Definition write_product {R} (path : string) (data : Dataset) : stage R unit :=
  fun w => Next tt (log (EvProduct path) (with_results (insert path data) w)).

(** [create_2d_plot(path, ...)] *)
Definition create_2d_plot {R} (path : string) : stage R unit :=
  fun w => Next tt (log (EvPlot path) w).

(** The multi-frame image of the result directory. *)
Definition write_animation {R} (path : string) (frames : nat) : stage R unit :=
  fun w => Next tt (log (EvAnimation path frames) w).

(** A dataset operation that fails on a missing variable. *)
Definition lift_key {R A} (o : option A) : stage R A :=
  match o with
  | Some a => ret a
  | None => raise "KeyError"
  end.

(** [pipeline.apply_async()] *)
Definition apply_async {R} (c : canvas) : stage R unit :=
  fun w =>
    Next tt (log EvSchedule
      {| task := task w; temp_exists := temp_exists w; scratch := scratch w;
         results := results w; scheduled := Some c; clock := clock w;
         trace := trace w |}).

(** [task.status] *)
Definition get_status {R} : stage R string :=
  fun w => Next (status (task w)) w.

(** Modelled from the spec: [task_clean_up] of apps/dc_algorithm/tasks.py,
    which is not among the sources. It disposes of the whole scratch area
    once the output stage is done. *)
Definition task_clean_up : stage value value :=
  fun w =>
    Next VNone
      {| task := task w; temp_exists := false; scratch := ∅;
         results := results w; scheduled := scheduled w; clock := clock w;
         trace := trace w |}.

(** [**parameters] on the result of the previous task *)
Definition as_params {R} (v : value) : stage R Params :=
  match v with
  | VParams p => ret p
  | _ => raise "TypeError"
  end.

(** [chunks if isinstance(chunks, list) else [chunks]] *)
Definition as_chunk_list (chunks : value) : list value :=
  match chunks with
  | VList l => l
  | v => [v]
  end.

(** [chunk is not None] *)
Definition not_none (v : value) : bool :=
  match v with
  | VNone => false
  | _ => true
  end.

(** The entries are used as [(path, metadata, ids)] triples. *)
Fixpoint as_chunks {R} (l : list value) : stage R (list ChunkOut) :=
  match l with
  | [] => ret []
  | VChunk c :: l' => cs <- as_chunks l' ;; ret (c :: cs)
  | _ :: _ => raise "TypeError"
  end.

(** [F('scenes_processed') + num_scn_per_chk], where the keyword defaults to
    [None] *)
Definition add_scenes_opt {R} (n : option nat) : stage R unit :=
  match n with
  | Some n => add_scenes n
  | None => raise "TypeError"
  end.

(** [_get_datetime_range_containing] on one or two datetimes, as tsm/tasks.py writes
    it out: one microsecond around the extremes. *)
Definition get_datetime_range_containing (a b : Z) : range :=
  (Z.min a b - 1, Z.max a b + 1)%Z.

(** The load ranges of a time chunk: one per acquisition when the task is
    iterative, otherwise one range from [time_chunk[0]] to [time_chunk[-1]]. *)
Definition load_ranges {R} (time_chunk : list Z) : stage R (list range) :=
  if iterative cfg
  then ret (map (fun t => get_datetime_range_containing t t) time_chunk)
  else
    match time_chunk with
    | [] => raise "IndexError"
    | t0 :: _ => ret [get_datetime_range_containing t0 (List.last time_chunk t0)]
    end.

(** ['time' in data] *)
Definition has_time (data : Dataset) : bool :=
  bool_decide (is_Some (data !! "time")).

(** [mask[cond] = False] *)
Fixpoint mask_out (cond : list bool) (mask : Mask) : Mask :=
  match mask, cond with
  | b :: mask', c :: cond' => (if c then false else b) :: mask_out cond' mask'
  | _, _ => mask
  end.

(** [maybe_unroll_group]: inside a chain celery replaces a group of one task
    by that task, so that its successor is handed a bare result. *)
Definition maybe_unroll_group (c : canvas) : canvas :=
  match c with
  | Group [m] => m
  | _ => c
  end.

(** Execution of a canvas on one worker: the members of a group run one
    after the other in list order and a chain hands each result to the next
    step. [call_task] runs a signature on its optional argument. *)
Fixpoint exec (call_task : signature -> option value -> stage value value)
  (c : canvas) (input : option value) : stage value value :=
  match c with
  | Sig s => call_task s input
  | SigI s => call_task s None
  | Group members =>
      vs <- (fix members_ (l : list canvas) : stage value (list value) :=
               match l with
               | [] => ret []
               | m :: l' =>
                   v <- exec call_task m input ;;
                   vs <- members_ l' ;;
                   ret (v :: vs)
               end) members ;;
      ret (VList vs)
  | Chain steps =>
      (fix steps_ (l : list canvas) (input : option value)
         : stage value value :=
         match l with
         | [] => ret (default VNone input)
         | m :: l' =>
             v <- exec call_task (maybe_unroll_group m) input ;;
             steps_ l' (Some v)
         end) steps input
  end.

(** [round(a / b)] in a task body *)
Definition round_div {R} (a b : nat) : stage R nat :=
  match Py.round_div a b with
  | Some n => ret n
  | None => raise "ZeroDivisionError"
  end.

(** [sum([len(time_chunk) for time_chunk in time_chunks])] *)
Definition sum_len (time_chunks : list (list Z)) : nat :=
  list_sum (map (length (A := Z)) time_chunks).

(** [d[name]] and [d.name] on a dataset *)
Definition get_var {R} (d : Dataset) (name : string) : stage R (list num) :=
  match d !! name with
  | Some a => ret a
  | None => raise "KeyError"
  end.

End Model.

Arguments World : clear implicits.
Arguments Env : clear implicits.
Arguments outcome : clear implicits.
Arguments stage : clear implicits.
Arguments Next {num R A}.
Arguments Return {num R A}.
Arguments Raise {num R A}.

Notation "x <- m ;; k" := (bind m (fun x => k))
  (at level 100, m at next level, right associativity) : stage_scope.
Notation "m ;; k" := (bind m (fun _ => k))
  (at level 100, right associativity) : stage_scope.
Local Open Scope stage_scope.

(** ** apps/fractional_cover/tasks.py *)
Module FractionalCover.
Section Stages.

Context {num : Type} `{Numeric num}.
Variable E : Env num.
Variable cfg : TaskConfig.

Local Abbreviation Dataset := (gmap string (list num)).
Local Abbreviation task_body := (stage num value value).

Definition parse_parameters_from_task : task_body :=
  let parameters :=
    {| platforms := cfg_platforms cfg;
       products := cfg_products cfg;
       time := (time_start cfg, time_end cfg);
       longitude := (longitude_min cfg, longitude_max cfg);
       latitude := (latitude_min cfg, latitude_max cfg);
       measurements := cfg_measurements cfg |} in
  cancellable E ;;
  update_status "WAIT" "Parsed out parameters." ;;
  ret (VParams parameters).

Definition validate_parameters (parameters : value) : task_body :=
  cancellable E ;;
  p <- as_params parameters ;;
  let acquisitions := list_combined_acquisition_dates E p in
  if (length acquisitions <? 1)%nat then
    set_complete ;;
    update_status "ERROR" "There are no acquistions for this parameter set." ;;
    return_ VNone
  else if (negb (compositor_is_iterative cfg)
           && (367 <? Py.days (time_end cfg - time_start cfg))%Z)%bool then
    set_complete ;;
    update_status "ERROR"
      "Median pixel operations are only supported for single year time periods." ;;
    return_ VNone
  else
    cancellable E ;;
    update_status "WAIT" "Validated parameters." ;;
    match products p with
    | [] => raise "IndexError"
    | product :: _ =>
        if negb (validate_measurements E product (measurements p)) then
          set_complete ;;
          update_status "ERROR"
            ("The provided Satellite model measurements aren't valid for the product. Please check the measurements listed in the "
               ++ satellite_name cfg ++ " model.") ;;
          return_ VNone
        else ret (VParams p)
    end.

Definition perform_task_chunking (parameters : value) : task_body :=
  match parameters with
  | VNone => return_ VNone
  | _ =>
      cancellable E ;;
      p <- as_params parameters ;;
      let dates := list_combined_acquisition_dates E p in
      let geographic_chunks :=
        create_geographic_chunks E (longitude p) (latitude p)
          (chunk_size_geographic cfg) in
      let time_chunks :=
        create_time_chunks E dates (reverse_time cfg) (chunk_size_time cfg) in
      cancellable E ;;
      update_status "WAIT" "Chunked parameter set." ;;
      ret (VDetails p geographic_chunks time_chunks)
  end.

(** The pipeline that [start_chunk_processing] composes: for each geographic
    chunk a group of the processing tasks of all time chunks, chained into
    the time recombination and the band math; the group of these chains is
    chained into the geographic recombination, the output stage and the
    clean-up. *)
Definition processing_pipeline (parameters : Params)
  (geographic_chunks : list GeoChunk) (time_chunks : list (list Z))
  (num_scn_per_chk num_scn_per_chk_geo : nat) : canvas :=
  Chain
    [ Group
        (map (fun '(geo_index, geographic_chunk) =>
                Chain
                  [ Group
                      (map (fun '(time_index, time_chunk) =>
                              Sig (ProcessingTask geo_index time_index
                                     geographic_chunk time_chunk parameters))
                         (Py.enumerate time_chunks));
                    Sig (RecombineTimeChunks (Some num_scn_per_chk));
                    Sig (ProcessBandMath (2 * num_scn_per_chk_geo)) ])
           (Py.enumerate geographic_chunks));
      Sig (RecombineGeographicChunks None);
      Sig CreateOutputProducts;
      SigI TaskCleanUp ].

Definition start_chunk_processing (chunk_details : value) : task_body :=
  match chunk_details with
  | VNone => return_ VNone
  | VDetails parameters geographic_chunks time_chunks =>
      let num_scenes := (length geographic_chunks * sum_len time_chunks)%nat in
      num_scn_per_chk <-
        round_div num_scenes (length time_chunks * length geographic_chunks) ;;
      num_scn_per_chk_geo <- round_div num_scenes (length geographic_chunks) ;;
      reset_scenes (4 * num_scenes) ;;
      cancellable E ;;
      update_status "WAIT" "Starting processing." ;;
      apply_async
        (processing_pipeline parameters geographic_chunks time_chunks
           num_scn_per_chk num_scn_per_chk_geo) ;;
      ret VTrue
  | _ => raise "AttributeError"
  end.

(** One pass of the load loop of [processing_task]; the loop carries
    [updated_params], [iteration_data] and [metadata]. *)
Definition processing_step (time_range : range)
  (acc : Params * option Dataset * Meta)
  : stage num value (Params * option Dataset * Meta) :=
  let '(updated_params, iteration_data, metadata) := acc in
  let updated_params := update_time updated_params time_range in
  let data := get_stacked_datasets_by_extent E updated_params in
  cancellable E ;;
  match data with
  | None => ret (updated_params, iteration_data, metadata)
  | Some data =>
      if negb (has_time data) then ret (updated_params, iteration_data, metadata)
      else
        let clear_mask := clean_mask_func E data in
        let data := add_timestamp_data_to_xr E data in
        let metadata :=
          metadata_from_dataset E metadata data clear_mask updated_params in
        let iteration_data :=
          fc_processing_method E data clear_mask iteration_data in
        cancellable E ;;
        add_scenes 1 ;;
        ret (updated_params, Some iteration_data, metadata)
  end.

Definition chunk_path (geo_chunk_id time_chunk_id : nat) : string :=
  Py.path_join (temp_path cfg)
    (Py.str geo_chunk_id ++ "_" ++ Py.str time_chunk_id ++ ".nc").

Definition processing_task (geo_chunk_id time_chunk_id : nat)
  (geographic_chunk : GeoChunk) (time_chunk : list Z) (parameters : Params)
  : task_body :=
  cancellable E ;;
  ex <- temp_path_exists ;;
  if negb ex then return_ VNone
  else
    times <- load_ranges cfg time_chunk ;;
    let updated_params := update_geo parameters geographic_chunk in
    acc <- for_each processing_step times (updated_params, None, ∅) ;;
    match acc with
    | (_, None, _) => return_ VNone
    | (_, Some iteration_data, metadata) =>
        let path := chunk_path geo_chunk_id time_chunk_id in
        to_netcdf iteration_data path ;;
        ret (VChunk (path, metadata,
                     {| geo_chunk_id := geo_chunk_id;
                        time_chunk_id := time_chunk_id |}))
    end.

(** [xr.concat([data], 'time')] followed by [data['time'] = [0]] *)
Definition add_time_axis (data : Dataset) : Dataset :=
  <["time" := [nof_Q 0]]> data.

(** One pass of the fold of [recombine_time_chunks]; the loop carries
    [metadata] and [combined_data]. *)
Definition recombine_time_step (num_scn_per_chk : option nat)
  (chunk : ChunkOut) (acc : Meta * option Dataset)
  : stage num value (Meta * option Dataset) :=
  let '(metadata, combined_data) := acc in
  let metadata := co_meta chunk ∪ metadata in
  data <- open_dataset (co_path chunk) ;;
  match combined_data with
  | None =>
      add_scenes_opt num_scn_per_chk ;;
      ret (metadata, Some data)
  | Some combined_data =>
      let data := add_time_axis data in
      let clear_mask := clean_mask_func E data in
      let combined_data :=
        fc_processing_method E data clear_mask (Some combined_data) in
      cancellable E ;;
      add_scenes_opt num_scn_per_chk ;;
      ret (metadata, Some combined_data)
  end.

Definition recombine_time_chunks (num_scn_per_chk : option nat)
  (chunks : value) : task_body :=
  cancellable E ;;
  let chunks := List.filter not_none (as_chunk_list chunks) in
  if (length chunks =? 0)%nat then return_ VNone
  else
    chunks <- as_chunks chunks ;;
    let total_chunks := Py.sorted co_path chunks in
    match total_chunks with
    | [] => raise "IndexError"
    | first :: _ =>
        let ids := co_ids first in
        acc <- for_each (recombine_time_step num_scn_per_chk) total_chunks
                 (∅, None) ;;
        match acc with
        | (_, None) => return_ VNone
        | (metadata, Some combined_data) =>
            let path :=
              Py.path_join (temp_path cfg)
                ("recombined_time_" ++ Py.str (geo_chunk_id ids) ++ ".nc") in
            to_netcdf combined_data path ;;
            ret (VChunk (path, metadata, ids))
        end
    end.

(** [_apply_band_math]: water is masked out of the clean mask before the
    fractional cover classification. *)
Definition apply_band_math {R} (dataset : Dataset) : stage num R Dataset :=
  let clear_mask := clean_mask_func E dataset in
  let wofs := wofs_classify E dataset clear_mask in
  water <- get_var wofs "wofs" ;;
  let clear_mask :=
    mask_out (map (fun x => neqb x (nof_Q 1)) water) clear_mask in
  ret (frac_coverage_classify E dataset clear_mask).

Definition process_band_math (num_scn_per_chk : nat) (chunk : value)
  : task_body :=
  cancellable E ;;
  match chunk with
  | VNone => return_ VNone
  | VChunk c =>
      dataset <- open_dataset (co_path c) ;;
      band_math <- apply_band_math dataset ;;
      (* xr.merge([dataset, band_math]) *)
      let dataset := dataset ∪ band_math in
      os_remove (co_path c) ;;
      to_netcdf dataset (co_path c) ;;
      add_scenes num_scn_per_chk ;;
      ret (VChunk c)
  | _ => raise "TypeError"
  end.

Definition recombine_geographic_step (chunk : ChunkOut)
  (acc : Meta * list Dataset) : stage num value (Meta * list Dataset) :=
  let '(metadata, chunk_data) := acc in
  let metadata := combine_metadata E metadata (co_meta chunk) in
  current_chunk_data <- open_dataset (co_path chunk) ;;
  ret (metadata, chunk_data ++ [current_chunk_data]).

Definition recombine_geographic_chunks (chunks : value) : task_body :=
  cancellable E ;;
  let total_chunks := List.filter not_none (as_chunk_list chunks) in
  if (length total_chunks =? 0)%nat then return_ VNone
  else
    total_chunks <- as_chunks total_chunks ;;
    match total_chunks with
    | [] => raise "IndexError"
    | first :: _ =>
        let ids := co_ids first in
        acc <- for_each recombine_geographic_step total_chunks (∅, []) ;;
        let '(metadata, chunk_data) := acc in
        let combined_data := combine_geographic_chunks E chunk_data in
        let path :=
          Py.path_join (temp_path cfg)
            ("recombined_geo_" ++ Py.str (time_chunk_id ids) ++ ".nc") in
        to_netcdf combined_data path ;;
        ret (VChunk (path, metadata, ids))
    end.

(** The output stage. The metadata methods of the task model
    ([final_metadata_from_dataset], [metadata_from_dict]) fill fields that
    are not part of [TaskRecord]. *)
Definition create_output_products (data : value) : task_body :=
  cancellable E ;;
  match data with
  | VChunk c =>
      let full_metadata := co_meta c in
      dataset <- open_dataset (co_path c) ;;
      let result_path := Py.path_join (result_dir cfg) "band_math.png" in
      let mosaic_path := Py.path_join (result_dir cfg) "png_mosaic.png" in
      let data_path := Py.path_join (result_dir cfg) "data_tif.tif" in
      let data_netcdf_path := Py.path_join (result_dir cfg) "data_netcdf.nc" in
      set_path "result_path" result_path ;;
      set_path "mosaic_path" mosaic_path ;;
      set_path "data_path" data_path ;;
      set_path "data_netcdf_path" data_netcdf_path ;;
      write_product data_netcdf_path dataset ;;
      write_product data_path (astype_int32 E dataset) ;;
      write_product mosaic_path dataset ;;
      write_product result_path dataset ;;
      let dates := acquisition_list E full_metadata in
      (if (1 <? length dates)%nat then
         let plot_path := Py.path_join (result_dir cfg) "plot_path.png" in
         set_path "plot_path" plot_path ;;
         create_2d_plot plot_path
       else ret tt) ;;
      set_complete ;;
      update_status "OK"
        "All products have been generated. Your result will be loaded on the map." ;;
      ret VTrue
  | _ => raise "TypeError"
  end.

(** The pixel drill. The band math of the single pixel only feeds the
    plot, of which the model records the path. *)
Definition pixel_drill : task_body :=
  parameters <- call parse_parameters_from_task ;;
  _ <- call (validate_parameters parameters) ;;
  st <- get_status ;;
  if String.eqb st "ERROR" then return_ VNone
  else
    p <- as_params parameters ;;
    match get_stacked_datasets_by_extent E p with
    | None => raise "AttributeError"
    | Some single_pixel =>
        let clear_mask := clean_mask_func E (isel_first_pixel E single_pixel) in
        let single_pixel := where_valid E single_pixel in
        dates <- get_var single_pixel "time" ;;
        if (length dates <? 2)%nat then
          update_status "ERROR"
            "There is only a single acquisition for your parameter set." ;;
          return_ VNone
        else
          let plot_path := Py.path_join (result_dir cfg) "plot_path.png" in
          set_path "plot_path" plot_path ;;
          create_2d_plot plot_path ;;
          set_complete ;;
          update_status "OK" "Done processing pixel drill." ;;
          ret VNone
    end.

(** The task behind each signature of the pipeline. *)
Definition call_task (s : signature) (input : option value) : task_body :=
  match s, input with
  | ProcessingTask g t geographic_chunk time_chunk parameters, None =>
      call (processing_task g t geographic_chunk time_chunk parameters)
  | RecombineTimeChunks n, Some chunks => call (recombine_time_chunks n chunks)
  | ProcessBandMath n, Some chunk => call (process_band_math n chunk)
  | RecombineGeographicChunks None, Some chunks =>
      call (recombine_geographic_chunks chunks)
  | CreateOutputProducts, Some data => call (create_output_products data)
  | TaskCleanUp, None => task_clean_up
  | _, _ => raise "TypeError"
  end.

(** [run]: the chain of parsing, validation, chunking and the start of the
    processing. *)
Definition run : task_body :=
  parameters <- call parse_parameters_from_task ;;
  parameters <- call (validate_parameters parameters) ;;
  chunk_details <- call (perform_task_chunking parameters) ;;
  call (start_chunk_processing chunk_details).

(** A whole run: [run], then the scheduled pipeline on the workers. *)
Definition run_pipeline : task_body :=
  _ <- run ;;
  fun w =>
    match scheduled w with
    | Some pipeline => exec call_task pipeline None w
    | None => Next VNone w
    end.

End Stages.
End FractionalCover.

(** ** apps/tsm/tasks.py *)
Module Tsm.
Section Stages.

Context {num : Type} `{Numeric num}.
Variable E : Env num.
Variable cfg : TaskConfig.

Local Abbreviation Dataset := (gmap string (list num)).
Local Abbreviation task_body := (stage num value value).

Definition parse_parameters_from_task : task_body :=
  let parameters :=
    {| platforms := cfg_platforms cfg;
       products := cfg_products cfg;
       time := (time_start cfg, time_end cfg);
       longitude := (longitude_min cfg, longitude_max cfg);
       latitude := (latitude_min cfg, latitude_max cfg);
       measurements := cfg_measurements cfg |} in
  cancellable E ;;
  update_status "WAIT" "Parsed out parameters." ;;
  ret (VParams parameters).

Definition validate_parameters (parameters : value) : task_body :=
  cancellable E ;;
  p <- as_params parameters ;;
  let acquisitions := list_combined_acquisition_dates E p in
  if (length acquisitions <? 1)%nat then
    set_complete ;;
    update_status "ERROR" "There are no acquistions for this parameter set." ;;
    return_ VNone
  else
    cancellable E ;;
    update_status "WAIT" "Validated parameters." ;;
    match products p with
    | [] => raise "IndexError"
    | product :: _ =>
        if negb (validate_measurements E product (measurements p)) then
          set_complete ;;
          update_status "ERROR"
            ("The provided Satellite model measurements aren't valid for the product. Please check the measurements listed in the "
               ++ satellite_name cfg ++ " model.") ;;
          return_ VNone
        else ret (VParams p)
    end.

Definition perform_task_chunking (parameters : value) : task_body :=
  match parameters with
  | VNone => return_ VNone
  | _ =>
      cancellable E ;;
      p <- as_params parameters ;;
      let dates := list_combined_acquisition_dates E p in
      let geographic_chunks :=
        create_geographic_chunks E (longitude p) (latitude p)
          (chunk_size_geographic cfg) in
      let time_chunks :=
        create_time_chunks E dates (reverse_time cfg) (chunk_size_time cfg) in
      cancellable E ;;
      update_status "WAIT" "Chunked parameter set." ;;
      ret (VDetails p geographic_chunks time_chunks)
  end.

(** The pipeline that [start_chunk_processing] composes: for each time chunk
    a group of the processing tasks of all geographic chunks, chained into
    the geographic recombination; the group of these chains is chained into
    the time recombination, the output stage and the clean-up. *)
Definition processing_pipeline (parameters : Params)
  (geographic_chunks : list GeoChunk) (time_chunks : list (list Z))
  (num_scn_per_chk : nat) : canvas :=
  Chain
    [ Group
        (map (fun '(time_index, time_chunk) =>
                Chain
                  [ Group
                      (map (fun '(geo_index, geographic_chunk) =>
                              Sig (ProcessingTask geo_index time_index
                                     geographic_chunk time_chunk parameters))
                         (Py.enumerate geographic_chunks));
                    Sig (RecombineGeographicChunks (Some num_scn_per_chk)) ])
           (Py.enumerate time_chunks));
      Sig (RecombineTimeChunks None);
      Sig CreateOutputProducts;
      SigI TaskCleanUp ].

Definition start_chunk_processing (chunk_details : value) : task_body :=
  match chunk_details with
  | VNone => return_ VNone
  | VDetails parameters geographic_chunks time_chunks =>
      let num_scenes :=
        (length geographic_chunks * sum_len time_chunks)%nat in
      num_scn_per_chk <-
        round_div num_scenes
          (length time_chunks * length geographic_chunks) ;;
      reset_scenes (2 * num_scenes) ;;
      cancellable E ;;
      update_status "WAIT" "Starting processing." ;;
      apply_async
        (processing_pipeline parameters geographic_chunks time_chunks
           num_scn_per_chk) ;;
      ret VTrue
  | _ => raise "AttributeError"
  end.

(** [(chunk size or 1) * time_chunk_id]: the index of the first animation
    frame of a time chunk. *)
Definition frames_per_chunk : nat := default 1%nat (chunk_size_time cfg).

Definition animation_path (geo_chunk_id index : nat) : string :=
  Py.path_join (temp_path cfg)
    ("animation_" ++ Py.str geo_chunk_id ++ "_" ++ Py.str index ++ ".nc").

(** One pass of the load loop of [processing_task]. [tsm_analysis] and
    [combined_data] name one object in the source, and the running analysis
    updates its intermediate product in place: the loop carries that one
    dataset as [combined_data], next to [water_analysis] and [metadata]. *)
Definition processing_step (geo_chunk_id base_index : nat)
  (step : nat * range)
  (acc : Params * option Dataset * option Dataset * Meta)
  : stage num value (Params * option Dataset * option Dataset * Meta) :=
  let '(updated_params, water_analysis, combined_data, metadata) := acc in
  let '(time_index, time_range) := step in
  let updated_params := update_time updated_params time_range in
  let data := get_stacked_datasets_by_extent E updated_params in
  cancellable E ;;
  match data with
  | None => ret (updated_params, water_analysis, combined_data, metadata)
  | Some data =>
      if negb (has_time data)
      then ret (updated_params, water_analysis, combined_data, metadata)
      else
        let clear_mask := clean_mask_func E data in
        let wofs_data := tsm_processing_method E data clear_mask in
        let water_analysis :=
          perform_timeseries_analysis E wofs_data "wofs" water_analysis in
        swir2 <- get_var data "swir2" ;;
        wofs <- get_var wofs_data "wofs" ;;
        let clear_mask :=
          mask_out
            (zip_with orb (map (fun x => nltb (nof_Q 100) x) swir2)
               (map (fun x => neqb x (nof_Q 0)) wofs))
            clear_mask in
        let tsm_data := tsm E data clear_mask in
        let tsm_analysis :=
          perform_timeseries_analysis E tsm_data "tsm" combined_data in
        cancellable E ;;
        total_data <- get_var water_analysis "total_data" ;;
        let combined_data := <["wofs" := total_data]> tsm_analysis in
        total_clean <- get_var water_analysis "total_clean" ;;
        let combined_data := <["wofs_total_clean" := total_clean]> combined_data in
        let metadata :=
          metadata_from_dataset E metadata tsm_data clear_mask updated_params in
        (if negb (String.eqb (animation_id cfg) "none") then
           let path := animation_path geo_chunk_id (base_index + time_index) in
           let animated_data :=
             if String.eqb (animation_id cfg) "scene"
             then isel_time0 E tsm_data else combined_data in
           to_netcdf animated_data path
         else ret tt) ;;
        add_scenes 1 ;;
        ret (updated_params, Some water_analysis, Some combined_data, metadata)
  end.

Definition chunk_path (geo_chunk_id time_chunk_id : nat) : string :=
  Py.path_join (temp_path cfg)
    (Py.str geo_chunk_id ++ "_" ++ Py.str time_chunk_id ++ ".nc").

Definition processing_task (geo_chunk_id time_chunk_id : nat)
  (geographic_chunk : GeoChunk) (time_chunk : list Z) (parameters : Params)
  : task_body :=
  cancellable E ;;
  ex <- temp_path_exists ;;
  if negb ex then return_ VNone
  else
    times <- load_ranges cfg time_chunk ;;
    let updated_params := update_geo parameters geographic_chunk in
    let base_index := (frames_per_chunk * time_chunk_id)%nat in
    acc <- for_each (processing_step geo_chunk_id base_index)
             (Py.enumerate times) (updated_params, None, None, ∅) ;;
    match acc with
    | (_, _, None, _) => return_ VNone
    | (_, _, Some combined_data, metadata) =>
        let path := chunk_path geo_chunk_id time_chunk_id in
        to_netcdf combined_data path ;;
        ret (VChunk (path, metadata,
                     {| geo_chunk_id := geo_chunk_id;
                        time_chunk_id := time_chunk_id |}))
    end.

Definition recombine_geographic_step (num_scn_per_chk : option nat)
  (chunk : ChunkOut) (acc : Meta * list Dataset)
  : stage num value (Meta * list Dataset) :=
  let '(metadata, chunk_data) := acc in
  let metadata := combine_metadata E metadata (co_meta chunk) in
  data <- open_dataset (co_path chunk) ;;
  add_scenes_opt num_scn_per_chk ;;
  ret (metadata, chunk_data ++ [data]).

(** The frames of the geographic chunks that exist for one index. *)
Definition collect_frame (index : nat) (chunk : ChunkOut)
  (animated_data : list Dataset) : stage num value (list Dataset) :=
  let path := animation_path (geo_chunk_id (co_ids chunk)) index in
  ex <- path_exists path ;;
  if ex : bool then
    d <- open_dataset path ;;
    ret (animated_data ++ [d])
  else ret animated_data.

Definition combined_frame_path (index : nat) : string :=
  Py.path_join (temp_path cfg) ("animation_" ++ Py.str index ++ ".nc").

Definition combine_frames (total_chunks : list ChunkOut) (base_index : nat)
  (index : nat) (_ : unit) : stage num value unit :=
  animated_data <-
    for_each (collect_frame (base_index + index)) total_chunks [] ;;
  if (0 <? length animated_data)%nat then
    to_netcdf (combine_geographic_chunks E animated_data)
      (combined_frame_path (base_index + index))
  else ret tt.

Definition recombine_geographic_chunks (num_scn_per_chk : option nat)
  (chunks : value) : task_body :=
  cancellable E ;;
  let total_chunks := List.filter not_none (as_chunk_list chunks) in
  if (length total_chunks =? 0)%nat then return_ VNone
  else
    total_chunks <- as_chunks total_chunks ;;
    match total_chunks with
    | [] => raise "IndexError"
    | first :: _ =>
        let ids := co_ids first in
        acc <- for_each (recombine_geographic_step num_scn_per_chk)
                 total_chunks (∅, []) ;;
        let '(metadata, chunk_data) := acc in
        let combined_data := combine_geographic_chunks E chunk_data in
        (if negb (String.eqb (animation_id cfg) "none") then
           let base_index := (frames_per_chunk * time_chunk_id ids)%nat in
           for_each (combine_frames total_chunks base_index)
             (seq 0 frames_per_chunk) tt
         else ret tt) ;;
        let path :=
          Py.path_join (temp_path cfg)
            ("recombined_geo_" ++ Py.str (time_chunk_id ids) ++ ".nc") in
        to_netcdf combined_data path ;;
        ret (VChunk (path, metadata, ids))
    end.

(** [combine_intermediates(dataset, dataset_intermediate)]: the statements
    of the source in their order, each reading the variables it needs;
    [None] stands for the [KeyError] of a missing variable. The result is
    the updated [dataset_intermediate]. *)
Definition combine_intermediates (dataset dataset_intermediate : Dataset)
  : option Dataset :=
  a ← dataset_intermediate !! "total_data";
  b ← dataset !! "total_data";
  let di := <["total_data" := zip_with nadd a b]> dataset_intermediate in
  a ← di !! "total_clean";
  b ← dataset !! "total_clean";
  let di := <["total_clean" := zip_with nadd a b]> di in
  a ← di !! "total_data";
  b ← di !! "total_clean";
  let di := <["normalized_data" := zip_with ndiv a b]> di in
  a ← di !! "min";
  b ← dataset !! "min";
  let di := <["min" := zip_with nmin a b]> di in
  a ← di !! "max";
  b ← dataset !! "max";
  let di := <["max" := zip_with nmax a b]> di in
  a ← di !! "wofs";
  b ← dataset !! "wofs";
  let di := <["wofs" := zip_with nadd a b]> di in
  a ← di !! "wofs_total_clean";
  b ← dataset !! "wofs_total_clean";
  Some (<["wofs_total_clean" := zip_with nadd a b]> di).

Definition final_frame_path (index : nat) : string :=
  Py.path_join (temp_path cfg) ("animation_final_" ++ Py.str index ++ ".nc").

(** [if combined_data] on [None] or a dataset *)
Definition truthy (combined_data : option Dataset) : bool :=
  match combined_data with
  | None => false
  | Some d => negb (bool_decide (d = ∅))
  end.

Definition animate_frame (combined_data : option Dataset) (index : nat)
  (_ : unit) : stage num value unit :=
  let path := combined_frame_path index in
  ex <- path_exists path ;;
  if ex : bool then
    animated_data <- open_dataset path ;;
    animated_data <-
      match combined_data with
      | Some d =>
          if (negb (String.eqb (animation_id cfg) "scene")
              && truthy combined_data)%bool
          then lift_key (combine_intermediates d animated_data)
          else ret animated_data
      | None => ret animated_data
      end ;;
    to_netcdf animated_data (final_frame_path index)
  else ret tt.

Definition generate_animation (index : nat) (combined_data : option Dataset)
  : stage num value unit :=
  let base_index := (frames_per_chunk * index)%nat in
  for_each (fun i => animate_frame combined_data (base_index + i))
    (seq 0 frames_per_chunk) tt.

(** One pass of the fold of [recombine_time_chunks]; the loop carries
    [metadata] and [combined_data]. *)
Definition recombine_time_step (step : nat * ChunkOut)
  (acc : Meta * option Dataset) : stage num value (Meta * option Dataset) :=
  let '(index, chunk) := step in
  let '(metadata, combined_data) := acc in
  let metadata := co_meta chunk ∪ metadata in
  data <- open_dataset (co_path chunk) ;;
  match combined_data with
  | None =>
      (if negb (String.eqb (animation_id cfg) "none")
       then generate_animation index None else ret tt) ;;
      ret (metadata, Some data)
  | Some combined_data =>
      combined_data <- lift_key (combine_intermediates data combined_data) ;;
      cancellable E ;;
      (if negb (String.eqb (animation_id cfg) "none")
       then generate_animation index (Some combined_data) else ret tt) ;;
      ret (metadata, Some combined_data)
  end.

Definition recombine_time_chunks (chunks : value) : task_body :=
  cancellable E ;;
  let chunks := List.filter not_none (as_chunk_list chunks) in
  if (length chunks =? 0)%nat then return_ VNone
  else
    chunks <- as_chunks chunks ;;
    let total_chunks := Py.sorted co_path chunks in
    match total_chunks with
    | [] => raise "IndexError"
    | first :: _ =>
        let ids := co_ids first in
        acc <- for_each recombine_time_step (Py.enumerate total_chunks)
                 (∅, None) ;;
        match acc with
        | (_, None) => raise "AttributeError"
        | (metadata, Some combined_data) =>
            let path :=
              Py.path_join (temp_path cfg)
                ("recombined_time_" ++ Py.str (geo_chunk_id ids) ++ ".nc") in
            to_netcdf combined_data path ;;
            ret (VChunk (path, metadata, ids))
        end
    end.

(** Modelled from the spec: [nan_to_num] of the data cube utilities, which
    are not among the sources. Every non-finite value of the dataset is
    replaced by the fill value. *)
Definition nan_to_num (dataset : Dataset) (number : num) : Dataset :=
  map (fun x => if nfinite x then x else number) <$> dataset.

(** Modelled from the spec: [mask_water_quality] of the data cube utilities,
    which are not among the sources. The estimates of a pixel are suppressed
    where its water confidence is low. *)
Definition mask_water_quality (dataset : Dataset) (wofs : list num) : Dataset :=
  (fun a =>
     zip_with (fun x w => if low_water_confidence E w then nnan else x) a wofs)
    <$> dataset.

(** The frame of one index of the animation, rendered next to the scratch
    files; the loop counts the frames appended to the writer. *)
Definition render_frame (dataset_wofs : list num) (index : nat) (frames : nat)
  : stage num value nat :=
  let path := final_frame_path index in
  ex <- path_exists path ;;
  if ex : bool then
    let png_path :=
      Py.path_join (temp_path cfg) ("animation_" ++ Py.str index ++ ".png") in
    animated_data <- open_dataset path ;;
    let animated_data :=
      if negb (String.eqb (animation_id cfg) "scene")
      then mask_water_quality animated_data dataset_wofs
      else animated_data in
    to_netcdf animated_data png_path ;;
    ret (S frames)
  else ret frames.

(** The output stage. [astype('float64')] is the identity on pixel values;
    the metadata methods of the task model fill fields that are not part of
    [TaskRecord]. *)
Definition create_output_products (data : value) : task_body :=
  cancellable E ;;
  match data with
  | VChunk c =>
      let full_metadata := co_meta c in
      dataset <- open_dataset (co_path c) ;;
      max_ <- get_var dataset "max" ;;
      normalized_data <- get_var dataset "normalized_data" ;;
      let dataset := <["variability" := zip_with nsub max_ normalized_data]> dataset in
      wofs <- get_var dataset "wofs" ;;
      wofs_total_clean <- get_var dataset "wofs_total_clean" ;;
      let dataset := <["wofs" := zip_with ndiv wofs wofs_total_clean]> dataset in
      let dataset := nan_to_num dataset (nof_Q 0) in
      dataset_wofs <- get_var dataset "wofs" ;;
      let dataset_masked := mask_water_quality dataset dataset_wofs in
      let result_path := Py.path_join (result_dir cfg) "tsm.png" in
      let clear_observations_path :=
        Py.path_join (result_dir cfg) "clear_observations.png" in
      let water_percentage_path :=
        Py.path_join (result_dir cfg) "water_percentage.png" in
      let data_path := Py.path_join (result_dir cfg) "data_tif.tif" in
      let data_netcdf_path := Py.path_join (result_dir cfg) "data_netcdf.nc" in
      let animation_path :=
        if negb (String.eqb (animation_id cfg) "none")
        then Py.path_join (result_dir cfg) "animation.gif" else "" in
      set_path "result_path" result_path ;;
      set_path "clear_observations_path" clear_observations_path ;;
      set_path "water_percentage_path" water_percentage_path ;;
      set_path "data_path" data_path ;;
      set_path "data_netcdf_path" data_netcdf_path ;;
      set_path "animation_path" animation_path ;;
      write_product data_netcdf_path dataset_masked ;;
      write_product data_path dataset_masked ;;
      write_product result_path dataset_masked ;;
      write_product clear_observations_path dataset_masked ;;
      write_product water_percentage_path dataset_masked ;;
      (if negb (String.eqb (animation_id cfg) "none") then
         frames <- for_each (render_frame dataset_wofs)
                     (seq 0 (size full_metadata)) 0%nat ;;
         write_animation animation_path frames
       else ret tt) ;;
      let dates := acquisition_list E full_metadata in
      (if (1 <? length dates)%nat then
         let plot_path := Py.path_join (result_dir cfg) "plot_path.png" in
         set_path "plot_path" plot_path ;;
         create_2d_plot plot_path
       else ret tt) ;;
      set_complete ;;
      update_status "OK"
        "All products have been generated. Your result will be loaded on the map." ;;
      ret VTrue
  | _ => raise "TypeError"
  end.

(** The pixel drill. The water and TSM series of the single pixel only feed
    the plot, of which the model records the path. *)
Definition pixel_drill : task_body :=
  parameters <- call parse_parameters_from_task ;;
  _ <- call (validate_parameters parameters) ;;
  st <- get_status ;;
  if String.eqb st "ERROR" then return_ VNone
  else
    p <- as_params parameters ;;
    match get_stacked_datasets_by_extent E p with
    | None => raise "AttributeError"
    | Some single_pixel =>
        let clear_mask := clean_mask_func E (isel_first_pixel E single_pixel) in
        let single_pixel := where_valid E single_pixel in
        dates <- get_var single_pixel "time" ;;
        if (length dates <? 2)%nat then
          update_status "ERROR"
            "There is only a single acquisition for your parameter set." ;;
          return_ VNone
        else
          let plot_path := Py.path_join (result_dir cfg) "plot_path.png" in
          set_path "plot_path" plot_path ;;
          create_2d_plot plot_path ;;
          set_complete ;;
          update_status "OK" "Done processing pixel drill." ;;
          ret VNone
    end.

(** The task behind each signature of the pipeline. *)
Definition call_task (s : signature) (input : option value) : task_body :=
  match s, input with
  | ProcessingTask g t geographic_chunk time_chunk parameters, None =>
      call (processing_task g t geographic_chunk time_chunk parameters)
  | RecombineGeographicChunks n, Some chunks =>
      call (recombine_geographic_chunks n chunks)
  | RecombineTimeChunks None, Some chunks => call (recombine_time_chunks chunks)
  | CreateOutputProducts, Some data => call (create_output_products data)
  | TaskCleanUp, None => task_clean_up
  | _, _ => raise "TypeError"
  end.

Definition run : task_body :=
  parameters <- call parse_parameters_from_task ;;
  parameters <- call (validate_parameters parameters) ;;
  chunk_details <- call (perform_task_chunking parameters) ;;
  call (start_chunk_processing chunk_details).

(** A whole run: [run], then the scheduled pipeline on the workers. *)
Definition run_pipeline : task_body :=
  _ <- run ;;
  fun w =>
    match scheduled w with
    | Some pipeline => exec call_task pipeline None w
    | None => Next VNone w
    end.

End Stages.
End Tsm.

(** ** Exact pixel values

    The rationals extended with the two infinities and NaN, with the
    conventions of IEEE arithmetic but no rounding. *)
Inductive xnum :=
| XFin (q : Qc)
| XPosInf
| XNegInf
| XNaN.

Definition xadd (a b : xnum) : xnum :=
  match a, b with
  | XNaN, _ | _, XNaN => XNaN
  | XPosInf, XNegInf | XNegInf, XPosInf => XNaN
  | XPosInf, _ | _, XPosInf => XPosInf
  | XNegInf, _ | _, XNegInf => XNegInf
  | XFin p, XFin q => XFin (p + q)%Qc
  end.

Definition xneg (a : xnum) : xnum :=
  match a with
  | XFin q => XFin (- q)%Qc
  | XPosInf => XNegInf
  | XNegInf => XPosInf
  | XNaN => XNaN
  end.

Definition xsub (a b : xnum) : xnum := xadd a (xneg b).

Definition qle (p q : Qc) : bool := Qle_bool p q.

Definition xdiv (a b : xnum) : xnum :=
  match a, b with
  | XNaN, _ | _, XNaN => XNaN
  | XFin p, XFin q =>
      if Qc_eq_dec q 0%Qc then
        if Qc_eq_dec p 0%Qc then XNaN
        else if qle 0%Qc p then XPosInf else XNegInf
      else XFin (p / q)%Qc
  | XFin _, _ => XFin 0%Qc
  | XPosInf, XFin q => if qle 0%Qc q then XPosInf else XNegInf
  | XNegInf, XFin q => if qle 0%Qc q then XNegInf else XPosInf
  | _, _ => XNaN
  end.

(** [a <= b] on the values that are not NaN *)
Definition xle (a b : xnum) : bool :=
  match a, b with
  | XNegInf, _ | _, XPosInf => true
  | XFin p, XFin q => qle p q
  | _, _ => false
  end.

Definition xmin (a b : xnum) : xnum :=
  match a, b with
  | XNaN, x | x, XNaN => x
  | _, _ => if xle a b then a else b
  end.

Definition xmax (a b : xnum) : xnum :=
  match a, b with
  | XNaN, x | x, XNaN => x
  | _, _ => if xle a b then b else a
  end.

Definition xeqb (a b : xnum) : bool :=
  match a, b with
  | XFin p, XFin q => if Qc_eq_dec p q then true else false
  | XPosInf, XPosInf | XNegInf, XNegInf => true
  | _, _ => false
  end.

Definition xltb (a b : xnum) : bool :=
  match a, b with
  | XNaN, _ | _, XNaN => false
  | _, _ => negb (xle b a)
  end.

Definition xfinite (a : xnum) : bool :=
  match a with
  | XFin _ => true
  | _ => false
  end.

#[export] Instance xnum_numeric : Numeric xnum := {|
  nadd := xadd; nsub := xsub; ndiv := xdiv; nmin := xmin; nmax := xmax;
  neqb := xeqb; nltb := xltb; nof_Q := fun q => XFin (Q2Qc q);
  nnan := XNaN; nfinite := xfinite
|}.

(** ** A small executable environment

    One pixel, acquisitions given by their dates; every collaborator is a
    total function so that whole runs evaluate. *)

Abbreviation XDataset := (gmap string (list xnum)).

Definition xz (z : Z) : xnum := XFin (Q2Qc (inject_Z z)).

(** The acquisitions inside a time range. *)
Definition demo_load (dates : list Z) (p : Params) : option XDataset :=
  let inside :=
    List.filter (fun t => (fst (time p) <=? t)%Z && (t <=? snd (time p))%Z)%bool
      dates in
  match inside with
  | [] => None
  | t :: _ =>
      Some {[ "time" := map xz inside; "red" := [xz (List.last inside t)];
              "swir2" := [xz 50] ]}
  end.

(** Runs of at most [n] dates, in order. *)
Fixpoint chunks_of (fuel n : nat) (l : list Z) : list (list Z) :=
  match fuel, l with
  | S fuel', _ :: _ => take n l :: chunks_of fuel' n (drop n l)
  | _, _ => []
  end.

Definition demo_time_chunks (dates : list Z) (reversed : bool)
  (size : option nat) : list (list Z) :=
  let dates := if reversed then rev dates else dates in
  match size with
  | Some (S n) => chunks_of (length dates) (S n) dates
  | _ => [dates]
  end.

(** The most recent pixel wins: the new data replaces the intermediate
    product wherever it is clean. *)
Definition demo_mosaic (data : XDataset) (clean : Mask)
  (intermediate : option XDataset) : XDataset :=
  match intermediate with
  | None => data
  | Some i =>
      union_with
        (fun new old =>
           Some (zip_with (fun c no => if c : bool then no.1 else no.2)
                   clean (zip new old)))
        data i
  end.

(** Mean and extrema of one band, one value per pixel. *)
Definition demo_analysis (data : XDataset) (band : string)
  (intermediate : option XDataset) : XDataset :=
  let x := default [] (data !! band) in
  let ones := map (fun _ => xz 1) x in
  match intermediate with
  | None =>
      {[ "total_data" := x; "total_clean" := ones;
         "normalized_data" := zip_with xdiv x ones; "min" := x; "max" := x ]}
  | Some i =>
      let get k := default [] (i !! k) in
      let total_data := zip_with xadd (get "total_data") x in
      let total_clean := zip_with xadd (get "total_clean") ones in
      <["total_data" := total_data]>
        (<["total_clean" := total_clean]>
           (<["normalized_data" := zip_with xdiv total_data total_clean]>
              (<["min" := zip_with xmin (get "min") x]>
                 (<["max" := zip_with xmax (get "max") x]> i))))
  end.

Definition demo_env (dates : list Z) (cancel : nat -> bool) : Env xnum := {|
  cancel_flag := cancel;
  list_combined_acquisition_dates := fun _ => dates;
  get_stacked_datasets_by_extent := demo_load dates;
  validate_measurements := fun _ _ => true;
  clean_mask_func := fun d => map (fun _ => true) (default [] (d !! "red"));
  metadata_from_dataset := fun m d _ _ =>
    <["acquisitions" := Py.str (size m + 1)]> m;
  combine_metadata := fun a b => b ∪ a;
  acquisition_list := fun _ => dates;
  create_geographic_chunks := fun lon lat _ =>
    [{| gc_latitude := lat; gc_longitude := lon |}];
  create_time_chunks := demo_time_chunks;
  combine_geographic_chunks := fun l => default ∅ (head l);
  add_timestamp_data_to_xr := fun d => d;
  isel_first_pixel := fun d => d;
  where_valid := fun d => d;
  astype_int32 := fun d => d;
  isel_time0 := fun d => d;
  low_water_confidence := fun x => xltb x (XFin (Q2Qc (8 # 10)));
  fc_processing_method := demo_mosaic;
  wofs_classify := fun d _ => {[ "wofs" := map (fun _ => xz 0) (default [] (d !! "red")) ]};
  frac_coverage_classify := fun d _ =>
    {[ "bs" := [xz 10]; "pv" := [xz 60]; "npv" := [xz 30] ]};
  tsm_processing_method := fun d _ =>
    {[ "wofs" := map (fun _ => xz 1) (default [] (d !! "red")) ]};
  tsm := fun d _ => {[ "tsm" := default [] (d !! "red") ]};
  perform_timeseries_analysis := demo_analysis
|}.

Definition demo_cfg (chunk_size : option nat) : TaskConfig := {|
  temp_path := "/datacube/ui_results_temp/1";
  result_dir := "/datacube/ui_results/1";
  cfg_platforms := ["LANDSAT_8"];
  cfg_products := ["ls8_ledaps"];
  cfg_measurements := ["red"; "swir2"];
  time_start := 0;
  time_end := 200;
  longitude_min := 0;
  longitude_max := 1;
  latitude_min := 0;
  latitude_max := 1;
  compositor_is_iterative := true;
  iterative := true;
  reverse_time := false;
  chunk_size_time := chunk_size;
  chunk_size_geographic := None;
  animation_id := "none";
  satellite_name := "Landsat 8"
|}.

Definition demo_world : World xnum := {|
  task := {| status := ""; message := ""; complete := false;
             scenes_processed := 0; total_scenes := 0; paths := ∅ |};
  temp_exists := true;
  scratch := ∅;
  results := ∅;
  scheduled := None;
  clock := 0;
  trace := []
|}.

(** Eleven acquisitions, ten microseconds apart. *)
Definition dates11 : list Z := [10; 20; 30; 40; 50; 60; 70; 80; 90; 100; 110]%Z.

(** What [processing_task] returns for a chunk of the fractional cover
    pipeline, and what [recombine_geographic_chunks] returns for a time
    chunk of the TSM pipeline (paths and provenance). *)
Definition fc_chunk_out (cfg : TaskConfig) (g t : nat) : ChunkOut :=
  (FractionalCover.chunk_path cfg g t, ∅,
   {| geo_chunk_id := g; time_chunk_id := t |}).

Definition tsm_geo_out (cfg : TaskConfig) (g t : nat) : ChunkOut :=
  (Py.path_join (temp_path cfg) ("recombined_geo_" ++ Py.str t ++ ".nc"), ∅,
   {| geo_chunk_id := g; time_chunk_id := t |}).

(** ** Vocabulary of the statements *)

(** The parameters that [parse_parameters_from_task] reads off the task. *)
Definition parsed (cfg : TaskConfig) : Params :=
  {| platforms := cfg_platforms cfg; products := cfg_products cfg;
     time := (time_start cfg, time_end cfg);
     longitude := (longitude_min cfg, longitude_max cfg);
     latitude := (latitude_min cfg, latitude_max cfg);
     measurements := cfg_measurements cfg |}.

Definition no_acquisitions_message : string :=
  "There are no acquistions for this parameter set.".

Definition median_message : string :=
  "Median pixel operations are only supported for single year time periods.".

(** A run that stopped in [validate_parameters] for want of acquisitions:
    the chain ran to its end on [None], the status is [ERROR] with its
    message, the task is complete, the trace holds the two checks and the
    two status updates only, and nothing was scheduled or written. *)
Definition halted_at_validation {num} (w : World num)
  (o : outcome num value value) : Prop :=
  exists w',
    o = Next VNone w'
    /\ status (task w') = "ERROR"
    /\ message (task w') = no_acquisitions_message
    /\ complete (task w') = true
    /\ trace w' = ([EvStatus "ERROR" no_acquisitions_message; EvCheck false;
                    EvStatus "WAIT" "Parsed out parameters."; EvCheck false]
                     ++ trace w)%list
    /\ scheduled w' = scheduled w
    /\ scratch w' = scratch w.

(** A task over more than a year with the median pixel compositor. *)
Definition median_cfg : TaskConfig := {|
  temp_path := "/datacube/ui_results_temp/2";
  result_dir := "/datacube/ui_results/2";
  cfg_platforms := ["LANDSAT_8"];
  cfg_products := ["ls8_ledaps"];
  cfg_measurements := ["red"; "swir2"];
  time_start := 0;
  time_end := 368 * 86400000000;
  longitude_min := 0;
  longitude_max := 1;
  latitude_min := 0;
  latitude_max := 1;
  compositor_is_iterative := false;
  iterative := false;
  reverse_time := false;
  chunk_size_time := None;
  chunk_size_geographic := None;
  animation_id := "none";
  satellite_name := "Landsat 8"
|}.

Definition is_check (ev : event) : Prop :=
  match ev with
  | EvCheck _ => True
  | _ => False
  end.

(** Between [w] and [w'] nothing happened but cancellation checks. *)
Definition only_checked {num} (w w' : World num) : Prop :=
  task w' = task w /\ temp_exists w' = temp_exists w
  /\ scratch w' = scratch w /\ results w' = results w
  /\ scheduled w' = scheduled w
  /\ exists evs, trace w' = (evs ++ trace w)%list /\ Forall is_check evs.

(** The world after one cancellation check. *)
Definition checked {num} (E : Env num) (w : World num) : World num :=
  log (EvCheck (cancel_flag E (clock w))) (tick w).

(** A task that returned [None] having done nothing but check the flag. *)
Definition returns_none {num} (w : World num) (o : outcome num value value)
  : Prop :=
  exists w', o = Return VNone w' /\ only_checked w w'.

(** Every load returns no data or a dataset without a time dimension. *)
Definition no_data_anywhere {num} (E : Env num) : Prop :=
  forall p, match get_stacked_datasets_by_extent E p with
            | Some d => has_time d = false
            | None => True
            end.

(** The input of a reducer holds [None] entries only. *)
Definition all_none (chunks : value) : Prop :=
  match chunks with
  | VNone => True
  | VList l => Forall (fun v => v = VNone) l
  | _ => False
  end.

(** The world once [start_chunk_processing] has stored its estimate of the
    work and reset the counter. *)
Definition with_totals {num} (total : nat) (w : World num) : World num :=
  with_task (fun t =>
    {| status := status t; message := message t; complete := complete t;
       scenes_processed := 0; total_scenes := total; paths := paths t |}) w.

(** [w'] is [w] after the status "Starting processing." and the scheduling
    of [pipeline]. *)
Definition started {num} (pipeline : canvas) (w w' : World num) : Prop :=
  scheduled w' = Some pipeline
  /\ status (task w') = "WAIT"
  /\ message (task w') = "Starting processing."
  /\ complete (task w') = complete (task w)
  /\ scenes_processed (task w') = scenes_processed (task w)
  /\ total_scenes (task w') = total_scenes (task w)
  /\ scratch w' = scratch w
  /\ trace w' = EvSchedule :: EvStatus "WAIT" "Starting processing." :: trace w.

(** The geographic chunk of the small environment. *)
Definition demo_geo : GeoChunk :=
  {| gc_latitude := (0, 1)%Z; gc_longitude := (0, 1)%Z |}.

(** ** The statistics of the TSM time reduction *)

Section StatisticsDefs.
Context {num : Type} `{Numeric num}.
Local Abbreviation Dataset := (gmap string (list num)).














End StatisticsDefs.

(** An intermediate artifact of one pixel with the value [x] seen once. *)
Definition demo_artifact (x : Z) : XDataset :=
  {[ "total_data" := [xz x]; "total_clean" := [xz 1];
     "normalized_data" := [xz x]; "min" := [xz x]; "max" := [xz x];
     "wofs" := [xz 1]; "wofs_total_clean" := [xz 1] ]}.


(** ** Vocabulary of the reducers *)

(** [metadata.update(chunk[1])] over the chunks in fold order. *)
Definition updated_metadata (chunks : list ChunkOut) (metadata : Meta) : Meta :=
  fold_left (fun md c => co_meta c ∪ md) chunks metadata.

(** The path of the artifact of a time reduction. *)
Definition recombined_time_path (cfg : TaskConfig) (first : ChunkOut) : string :=
  Py.path_join (temp_path cfg)
    ("recombined_time_" ++ Py.str (geo_chunk_id (co_ids first)) ++ ".nc").

(** The path of the artifact of a geographic reduction. *)
Definition recombined_geo_path (cfg : TaskConfig) (first : ChunkOut) : string :=
  Py.path_join (temp_path cfg)
    ("recombined_geo_" ++ Py.str (time_chunk_id (co_ids first)) ++ ".nc").

(** The world after a write to the scratch directory. *)
Definition written {num} (path : string) (data : gmap string (list num))
  (w : World num) : World num :=
  log (EvWrite path) (with_scratch (insert path data) w).

(** Between [w] and [w'] the counter advanced by [n] scenes and nothing else
    of the task, the scratch directory or the results changed. *)
Definition progressed {num} (n : nat) (w w' : World num) : Prop :=
  status (task w') = status (task w)
  /\ message (task w') = message (task w)
  /\ complete (task w') = complete (task w)
  /\ total_scenes (task w') = total_scenes (task w)
  /\ paths (task w') = paths (task w)
  /\ scenes_processed (task w') = (scenes_processed (task w) + n)%nat
  /\ temp_exists w' = temp_exists w
  /\ scratch w' = scratch w
  /\ results w' = results w
  /\ scheduled w' = scheduled w.

Section ReducerDefs.
Context {num : Type} `{Numeric num}.

(** The data of the fold of the fractional cover [recombine_time_chunks]:
    each further dataset is given a time axis and folded into the running
    result by the processing method of the task. *)
Definition fc_fold (E : Env num) (combined_data : gmap string (list num))
  (rest : list (gmap string (list num))) : gmap string (list num) :=
  fold_left
    (fun combined data =>
       let data := FractionalCover.add_time_axis data in
       fc_processing_method E data (clean_mask_func E data) (Some combined))
    rest combined_data.

(** [task.combine_metadata(metadata, chunk[1])] over the chunks in order. *)
Definition combined_metadata (E : Env num) (chunks : list ChunkOut)
  (metadata : Meta) : Meta :=
  fold_left (fun md c => combine_metadata E md (co_meta c)) chunks metadata.

End ReducerDefs.

(** ** Vocabulary of the output stages *)

Definition is_product (ev : event) : bool :=
  match ev with EvProduct _ => true | _ => false end.

(** The product events of a trace, oldest first. *)
Definition products_written (evs : list event) : list string :=
  rev (omap (fun ev => match ev with EvProduct p => Some p | _ => None end) evs).

(** The plot events of a trace, oldest first. *)
Definition plots_drawn (evs : list event) : list string :=
  rev (omap (fun ev => match ev with EvPlot p => Some p | _ => None end) evs).

Definition fc_product_paths (cfg : TaskConfig) : list string :=
  map (Py.path_join (result_dir cfg))
    ["data_netcdf.nc"; "data_tif.tif"; "png_mosaic.png"; "band_math.png"].

Definition tsm_product_paths (cfg : TaskConfig) : list string :=
  map (Py.path_join (result_dir cfg))
    ["data_netcdf.nc"; "data_tif.tif"; "tsm.png"; "clear_observations.png";
     "water_percentage.png"].

(** The message of a finished output stage. *)
Definition products_message : string :=
  "All products have been generated. Your result will be loaded on the map.".

Section OutputDefs.
Context {num : Type} `{Numeric num}.

(** [nan_to_num] on one value with fill value 0. *)
Definition fill (x : num) : num := if nfinite x then x else nof_Q 0.

(** The final dataset of the TSM output stage before the mask: the
    variability and the water fraction are added to [ds], then every
    non-finite value is replaced by 0. *)
Definition tsm_final_dataset (ds : gmap string (list num))
  (max_ normalized_data wofs wofs_total_clean : list num)
  : gmap string (list num) :=
  Tsm.nan_to_num
    (<["wofs" := zip_with ndiv wofs wofs_total_clean]>
       (<["variability" := zip_with nsub max_ normalized_data]> ds))
    (nof_Q 0).

End OutputDefs.

(** ** Vocabulary of the processing tasks *)

Section ProcessingDefs.
Context {num : Type} `{Numeric num}.
Variable E : Env num.

(** The time ranges that a processing task loads, when there are any. *)
Definition time_ranges (cfg : TaskConfig) (time_chunk : list Z) : list range :=
  if iterative cfg
  then map (fun t => get_datetime_range_containing t t) time_chunk
  else match time_chunk with
       | [] => []
       | t0 :: _ =>
           [get_datetime_range_containing t0 (List.last time_chunk t0)]
       end.

(** The load of one time range, when it has data with a time dimension. *)
Definition loaded (p : Params) (r : range)
  : option (range * gmap string (list num)) :=
  match get_stacked_datasets_by_extent E (update_time p r) with
  | Some d => if has_time d then Some (r, d) else None
  | None => None
  end.

(** The composite of the loads, folded by the processing method. *)
Definition fc_composite (loads : list (range * gmap string (list num)))
  (iteration_data : option (gmap string (list num)))
  : option (gmap string (list num)) :=
  fold_left
    (fun it '(_, d) =>
       Some (fc_processing_method E (add_timestamp_data_to_xr E d)
               (clean_mask_func E d) it))
    loads iteration_data.

(** The metadata of the loads. *)
Definition fc_metadata (p : Params)
  (loads : list (range * gmap string (list num))) (metadata : Meta) : Meta :=
  fold_left
    (fun md '(r, d) =>
       metadata_from_dataset E md (add_timestamp_data_to_xr E d)
         (clean_mask_func E d) (update_time p r))
    loads metadata.

End ProcessingDefs.

(** ** Vocabulary of the frame of the worker stages *)

(** Between [w] and [w'] the counter did not go back, and the status, the
    message, the completion mark, the estimate, the registered paths, the
    results, the schedule and the existence of the scratch directory are
    as they were. *)
Definition worker_frame {num} (w w' : World num) : Prop :=
  status (task w') = status (task w)
  /\ message (task w') = message (task w)
  /\ complete (task w') = complete (task w)
  /\ total_scenes (task w') = total_scenes (task w)
  /\ paths (task w') = paths (task w)
  /\ (scenes_processed (task w) <= scenes_processed (task w'))%nat
  /\ temp_exists w' = temp_exists w
  /\ results w' = results w
  /\ scheduled w' = scheduled w.

(** A stage that stays within the frame whatever its outcome. *)
Definition keeps_frame {num R A} (m : stage num R A) : Prop :=
  forall w, worker_frame w (world_of (m w)).

(** ** Vocabulary of the validation *)

(** The message of a validation that found measurements the product lacks. *)
Definition invalid_measurements_message (cfg : TaskConfig) : string :=
  "The provided Satellite model measurements aren't valid for the product. Please check the measurements listed in the "
    ++ satellite_name cfg ++ " model.".

(** [w'] is [w] after a run that parsed its parameters, passed the checks
    on acquisitions and time range, and then stopped with [st] and [msg]
    (or with no further status): nothing was scheduled or written. *)
Definition stopped_after_validation {num} (last : list event)
  (w w' : World num) : Prop :=
  trace w' = (last ++ [EvStatus "WAIT" "Validated parameters.";
                       EvCheck false; EvCheck false;
                       EvStatus "WAIT" "Parsed out parameters."; EvCheck false]
                ++ trace w)%list
  /\ scheduled w' = scheduled w
  /\ scratch w' = scratch w
  /\ results w' = results w
  /\ scenes_processed (task w') = scenes_processed (task w).


(** An environment whose data access layer rejects every measurement. *)
Definition rejecting_measurements {num} (E : Env num) : Env num := {|
  cancel_flag := cancel_flag E;
  list_combined_acquisition_dates := list_combined_acquisition_dates E;
  get_stacked_datasets_by_extent := get_stacked_datasets_by_extent E;
  validate_measurements := fun _ _ => false;
  clean_mask_func := clean_mask_func E;
  metadata_from_dataset := metadata_from_dataset E;
  combine_metadata := combine_metadata E;
  acquisition_list := acquisition_list E;
  create_geographic_chunks := create_geographic_chunks E;
  create_time_chunks := create_time_chunks E;
  combine_geographic_chunks := combine_geographic_chunks E;
  add_timestamp_data_to_xr := add_timestamp_data_to_xr E;
  isel_first_pixel := isel_first_pixel E;
  where_valid := where_valid E;
  astype_int32 := astype_int32 E;
  isel_time0 := isel_time0 E;
  low_water_confidence := low_water_confidence E;
  fc_processing_method := fc_processing_method E;
  wofs_classify := wofs_classify E;
  frac_coverage_classify := frac_coverage_classify E;
  tsm_processing_method := tsm_processing_method E;
  tsm := tsm E;
  perform_timeseries_analysis := perform_timeseries_analysis E
|}.

(** ** Vocabulary of a whole run *)

(** Between [w] and [w'] the counter advanced by [n] scenes, no file of the
    scratch directory disappeared, and nothing else of the task, the
    results or the schedule changed. *)
Definition advanced {num} (n : nat) (w w' : World num) : Prop :=
  status (task w') = status (task w)
  /\ message (task w') = message (task w)
  /\ complete (task w') = complete (task w)
  /\ total_scenes (task w') = total_scenes (task w)
  /\ paths (task w') = paths (task w)
  /\ scenes_processed (task w') = (scenes_processed (task w) + n)%nat
  /\ temp_exists w' = temp_exists w
  /\ results w' = results w
  /\ scheduled w' = scheduled w
  /\ forall path, is_Some (scratch w !! path) -> is_Some (scratch w' !! path).

(** The file of a chunk is in the scratch directory. *)
Definition present {num} (w : World num) (c : ChunkOut) : Prop :=
  is_Some (scratch w !! co_path c).

(** The load of the acquisition [t] over the geographic chunk [gc] returns
    data with a time dimension. *)
Definition has_data {num} (E : Env num) (p : Params) (gc : GeoChunk) (t : Z)
  : Prop :=
  exists d,
    get_stacked_datasets_by_extent E
      (update_time (update_geo p gc) (get_datetime_range_containing t t))
    = Some d
    /\ has_time d = true.

(** Every load of the run returns data. *)
Definition data_for {num} (E : Env num) (p : Params) (geos : list GeoChunk)
  (times : list (list Z)) : Prop :=
  Forall (fun gc => Forall (Forall (has_data E p gc)) times) geos.

(** The water classification always has its [wofs] variable. *)
Definition water_classified {num} (E : Env num) : Prop :=
  forall ds mask, is_Some (wofs_classify E ds mask !! "wofs").

(** ** Vocabulary of the cancellation *)

(** The event of a check that found the flag set. *)
Definition flag_seen (ev : event) : bool :=
  match ev with
  | EvCheck true => true
  | _ => false
  end.

(** No event of the list is a check that found the flag set. *)
Definition unseen (evs : list event) : Prop :=
  Forall (fun ev => flag_seen ev = false) evs.

(** [w'] is [w] after events among which no check found the flag set. *)
Definition went_on {num} (w w' : World num) : Prop :=
  exists evs, trace w' = (evs ++ trace w)%list /\ unseen evs.

(** As [went_on], and the scratch directory is as it was. *)
Definition undisturbed {num} (w w' : World num) : Prop :=
  scratch w' = scratch w /\ went_on w w'.

(** [w'] is [w] after a check that found the flag set, which is the last
    event, and the first such check; the scratch directory is as it was. *)
Definition stopped_by_flag {num} (w w' : World num) : Prop :=
  scratch w' = scratch w
  /\ exists evs, trace w' = (EvCheck true :: evs ++ trace w)%list /\ unseen evs.

(** A stage that never writes to the scratch directory, and returns [None]
    right after the first check that finds the flag set. *)
Definition cancels_cleanly {num A} (m : stage num value A) : Prop :=
  forall w,
    match m w with
    | Next _ w' | Raise _ w' => undisturbed w w'
    | Return v w' => undisturbed w w' \/ (v = VNone /\ stopped_by_flag w w')
    end.

(** A stage in which the first check that finds the flag set is the last
    thing that happens: the stage then returns [None], without an error,
    and the scratch directory is as it was at the entry of the stage. *)
Definition cancellation_immediate {num A} (m : stage num value A) : Prop :=
  forall w,
    match m w with
    | Next _ w' | Raise _ w' => went_on w w'
    | Return v w' => undisturbed w w' \/ (v = VNone /\ stopped_by_flag w w')
    end.

(** ** Vocabulary of the pixel drills *)

Definition single_acquisition_message : string :=
  "There is only a single acquisition for your parameter set.".

(** Between [w] and [w'] only the status, the message, the clock and the
    trace changed, and no plot was drawn. *)
Definition quiet {num} (w w' : World num) : Prop :=
  complete (task w') = complete (task w)
  /\ scenes_processed (task w') = scenes_processed (task w)
  /\ total_scenes (task w') = total_scenes (task w)
  /\ paths (task w') = paths (task w)
  /\ temp_exists w' = temp_exists w
  /\ scratch w' = scratch w
  /\ results w' = results w
  /\ scheduled w' = scheduled w
  /\ plots_drawn (trace w') = plots_drawn (trace w).

(** The outcome of a pixel drill over the acquisitions [dates]: with fewer
    than two the drill reports the error and returns, leaving the task
    incomplete; otherwise it draws the plot and completes the task. It
    never writes data or schedules a pipeline. *)
Definition drilled {num} (cfg : TaskConfig) (dates : list num)
  (w : World num) (o : outcome num value value) : Prop :=
  let plot := Py.path_join (result_dir cfg) "plot_path.png" in
  exists w',
    scenes_processed (task w') = scenes_processed (task w)
    /\ total_scenes (task w') = total_scenes (task w)
    /\ temp_exists w' = temp_exists w
    /\ scratch w' = scratch w
    /\ results w' = results w
    /\ scheduled w' = scheduled w
    /\ if (length dates <? 2)%nat
       then o = Return VNone w'
            /\ status (task w') = "ERROR"
            /\ message (task w') = single_acquisition_message
            /\ complete (task w') = complete (task w)
            /\ paths (task w') = paths (task w)
            /\ plots_drawn (trace w') = plots_drawn (trace w)
       else o = Next VNone w'
            /\ status (task w') = "OK"
            /\ message (task w') = "Done processing pixel drill."
            /\ complete (task w') = true
            /\ paths (task w') = <["plot_path" := plot]> (paths (task w))
            /\ plots_drawn (trace w') = (plots_drawn (trace w) ++ [plot])%list.

(** The validation of the drill is cancelled at one of its two checks, or
    it passes. *)
Definition validation_lets_through {num} (E : Env num) (cfg : TaskConfig)
  (fractional_cover : bool) (clock : nat) : Prop :=
  cancel_flag E clock = true
  \/ (cancel_flag E clock = false
      /\ list_combined_acquisition_dates E (parsed cfg) <> []
      /\ (fractional_cover = true ->
          compositor_is_iterative cfg = true
          \/ (Py.days (time_end cfg - time_start cfg) <= 367)%Z)
      /\ (cancel_flag E (S clock) = true
          \/ (cancel_flag E (S clock) = false
              /\ exists product rest,
                   cfg_products cfg = product :: rest
                   /\ validate_measurements E product (cfg_measurements cfg)
                      = true))).

(** ** Vocabulary of the load ranges *)

(** The datetime [t] lies strictly inside the range [r]. *)
Definition inside (r : range) (t : Z) : Prop := (fst r < t < snd r)%Z.



(** * Properties *)

(** ** Sorting by path *)

Lemma str_lt_app (p a b : string) :
  Py.str_lt (p ++ a) (p ++ b) = Py.str_lt a b.
Proof.
  unfold Py.str_lt, String.ltb. induction p as [|c p IH]; simpl; [done|].
  unfold Ascii.compare. rewrite N.compare_refl. exact IH.
Qed.

Lemma insert_by_ext {A} (k1 k2 : A -> string) x l :
  (forall a b, Py.str_lt (k1 a) (k1 b) = Py.str_lt (k2 a) (k2 b)) ->
  Py.insert_by k1 x l = Py.insert_by k2 x l.
Proof.
  intros Hk. induction l as [|y l IH]; simpl; [done|].
  by rewrite Hk, IH.
Qed.

Lemma sorted_ext {A} (k1 k2 : A -> string) l :
  (forall a b, Py.str_lt (k1 a) (k1 b) = Py.str_lt (k2 a) (k2 b)) ->
  Py.sorted k1 l = Py.sorted k2 l.
Proof.
  intros Hk. unfold Py.sorted. induction l as [|y l IH]; simpl; [done|].
  rewrite IH. by apply insert_by_ext.
Qed.

Lemma insert_by_map {A B} (f : A -> B) (key : B -> string) x l :
  Py.insert_by key (f x) (map f l)
  = map f (Py.insert_by (fun a => key (f a)) x l).
Proof.
  induction l as [|y l IH]; simpl; [done|].
  destruct (Py.str_lt _ _); simpl; [by rewrite IH | done].
Qed.

Lemma sorted_map {A B} (f : A -> B) (key : B -> string) l :
  Py.sorted key (map f l) = map f (Py.sorted (fun a => key (f a)) l).
Proof.
  unfold Py.sorted. induction l as [|y l IH]; simpl; [done|].
  rewrite IH. apply insert_by_map.
Qed.

Lemma path_join_relative (a b : string) :
  Py.starts_with_slash b = false ->
  Py.path_join a b
  = ((if (String.eqb a "" || Py.ends_with_slash a)%bool then a else a ++ "/")
       ++ b)%string.
Proof.
  intros Hb. unfold Py.path_join. rewrite Hb.
  destruct (_ || _)%bool; [done|].
  induction a as [|c a IH]; [reflexivity|].
  change (String c (a ++ "/" ++ b) = String c ((a ++ "/") ++ b)).
  by rewrite IH.
Qed.

(** C1, as the code has it: [sorted(chunks, key=lambda x: x[0])] orders the
    entries by their path, a string. For the eleven time chunks 0..10 of a
    geographic chunk the fold order is 0, 1, 10, 2, ..., 9 in both
    pipelines, whatever the scratch directory; with the most recent pixel
    method the fractional cover run over [dates11] ends on the acquisition
    of time chunk 9 (date 100) instead of the one of time chunk 10. *)
Theorem recombine_time_chunks_folds_in_path_order :
  (forall cfg,
     map (fun c => time_chunk_id (co_ids c))
       (Py.sorted co_path (map (fc_chunk_out cfg 0) (seq 0 11)))
     = [0; 1; 10; 2; 3; 4; 5; 6; 7; 8; 9]%nat)
  /\ (forall cfg,
        map (fun c => time_chunk_id (co_ids c))
          (Py.sorted co_path (map (tsm_geo_out cfg 0) (seq 0 11)))
        = [0; 1; 10; 2; 3; 4; 5; 6; 7; 8; 9]%nat)
  /\ exists w,
       FractionalCover.run_pipeline (demo_env dates11 (fun _ => false))
         (demo_cfg (Some 1%nat)) demo_world = Next VNone w
       /\ status (task w) = "OK"
       /\ (results w !! "/datacube/ui_results/1/data_netcdf.nc")
            ≫= (.!! "red") = Some [xz 100].
Proof.
  split; [|split].
  - intros cfg. rewrite sorted_map.
    erewrite sorted_ext.
    2:{ intros a b. unfold co_path, fc_chunk_out, FractionalCover.chunk_path.
        simpl. change (Py.str 0) with "0".
        rewrite !path_join_relative by reflexivity.
        apply str_lt_app. }
    vm_compute. reflexivity.
  - intros cfg. rewrite sorted_map.
    erewrite sorted_ext.
    2:{ intros a b. unfold co_path, tsm_geo_out. simpl.
        rewrite !path_join_relative by reflexivity.
        apply str_lt_app. }
    vm_compute. reflexivity.
  - eexists. split; [vm_compute; reflexivity|].
    split; vm_compute; reflexivity.
Qed.

(** ** The pixel drill *)

(** C9, as the code has it: a pixel drill over a single acquisition records
    the status [ERROR] with its message, returns [None] and draws no plot,
    but leaves [complete] as it was: the task is not marked complete. The
    statement evaluates both pixel drills on one acquisition. *)
Theorem pixel_drill_single_acquisition_leaves_task_incomplete :
  let E := demo_env [10%Z] (fun _ => false) in
  let cfg := demo_cfg None in
  let drilled (o : outcome xnum value value) :=
    exists w,
      o = Return VNone w
      /\ status (task w) = "ERROR"
      /\ message (task w)
         = "There is only a single acquisition for your parameter set."
      /\ complete (task w) = false
      /\ paths (task w) !! "plot_path" = None
      /\ List.filter (fun ev => match ev with EvPlot _ => true | _ => false end)
           (trace w) = [] in
  drilled (FractionalCover.pixel_drill E cfg demo_world)
  /\ drilled (Tsm.pixel_drill E cfg demo_world).
Proof.
  split; eexists; (split; [vm_compute; reflexivity|]);
    repeat split; vm_compute; reflexivity.
Qed.

(** ** Validation *)

(** C6: when validation finds no acquisition, the status becomes [ERROR]
    with its message, the task is marked complete, validation returns
    [None], and chunking and the start of the processing return [None] at
    once: nothing is scheduled. Both pipelines. *)
Theorem zero_acquisitions_halt_the_run {num} `{Numeric num}
  (E : Env num) (cfg : TaskConfig) (w : World num) :
  cancel_flag E (clock w) = false ->
  cancel_flag E (S (clock w)) = false ->
  list_combined_acquisition_dates E (parsed cfg) = [] ->
  (halted_at_validation w (FractionalCover.run E cfg w)
   /\ halted_at_validation w (Tsm.run E cfg w))
  /\ (forall w' : World num,
        FractionalCover.perform_task_chunking E cfg VNone w' = Return VNone w'
        /\ FractionalCover.start_chunk_processing E VNone w' = Return VNone w'
        /\ Tsm.perform_task_chunking E cfg VNone w' = Return VNone w'
        /\ Tsm.start_chunk_processing E VNone w' = Return VNone w').
Proof.
  intros Hc0 Hc1 Hacq. split; [|done].
  split.
  - unfold halted_at_validation, FractionalCover.run,
      FractionalCover.parse_parameters_from_task,
      FractionalCover.validate_parameters.
    unfold bind, call, cancellable, check_cancel_task, bind.
    rewrite Hc0. simpl. rewrite Hc1. simpl.
    fold (parsed cfg). rewrite Hacq. simpl.
    eexists. split; [reflexivity|]. done.
  - unfold halted_at_validation, Tsm.run, Tsm.parse_parameters_from_task,
      Tsm.validate_parameters.
    unfold bind, call, cancellable, check_cancel_task, bind.
    rewrite Hc0. simpl. rewrite Hc1. simpl.
    fold (parsed cfg). rewrite Hacq. simpl.
    eexists. split; [reflexivity|]. done.
Qed.

Lemma zero_acquisitions_halt_the_run_witness :
  halted_at_validation demo_world
    (FractionalCover.run (demo_env [] (fun _ => false)) (demo_cfg None)
       demo_world)
  /\ halted_at_validation demo_world
       (Tsm.run (demo_env [] (fun _ => false)) (demo_cfg None) demo_world).
Proof.
  apply (zero_acquisitions_halt_the_run (demo_env [] (fun _ => false))
           (demo_cfg None) demo_world); reflexivity.
Defined.

(** C10: in the fractional cover pipeline validation fails (status [ERROR],
    task complete, result [None]) whenever the compositor is not iterative
    and the time range exceeds 367 days, with the median message when there
    are acquisitions; the TSM validation has no such rule and passes a task
    with acquisitions and valid measurements whatever its time range. *)
Theorem median_compositor_limited_to_one_year {num} `{Numeric num}
  (E : Env num) (cfg : TaskConfig) (p : Params) (w : World num) :
  cancel_flag E (clock w) = false ->
  compositor_is_iterative cfg = false ->
  (367 < Py.days (time_end cfg - time_start cfg))%Z ->
  (exists w',
     FractionalCover.validate_parameters E cfg (VParams p) w = Return VNone w'
     /\ status (task w') = "ERROR"
     /\ complete (task w') = true
     /\ (list_combined_acquisition_dates E p <> [] ->
         message (task w') = median_message))
  /\ (forall product rest,
        list_combined_acquisition_dates E p <> [] ->
        cancel_flag E (S (clock w)) = false ->
        products p = product :: rest ->
        validate_measurements E product (measurements p) = true ->
        exists w',
          Tsm.validate_parameters E cfg (VParams p) w = Next (VParams p) w'
          /\ status (task w') = "WAIT"
          /\ message (task w') = "Validated parameters."
          /\ complete (task w') = complete (task w)).
Proof.
  intros Hc0 Hcomp Hdays.
  apply Z.ltb_lt in Hdays.
  split.
  - unfold FractionalCover.validate_parameters.
    unfold bind, cancellable, check_cancel_task, bind.
    rewrite Hc0, Hcomp, Hdays. simpl.
    destruct (list_combined_acquisition_dates E p) as [|d ds]; simpl;
      eexists; (split; [reflexivity|]); done.
  - intros product rest Hacq Hc1 Hprod Hvalid.
    unfold Tsm.validate_parameters.
    unfold bind, cancellable, check_cancel_task, bind.
    rewrite Hc0. simpl.
    destruct (list_combined_acquisition_dates E p) as [|d ds]; [done|].
    simpl. rewrite Hc1. simpl. rewrite Hprod, Hvalid. simpl.
    eexists. split; [reflexivity|]. done.
Qed.

Lemma median_compositor_limited_to_one_year_witness :
  exists w',
    FractionalCover.validate_parameters (demo_env dates11 (fun _ => false))
      median_cfg (VParams (parsed median_cfg)) demo_world = Return VNone w'
    /\ status (task w') = "ERROR"
    /\ complete (task w') = true
    /\ (list_combined_acquisition_dates (demo_env dates11 (fun _ => false))
          (parsed median_cfg) <> [] ->
        message (task w') = median_message).
Proof.
  apply (median_compositor_limited_to_one_year
           (demo_env dates11 (fun _ => false)) median_cfg (parsed median_cfg)
           demo_world); reflexivity.
Defined.

(** ** Empty chunks *)

Section EmptyChunks.
Context {num : Type} `{Numeric num}.
Variable E : Env num.
Variable cfg : TaskConfig.

Lemma only_checked_refl (w : World num) : only_checked w w.
Proof. repeat split; try done. exists []. split; [done|constructor]. Qed.

Lemma only_checked_trans (w1 w2 w3 : World num) :
  only_checked w1 w2 -> only_checked w2 w3 -> only_checked w1 w3.
Proof.
  intros (?&?&?&?&?&evs1&?&?) (?&?&?&?&?&evs2&?&?).
  repeat split; try congruence.
  exists (evs2 ++ evs1)%list. split.
  - rewrite <- app_assoc. congruence.
  - by apply Forall_app.
Qed.

Lemma only_checked_check (w : World num) b :
  only_checked w (log (EvCheck b) (tick w)).
Proof.
  repeat split; try done. exists [EvCheck b]. split; [done|].
  by repeat constructor.
Qed.

Lemma cancellable_cases (w : World num) :
  let w' := log (EvCheck (cancel_flag E (clock w))) (tick w) in
  (cancellable E w = Return VNone w' /\ cancel_flag E (clock w) = true)
  \/ (cancellable E w = Next tt w' /\ cancel_flag E (clock w) = false).
Proof.
  unfold cancellable, bind, check_cancel_task.
  destruct (cancel_flag E (clock w)); [left | right]; done.
Qed.

Lemma fc_loop_no_data (times : list range) up md (w : World num) :
  no_data_anywhere E ->
  match for_each (FractionalCover.processing_step E) times (up, None, md) w with
  | Next (_, None, md') w' => md' = md /\ only_checked w w'
  | Return VNone w' => only_checked w w'
  | _ => False
  end.
Proof.
  intros Hno. revert up w. induction times as [|t times IH]; intros up w.
  - cbn. split; [done|apply only_checked_refl].
  - cbn [for_each]. unfold bind at 1.
    unfold FractionalCover.processing_step at 1. unfold bind at 1.
    destruct (cancellable_cases w) as [[-> _]|[-> _]].
    + apply only_checked_check.
    + specialize (Hno (update_time up t)).
      specialize (IH (update_time up t) (log (EvCheck (cancel_flag E (clock w))) (tick w))).
      assert (Hstep := only_checked_check w (cancel_flag E (clock w))).
      destruct (get_stacked_datasets_by_extent E (update_time up t)) as [d|];
        [rewrite Hno|]; cbn [negb ret];
        destruct (for_each _ _ _ _) as [[[? [?|]] ?] ?|[] ?|]; try done;
        (lazymatch goal with
         | |- _ = _ /\ _ => destruct IH as [-> IH]; split; [done|]
         | |- _ => idtac
         end);
        eauto using only_checked_trans.
Qed.

Lemma fc_processing_no_data (g t : nat) gc tc p (w : World num) :
  no_data_anywhere E ->
  (iterative cfg = true \/ tc <> []) ->
  returns_none w (FractionalCover.processing_task E cfg g t gc tc p w).
Proof.
  intros Hno Hit. unfold returns_none, FractionalCover.processing_task.
  unfold bind at 1.
  destruct (cancellable_cases w) as [[-> _]|[-> _]].
  { eexists. split; [done|]. apply only_checked_check. }
  assert (Hstep := only_checked_check w (cancel_flag E (clock w))).
  set (w1 := log _ _) in *.
  unfold bind at 1. unfold temp_path_exists at 1.
  destruct (temp_exists w1); cbn [negb].
  2:{ eexists. split; [done|]. done. }
  unfold bind at 1.
  assert (exists times, load_ranges cfg tc w1 = Next times w1) as [times ->].
  { unfold load_ranges. destruct Hit as [->| Hne]; [by eexists|].
    destruct (iterative cfg); [by eexists|]. destruct tc; [done|by eexists]. }
  unfold bind at 1.
  pose proof (fc_loop_no_data times (update_geo p gc) ∅ w1 Hno) as Hloop.
  destruct (for_each _ _ _ _) as [[[? [?|]] ?] ?|[] ?|]; try done.
  - destruct Hloop. eexists. split; [done|]. eauto using only_checked_trans.
  - eexists. split; [done|]. eauto using only_checked_trans.
Qed.


Lemma tsm_loop_no_data g base (steps : list (nat * range)) up wa md (w : World num) :
  no_data_anywhere E ->
  match for_each (Tsm.processing_step E cfg g base) steps (up, wa, None, md) w with
  | Next (_, _, None, md') w' => md' = md /\ only_checked w w'
  | Return VNone w' => only_checked w w'
  | _ => False
  end.
Proof.
  intros Hno. revert up w. induction steps as [|[i t] steps IH]; intros up w.
  - cbn. split; [done|apply only_checked_refl].
  - cbn [for_each]. unfold bind at 1.
    unfold Tsm.processing_step at 1. unfold bind at 1.
    destruct (cancellable_cases w) as [[-> _]|[-> _]].
    + apply only_checked_check.
    + specialize (Hno (update_time up t)).
      specialize (IH (update_time up t) (log (EvCheck (cancel_flag E (clock w))) (tick w))).
      assert (Hstep := only_checked_check w (cancel_flag E (clock w))).
      destruct (get_stacked_datasets_by_extent E (update_time up t)) as [d|];
        [rewrite Hno|]; cbn [negb ret];
        destruct (for_each _ _ _ _) as [[[[? ?] [?|]] ?] ?|[] ?|]; try done;
        (lazymatch goal with
         | |- _ = _ /\ _ => destruct IH as [-> IH]; split; [done|]
         | |- _ => idtac
         end);
        eauto using only_checked_trans.
Qed.

Lemma tsm_processing_no_data (g t : nat) gc tc p (w : World num) :
  no_data_anywhere E ->
  (iterative cfg = true \/ tc <> []) ->
  returns_none w (Tsm.processing_task E cfg g t gc tc p w).
Proof.
  intros Hno Hit. unfold returns_none, Tsm.processing_task.
  unfold bind at 1.
  destruct (cancellable_cases w) as [[-> _]|[-> _]].
  { eexists. split; [done|]. apply only_checked_check. }
  assert (Hstep := only_checked_check w (cancel_flag E (clock w))).
  set (w1 := log _ _) in *.
  unfold bind at 1. unfold temp_path_exists at 1.
  destruct (temp_exists w1); cbn [negb].
  2:{ eexists. split; [done|]. done. }
  unfold bind at 1.
  assert (exists times, load_ranges cfg tc w1 = Next times w1) as [times ->].
  { unfold load_ranges. destruct Hit as [->| Hne]; [by eexists|].
    destruct (iterative cfg); [by eexists|]. destruct tc; [done|by eexists]. }
  unfold bind at 1.
  pose proof (tsm_loop_no_data g (Tsm.frames_per_chunk cfg * t) (Py.enumerate times)
    (update_geo p gc) None ∅ w1 Hno) as Hloop.
  destruct (for_each _ _ _ _) as [[[[? ?] [?|]] ?] ?|[] ?|]; try done.
  - destruct Hloop. eexists. split; [done|]. eauto using only_checked_trans.
  - eexists. split; [done|]. eauto using only_checked_trans.
Qed.

Lemma all_none_filter chunks :
  all_none chunks -> List.filter not_none (as_chunk_list chunks) = [].
Proof.
  destruct chunks; try done. simpl. induction 1 as [|v l -> _ IH]; [done|].
  simpl. done.
Qed.


Lemma reducers_all_none n chunks (w : World num) :
  all_none chunks ->
  FractionalCover.recombine_time_chunks E cfg n chunks w = Return VNone (checked E w)
  /\ FractionalCover.recombine_geographic_chunks E cfg chunks w = Return VNone (checked E w)
  /\ Tsm.recombine_time_chunks E cfg chunks w = Return VNone (checked E w)
  /\ Tsm.recombine_geographic_chunks E cfg n chunks w = Return VNone (checked E w).
Proof.
  intros Hall. apply all_none_filter in Hall.
  unfold FractionalCover.recombine_time_chunks, FractionalCover.recombine_geographic_chunks,
    Tsm.recombine_time_chunks, Tsm.recombine_geographic_chunks.
  rewrite Hall. unfold bind.
  destruct (cancellable_cases w) as [[-> _]|[-> _]]; done.
Qed.


End EmptyChunks.



(** ** Stepping through a stage *)

Section Tools.
Context {num : Type} `{Numeric num}.
Variable E : Env num.

Lemma bind_next {R A B} (m : stage num R A) (k : A -> stage num R B) w a w' :
  m w = Next a w' -> bind m k w = k a w'.
Proof. intros Hm. unfold bind. by rewrite Hm. Qed.

Lemma bind_raise {R A B} (m : stage num R A) (k : A -> stage num R B) w e w' :
  m w = Raise e w' -> bind m k w = Raise e w'.
Proof. intros Hm. unfold bind. by rewrite Hm. Qed.

Lemma bind_return {R A B} (m : stage num R A) (k : A -> stage num R B) w r w' :
  m w = Return r w' -> bind m k w = Return r w'.
Proof. intros Hm. unfold bind. by rewrite Hm. Qed.

Lemma cancellable_false (w : World num) :
  cancel_flag E (clock w) = false ->
  cancellable E w = Next tt (checked E w).
Proof.
  intros Hc. unfold cancellable, bind, check_cancel_task, checked.
  by rewrite Hc.
Qed.

Lemma cancellable_true (w : World num) :
  cancel_flag E (clock w) = true ->
  cancellable E w = Return VNone (checked E w).
Proof.
  intros Hc. unfold cancellable, bind, check_cancel_task, checked.
  by rewrite Hc.
Qed.

Lemma round_div_some {R} a b n (w : World num) :
  Py.round_div a b = Some n -> round_div (R := R) a b w = Next n w.
Proof. intros Hr. unfold round_div. by rewrite Hr. Qed.

Lemma get_var_some {R} (d : gmap string (list num)) name a (w : World num) :
  d !! name = Some a -> get_var (R := R) d name w = Next a w.
Proof. intros Hd. unfold get_var. by rewrite Hd. Qed.

Lemma open_dataset_some {R} path d (w : World num) :
  scratch w !! path = Some d -> open_dataset (R := R) path w = Next d w.
Proof. intros Hd. unfold open_dataset. by rewrite Hd. Qed.

Lemma round_div_none {R} a b (w : World num) :
  Py.round_div a b = None ->
  round_div (R := R) a b w = Raise "ZeroDivisionError" w.
Proof. intros Hr. unfold round_div. by rewrite Hr. Qed.

End Tools.

(** ** Cancellation at the entry of a stage *)

(** Every stage that starts with the cancellation check returns [None]
    when the check finds the flag set, having done nothing but the check:
    parsing, validation, chunking (on parameters), chunk processing, the
    reducers, the band math and the output stage, in both pipelines. *)
Theorem cancelled_at_entry {num} `{Numeric num} (E : Env num) (cfg : TaskConfig)
  (w : World num) :
  cancel_flag E (clock w) = true ->
  let cancelled o := o = Return VNone (checked E w) in
  (cancelled (FractionalCover.parse_parameters_from_task E cfg w)
   /\ cancelled (Tsm.parse_parameters_from_task E cfg w))
  /\ (forall v,
        cancelled (FractionalCover.validate_parameters E cfg v w)
        /\ cancelled (Tsm.validate_parameters E cfg v w)
        /\ cancelled (FractionalCover.recombine_geographic_chunks E cfg v w)
        /\ cancelled (Tsm.recombine_time_chunks E cfg v w)
        /\ cancelled (FractionalCover.create_output_products E cfg v w)
        /\ cancelled (Tsm.create_output_products E cfg v w)
        /\ (v <> VNone ->
            cancelled (FractionalCover.perform_task_chunking E cfg v w)
            /\ cancelled (Tsm.perform_task_chunking E cfg v w)))
  /\ (forall n v,
        cancelled (FractionalCover.recombine_time_chunks E cfg n v w)
        /\ cancelled (Tsm.recombine_geographic_chunks E cfg n v w))
  /\ (forall n v, cancelled (FractionalCover.process_band_math E n v w))
  /\ (forall g t gc tc p,
        cancelled (FractionalCover.processing_task E cfg g t gc tc p w)
        /\ cancelled (Tsm.processing_task E cfg g t gc tc p w)).
Proof.
  intros Hc cancelled. unfold cancelled.
  pose proof (cancellable_true E w Hc) as Hcan.
  repeat split; intros;
    try (by apply bind_return);
    destruct v; try done; by apply bind_return.
Qed.

Lemma cancelled_at_entry_witness :
  FractionalCover.processing_task (demo_env dates11 (fun _ => true))
    (demo_cfg (Some 2%nat)) 0 0 demo_geo [10; 20]%Z
    (parsed (demo_cfg (Some 2%nat))) demo_world
  = Return VNone (checked (demo_env dates11 (fun _ => true)) demo_world).
Proof.
  refine (proj1 (proj2 (proj2 (proj2 (proj2
            (cancelled_at_entry (demo_env dates11 (fun _ => true))
               (demo_cfg (Some 2%nat)) demo_world _))))
            0%nat 0%nat demo_geo [10; 20]%Z (parsed (demo_cfg (Some 2%nat))))).
  reflexivity.
Defined.

(** ** The estimate of the work *)

Lemma round_div_near a b n :
  Py.round_div a b = Some n ->
  (2 * (n * b) <= 2 * a + b /\ 2 * a <= 2 * (n * b) + b)%nat.
Proof.
  unfold Py.round_div. destruct (Nat.eqb_spec b 0) as [->|Hb]; [done|].
  pose proof (Nat.div_mod_eq a b) as Hdm.
  pose proof (Nat.mod_upper_bound a b Hb) as Hr.
  set (q := (a / b)%nat) in *. set (r := (a mod b)%nat) in *.
  destruct (Nat.ltb_spec (2 * r) b); [intros [= <-]; nia|].
  destruct (Nat.ltb_spec b (2 * r)); [intros [= <-]; nia|].
  destruct (Nat.even q); intros [= <-]; nia.
Qed.

Lemma round_div_mul a b : b <> 0%nat -> Py.round_div (a * b) b = Some a.
Proof.
  intros Hb. unfold Py.round_div.
  destruct (Nat.eqb_spec b 0) as [->|_]; [done|].
  rewrite Nat.div_mul, Nat.Div0.mod_mul by done.
  destruct (Nat.ltb_spec (2 * 0) b); [done|lia].
Qed.

Section Start.
Context {num : Type} `{Numeric num}.
Variable E : Env num.

Lemma round_div_mean G T S n :
  G <> 0%nat -> Py.round_div (G * S) (T * G) = Some n ->
  (2 * (n * T) <= 2 * S + T /\ 2 * S <= 2 * (n * T) + T)%nat.
Proof.
  intros HG Hn. apply round_div_near in Hn. nia.
Qed.

(** [start_chunk_processing]: without geographic or time chunks the stage
    raises [ZeroDivisionError] before it touches the task. Otherwise it
    stores the estimate (4 resp. 2 times the number of scenes), resets the
    counter, and only then checks the flag; when not cancelled it sets the
    status and schedules the pipeline, whose band math weight is exactly
    twice the number of acquisitions and whose weight per chunk [n] is
    within half a scene of the mean length of the time chunks. *)
Theorem start_chunk_processing_estimate p geos times (w : World num) :
  let G := length geos in
  let T := length times in
  let S := sum_len times in
  (G = 0%nat \/ T = 0%nat ->
   FractionalCover.start_chunk_processing E (VDetails p geos times) w
   = Raise "ZeroDivisionError" w
   /\ Tsm.start_chunk_processing E (VDetails p geos times) w
      = Raise "ZeroDivisionError" w)
  /\ (G <> 0%nat -> T <> 0%nat ->
      exists n,
        Py.round_div (G * S) (T * G) = Some n
        /\ (2 * (n * T) <= 2 * S + T /\ 2 * S <= 2 * (n * T) + T)%nat
        /\ (let w1 := checked E (with_totals (4 * (G * S)) w) in
            if cancel_flag E (clock w)
            then FractionalCover.start_chunk_processing E (VDetails p geos times) w
                 = Return VNone w1
            else exists w',
                FractionalCover.start_chunk_processing E (VDetails p geos times) w
                = Next VTrue w'
                /\ started
                     (FractionalCover.processing_pipeline p geos times n S) w1 w')
        /\ (let w1 := checked E (with_totals (2 * (G * S)) w) in
            if cancel_flag E (clock w)
            then Tsm.start_chunk_processing E (VDetails p geos times) w
                 = Return VNone w1
            else exists w',
                Tsm.start_chunk_processing E (VDetails p geos times) w
                = Next VTrue w'
                /\ started (Tsm.processing_pipeline p geos times n) w1 w')).
Proof.
  intros G T S.
  unfold FractionalCover.start_chunk_processing, Tsm.start_chunk_processing.
  fold G T S. clearbody G T S. split.
  - intros Hz.
    assert (Py.round_div (G * S) (T * G) = None) as Hnone.
    { unfold Py.round_div. destruct (Nat.eqb_spec (T * G) 0); [done|nia]. }
    split; apply bind_raise; by apply round_div_none.
  - intros HG HT.
    destruct (Py.round_div (G * S) (T * G)) as [n|] eqn:Hn.
    2:{ unfold Py.round_div in Hn.
        destruct (Nat.eqb_spec (T * G) 0); [nia|done]. }
    exists n. split; [done|]. split; [exact (round_div_mean G T S n HG Hn)|].
    assert (Py.round_div (G * S) G = Some S) as Hgeo.
    { rewrite (Nat.mul_comm G S). by apply round_div_mul. }
    rewrite !(bind_next _ _ _ _ _ (round_div_some _ _ _ w Hn)).
    rewrite (bind_next _ _ _ _ _ (round_div_some _ _ _ w Hgeo)).
    unfold bind, reset_scenes, cancellable, bind, check_cancel_task, checked.
    fold (with_totals (4 * (G * S)) w). fold (with_totals (2 * (G * S)) w).
    change (clock (with_totals (4 * (G * S)) w)) with (clock w).
    change (clock (with_totals (2 * (G * S)) w)) with (clock w).
    destruct (cancel_flag E (clock w)); split; try reflexivity;
      eexists; (split; [reflexivity|]); repeat split.
Qed.

End Start.

Lemma start_chunk_processing_estimate_witness :
  exists n w',
    Py.round_div (1 * 5) (3 * 1) = Some n
    /\ (2 * (n * 3) <= 2 * 5 + 3 /\ 2 * 5 <= 2 * (n * 3) + 3)%nat
    /\ FractionalCover.start_chunk_processing
         (demo_env dates11 (fun _ => false))
         (VDetails (parsed (demo_cfg (Some 2%nat))) [demo_geo]
            [[10; 20]; [30; 40]; [50]]%Z) demo_world
       = Next VTrue w'
    /\ total_scenes (task w') = 20%nat.
Proof.
  destruct (proj2 (start_chunk_processing_estimate
                     (demo_env dates11 (fun _ => false))
                     (parsed (demo_cfg (Some 2%nat))) [demo_geo]
                     [[10; 20]; [30; 40]; [50]]%Z demo_world))
    as (n & Hn & Hnear & (w' & Hfc & Hstarted) & _);
    [simpl; lia | simpl; lia |].
  exists n, w'. split; [exact Hn|]. split; [exact Hnear|].
  split; [exact Hfc|].
  destruct Hstarted as (_ & _ & _ & _ & _ & Htotal & _).
  exact Htotal.
Defined.

(** ** The TSM time reduction *)

Section Combine.
Context {num : Type} `{Numeric num}.
Local Abbreviation Dataset := (gmap string (list num)).






End Combine.


Section Algebra.
Context {num : Type} `{ExactArith num}.
Local Abbreviation Dataset := (gmap string (list num)).








End Algebra.

Section Fold.
Context {num : Type} `{Numeric num}.
Local Abbreviation Dataset := (gmap string (list num)).




End Fold.

Section Partition.
Context {num : Type} `{ExactArith num}.
Local Abbreviation Dataset := (gmap string (list num)).








End Partition.

(** ** The laws of exact arithmetic hold for [xnum] *)

Lemma qle_spec (p q : Qc) : reflect (p <= q)%Q (qle p q).
Proof.
  unfold qle. destruct (Qle_bool p q) eqn:Hle; constructor.
  - by apply Qle_bool_iff.
  - intros Hc. apply Qle_bool_iff in Hc. congruence.
Qed.

Ltac qle_cases :=
  repeat match goal with
         | |- context [qle ?p ?q] => destruct (qle_spec p q)
         end.

Ltac qc_solve :=
  first [ reflexivity
        | f_equal; apply Qc_is_canon; lra
        | exfalso; lra ].

Lemma xadd_comm (a b : xnum) : xadd a b = xadd b a.
Proof.
  destruct a, b; simpl; try reflexivity. f_equal. apply Qcplus_comm.
Qed.

Lemma xadd_assoc (a b c : xnum) : xadd a (xadd b c) = xadd (xadd a b) c.
Proof.
  destruct a, b, c; simpl; try reflexivity. f_equal. apply Qcplus_assoc.
Qed.

Lemma xmin_comm (a b : xnum) : xmin a b = xmin b a.
Proof. destruct a, b; simpl; qle_cases; qc_solve. Qed.

Lemma xmax_comm (a b : xnum) : xmax a b = xmax b a.
Proof. destruct a, b; simpl; qle_cases; qc_solve. Qed.

Lemma xmin_assoc (a b c : xnum) : xmin a (xmin b c) = xmin (xmin a b) c.
Proof.
  destruct a, b, c; simpl; qle_cases; simpl; qle_cases; qc_solve.
Qed.

Lemma xmax_assoc (a b c : xnum) : xmax a (xmax b c) = xmax (xmax a b) c.
Proof.
  destruct a, b, c; simpl; qle_cases; simpl; qle_cases; qc_solve.
Qed.

#[export] Instance xnum_exact : ExactArith xnum := {|
  nadd_assoc := xadd_assoc; nadd_comm := xadd_comm;
  nmin_assoc := xmin_assoc; nmin_comm := xmin_comm;
  nmax_assoc := xmax_assoc; nmax_comm := xmax_comm
|}.


(** ** The reducers as folds *)

Section MoreTools.
Context {num : Type} `{Numeric num}.
Local Abbreviation Dataset := (gmap string (list num)).

Lemma bind_bind {R A B C} (m : stage num R A) (k1 : A -> stage num R B)
  (k2 : B -> stage num R C) (w : World num) :
  bind (bind m k1) k2 w = bind m (fun x => bind (k1 x) k2) w.
Proof. unfold bind. by destruct (m w). Qed.

Lemma as_chunks_chunks {R} (cs : list ChunkOut) (w : World num) :
  as_chunks (R := R) (map VChunk cs) w = Next cs w.
Proof.
  induction cs as [|c cs IH]; [done|].
  cbn [map as_chunks]. by rewrite (bind_next _ _ _ _ _ IH).
Qed.



End MoreTools.

Section TimeLoop.
Context {num : Type} `{Numeric num}.
Variable E : Env num.
Variable cfg : TaskConfig.
Local Abbreviation Dataset := (gmap string (list num)).

Hypothesis never_cancelled : forall n, cancel_flag E n = false.
Hypothesis not_animated : animation_id cfg = "none".




End TimeLoop.


(** ** The fractional cover time reduction as a fold *)

Section FcTimeLoop.
Context {num : Type} `{Numeric num}.
Variable E : Env num.
Variable cfg : TaskConfig.
Local Abbreviation Dataset := (gmap string (list num)).

Hypothesis never_cancelled : forall n, cancel_flag E n = false.

Lemma progressed_refl (w : World num) : progressed 0 w w.
Proof. unfold progressed. rewrite Nat.add_0_r. done. Qed.

Lemma progressed_trans n m (w1 w2 w3 : World num) :
  progressed n w1 w2 -> progressed m w2 w3 -> progressed (n + m) w1 w3.
Proof.
  intros (?&?&?&?&?&Hn&?&?&?&?) (?&?&?&?&?&Hm&?&?&?&?).
  unfold progressed. rewrite Hm, Hn.
  repeat split; try congruence. lia.
Qed.

Lemma progressed_checked (w : World num) : progressed 0 w (checked E w).
Proof. unfold progressed. cbn. rewrite Nat.add_0_r. done. Qed.

Lemma add_scenes_progressed {R} n (w : World num) :
  exists w', add_scenes (R := R) n w = Next tt w' /\ progressed n w w'.
Proof. eexists. split; [reflexivity|]. unfold progressed. done. Qed.

Lemma fc_time_loop n (chunks : list ChunkOut) (ds : list Dataset)
  (md : Meta) (acc : Dataset) (w : World num) :
  Forall2 (fun c d => scratch w !! co_path c = Some d) chunks ds ->
  exists w',
    progressed (n * length chunks) w w'
    /\ for_each (FractionalCover.recombine_time_step E (Some n)) chunks
         (md, Some acc) w
       = Next (updated_metadata chunks md, Some (fc_fold E acc ds)) w'.
Proof.
  revert ds md acc w.
  induction chunks as [|c chunks IH]; intros ds md acc w Hfiles.
  - inversion Hfiles; subst. exists w. rewrite Nat.mul_0_r.
    split; [apply progressed_refl|done].
  - inversion Hfiles as [|? d ? ds' Hd Hrest]; subst.
    cbn [for_each updated_metadata fc_fold fold_left].
    unfold FractionalCover.recombine_time_step at 1.
    rewrite bind_bind.
    rewrite (bind_next _ _ _ _ _ (open_dataset_some (co_path c) d w Hd)).
    rewrite bind_bind.
    rewrite (bind_next _ _ _ _ _ (cancellable_false E w (never_cancelled _))).
    rewrite bind_bind.
    destruct (add_scenes_progressed (R := value) n (checked E w)) as (w1 & Hadd & Hw1).
    cbn [add_scenes_opt].
    rewrite (bind_next _ _ _ _ _ Hadd).
    rewrite (bind_next _ _ _ _ w1 eq_refl).
    destruct (IH ds' (co_meta c ∪ md)
                (fc_processing_method E (FractionalCover.add_time_axis d)
                   (clean_mask_func E (FractionalCover.add_time_axis d)) (Some acc))
                w1) as (w' & Hw' & Hloop).
    { destruct Hw1 as (_&_&_&_&_&_&_&Hs&_). rewrite Hs. exact Hrest. }
    exists w'. split; [|exact Hloop].
    replace (n * length (c :: chunks))%nat with (0 + n + n * length chunks)%nat
      by (cbn [length]; lia).
    eapply progressed_trans; [|exact Hw'].
    eapply progressed_trans; [apply progressed_checked|exact Hw1].
Qed.

(** Without cancellation the fractional cover [recombine_time_chunks] opens
    the non-[None] entries in path order, seeds the result with the first
    and folds every further one into it with the processing method of the
    task; it adds [num_scn_per_chk] scenes per entry, leaves the rest of the
    task record alone, and writes the result under the geographic id of the
    first entry. *)
Theorem fc_recombine_time_chunks_folds (n : nat) (chunks : value)
  (cs : list ChunkOut) (first : ChunkOut) (rest : list ChunkOut)
  (d0 : Dataset) (ds : list Dataset) (w : World num) :
  temp_exists w = true ->
  List.filter not_none (as_chunk_list chunks) = map VChunk cs ->
  Py.sorted co_path cs = first :: rest ->
  Forall2 (fun c d => scratch w !! co_path c = Some d) (first :: rest)
    (d0 :: ds) ->
  exists w1,
    progressed (n * S (length rest)) w w1
    /\ FractionalCover.recombine_time_chunks E cfg (Some n) chunks w
       = Next (VChunk (recombined_time_path cfg first,
                       updated_metadata (first :: rest) ∅, co_ids first))
           (written (recombined_time_path cfg first) (fc_fold E d0 ds) w1).
Proof.
  intros Htemp Hchunks Hsorted Hfiles.
  unfold FractionalCover.recombine_time_chunks.
  rewrite (bind_next _ _ _ _ _ (cancellable_false E w (never_cancelled _))).
  rewrite Hchunks.
  assert (Hlen : (length (map VChunk cs) =? 0)%nat = false).
  { destruct cs; [done|done]. }
  rewrite Hlen.
  rewrite (bind_next _ _ _ _ _ (as_chunks_chunks cs (checked E w))).
  rewrite Hsorted.
  inversion Hfiles as [|? ? ? ? Hd0 Hrest]; subst.
  cbn [for_each].
  rewrite bind_bind.
  unfold FractionalCover.recombine_time_step at 1. rewrite bind_bind.
  rewrite (bind_next _ _ _ _ _
             (open_dataset_some (co_path first) d0 (checked E w) Hd0)).
  rewrite bind_bind.
  destruct (add_scenes_progressed (R := value) n (checked E w))
    as (w0 & Hadd & Hw0).
  cbn [add_scenes_opt].
  rewrite (bind_next _ _ _ _ _ Hadd).
  rewrite (bind_next _ _ _ _ w0 eq_refl).
  destruct (fc_time_loop n rest ds (co_meta first ∪ ∅) d0 w0)
    as (w1 & Hw1 & Hloop).
  { destruct Hw0 as (_&_&_&_&_&_&_&Hs&_). rewrite Hs. exact Hrest. }
  exists w1. split.
  { replace (n * S (length rest))%nat with (0 + n + n * length rest)%nat by lia.
    eapply progressed_trans; [|exact Hw1].
    eapply progressed_trans; [apply progressed_checked|exact Hw0]. }
  rewrite (bind_next _ _ _ _ _ Hloop).
  unfold bind, to_netcdf.
  destruct Hw1 as (_&_&_&_&_&_&Ht1&_). destruct Hw0 as (_&_&_&_&_&_&Ht0&_).
  rewrite Ht1, Ht0. cbn [checked log tick temp_exists].
  rewrite Htemp. reflexivity.
Qed.

End FcTimeLoop.

Lemma fc_recombine_time_chunks_folds_witness :
  let E := demo_env dates11 (fun _ => false) in
  let cfg := demo_cfg (Some 1%nat) in
  let a := fc_chunk_out cfg 0 0 in
  let b := fc_chunk_out cfg 0 1 in
  let w := with_scratch (fun _ => {[ co_path a := demo_artifact 3;
                                      co_path b := demo_artifact 5 ]})
             demo_world in
  exists w1,
    progressed (4 * 2) w w1
    /\ FractionalCover.recombine_time_chunks E cfg (Some 4%nat)
         (VList [VChunk b; VNone; VChunk a]) w
       = Next (VChunk (recombined_time_path cfg a,
                       updated_metadata [a; b] ∅, co_ids a))
           (written (recombined_time_path cfg a)
              (fc_fold E (demo_artifact 3) [demo_artifact 5]) w1).
Proof.
  intros E cfg a b w.
  apply (fc_recombine_time_chunks_folds E cfg (fun _ => eq_refl) 4
           (VList [VChunk b; VNone; VChunk a]) [b; a] a [b]
           (demo_artifact 3) [demo_artifact 5] w).
  - reflexivity.
  - reflexivity.
  - vm_compute. reflexivity.
  - repeat constructor; vm_compute; reflexivity.
Defined.

(** ** The geographic reduction *)

Section GeoLoop.
Context {num : Type} `{Numeric num}.
Variable E : Env num.
Variable cfg : TaskConfig.
Local Abbreviation Dataset := (gmap string (list num)).

Lemma fc_geo_loop (chunks : list ChunkOut) (ds : list Dataset)
  (md : Meta) (acc : list Dataset) (w : World num) :
  Forall2 (fun c d => scratch w !! co_path c = Some d) chunks ds ->
  for_each (FractionalCover.recombine_geographic_step E) chunks (md, acc) w
  = Next (combined_metadata E chunks md, (acc ++ ds)%list) w.
Proof.
  revert ds md acc.
  induction chunks as [|c chunks IH]; intros ds md acc Hfiles.
  - inversion Hfiles; subst. cbn. by rewrite app_nil_r.
  - inversion Hfiles as [|? d ? ds' Hd Hrest]; subst.
    cbn [for_each combined_metadata fold_left].
    unfold FractionalCover.recombine_geographic_step at 1.
    rewrite bind_bind.
    rewrite (bind_next _ _ _ _ _ (open_dataset_some (co_path c) d w Hd)).
    rewrite (bind_next _ _ _ _ w eq_refl).
    rewrite (IH ds' _ _ Hrest). by rewrite <- app_assoc.
Qed.

Lemma tsm_geo_loop n (chunks : list ChunkOut) (ds : list Dataset)
  (md : Meta) (acc : list Dataset) (w : World num) :
  Forall2 (fun c d => scratch w !! co_path c = Some d) chunks ds ->
  exists w',
    progressed (n * length chunks) w w'
    /\ for_each (Tsm.recombine_geographic_step E (Some n)) chunks (md, acc) w
       = Next (combined_metadata E chunks md, (acc ++ ds)%list) w'.
Proof.
  revert ds md acc w.
  induction chunks as [|c chunks IH]; intros ds md acc w Hfiles.
  - inversion Hfiles; subst. exists w. rewrite Nat.mul_0_r, app_nil_r.
    split; [apply progressed_refl|done].
  - inversion Hfiles as [|? d ? ds' Hd Hrest]; subst.
    cbn [for_each combined_metadata fold_left].
    unfold Tsm.recombine_geographic_step at 1.
    rewrite bind_bind.
    rewrite (bind_next _ _ _ _ _ (open_dataset_some (co_path c) d w Hd)).
    rewrite bind_bind.
    destruct (add_scenes_progressed (R := value) n w) as (w1 & Hadd & Hw1).
    cbn [add_scenes_opt].
    rewrite (bind_next _ _ _ _ _ Hadd).
    rewrite (bind_next _ _ _ _ w1 eq_refl).
    destruct (IH ds' (combine_metadata E md (co_meta c)) (acc ++ [d])%list w1)
      as (w' & Hw' & Hloop).
    { destruct Hw1 as (_&_&_&_&_&_&_&Hs&_). rewrite Hs. exact Hrest. }
    exists w'. split.
    + replace (n * length (c :: chunks))%nat with (n + n * length chunks)%nat
        by (cbn [length]; lia).
      eapply progressed_trans; [exact Hw1|exact Hw'].
    + rewrite Hloop. by rewrite <- app_assoc.
Qed.

(** [recombine_geographic_chunks] keeps the input order: with the flag
    clear at its one check it opens the non-[None] entries as they come,
    merges their metadata with [combine_metadata] from left to right,
    mosaics the datasets in that order, and writes the result under the
    time id of the first entry. The fractional cover stage leaves the task
    record alone; the TSM stage (without animation) adds [num_scn_per_chk]
    scenes per entry. *)
Theorem recombine_geographic_chunks_mosaics (n : nat) (chunks : value)
  (first : ChunkOut) (rest : list ChunkOut) (ds : list Dataset)
  (w : World num) :
  cancel_flag E (clock w) = false ->
  temp_exists w = true ->
  List.filter not_none (as_chunk_list chunks) = map VChunk (first :: rest) ->
  Forall2 (fun c d => scratch w !! co_path c = Some d) (first :: rest) ds ->
  let out :=
    VChunk (recombined_geo_path cfg first,
            combined_metadata E (first :: rest) ∅, co_ids first) in
  let mosaic := combine_geographic_chunks E ds in
  FractionalCover.recombine_geographic_chunks E cfg chunks w
  = Next out (written (recombined_geo_path cfg first) mosaic (checked E w))
  /\ (animation_id cfg = "none" ->
      exists w1,
        progressed (n * S (length rest)) w w1
        /\ Tsm.recombine_geographic_chunks E cfg (Some n) chunks w
           = Next out (written (recombined_geo_path cfg first) mosaic w1)).
Proof.
  intros Hc Htemp Hchunks Hfiles out mosaic. split.
  - unfold FractionalCover.recombine_geographic_chunks.
    rewrite (bind_next _ _ _ _ _ (cancellable_false E w Hc)).
    rewrite Hchunks. cbn [map length Nat.eqb].
    rewrite (bind_next _ _ _ _ _
               (as_chunks_chunks (first :: rest) (checked E w))).
    rewrite (bind_next _ _ _ _ _
               (fc_geo_loop (first :: rest) ds ∅ [] (checked E w) Hfiles)).
    cbn [app]. unfold bind, to_netcdf. cbn [checked log tick temp_exists].
    rewrite Htemp. reflexivity.
  - intros Hanim.
    unfold Tsm.recombine_geographic_chunks.
    rewrite (bind_next _ _ _ _ _ (cancellable_false E w Hc)).
    rewrite Hchunks. cbn [map length Nat.eqb].
    rewrite (bind_next _ _ _ _ _
               (as_chunks_chunks (first :: rest) (checked E w))).
    destruct (tsm_geo_loop n (first :: rest) ds ∅ [] (checked E w) Hfiles)
      as (w1 & Hw1 & Hloop).
    rewrite (bind_next _ _ _ _ _ Hloop).
    assert (Hn : negb (animation_id cfg =? "none")%string = false)
      by (rewrite Hanim; reflexivity).
    rewrite Hn.
    rewrite (bind_next _ _ _ tt w1 eq_refl).
    exists w1. split.
    + replace (n * S (length rest))%nat with (0 + n * length (first :: rest))%nat
        by (cbn [length]; lia).
      eapply progressed_trans; [apply progressed_checked|exact Hw1].
    + cbn [app]. unfold bind, to_netcdf.
      destruct Hw1 as (_&_&_&_&_&_&Ht1&_).
      rewrite Ht1. cbn [checked log tick temp_exists]. rewrite Htemp.
      reflexivity.
Qed.

End GeoLoop.

Lemma recombine_geographic_chunks_mosaics_witness :
  let E := demo_env dates11 (fun _ => false) in
  let cfg := demo_cfg (Some 1%nat) in
  let a := fc_chunk_out cfg 1 0 in
  let b := fc_chunk_out cfg 0 0 in
  let w := with_scratch (fun _ => {[ co_path a := demo_artifact 3;
                                      co_path b := demo_artifact 5 ]})
             demo_world in
  let out := VChunk (recombined_geo_path cfg a,
                     combined_metadata E [a; b] ∅, co_ids a) in
  let mosaic :=
    combine_geographic_chunks E [demo_artifact 3; demo_artifact 5] in
  FractionalCover.recombine_geographic_chunks E cfg
    (VList [VChunk a; VNone; VChunk b]) w
  = Next out (written (recombined_geo_path cfg a) mosaic (checked E w))
  /\ (animation_id cfg = "none" ->
      exists w1,
        progressed (4 * 2) w w1
        /\ Tsm.recombine_geographic_chunks E cfg (Some 4%nat)
             (VList [VChunk a; VNone; VChunk b]) w
           = Next out (written (recombined_geo_path cfg a) mosaic w1)).
Proof.
  intros E cfg a b w.
  apply (recombine_geographic_chunks_mosaics E cfg 4
           (VList [VChunk a; VNone; VChunk b]) a [b]
           [demo_artifact 3; demo_artifact 5] w).
  - reflexivity.
  - reflexivity.
  - reflexivity.
  - repeat constructor; vm_compute; reflexivity.
Defined.

(** ** The output stages *)

Lemma string_app_inv_head (p a b : string) :
  (p ++ a = p ++ b)%string -> a = b.
Proof. induction p as [|c p IH]; cbn; [done|]. intros [= He]. by apply IH. Qed.

Lemma path_join_inj (d a b : string) :
  Py.starts_with_slash a = false ->
  Py.starts_with_slash b = false ->
  Py.path_join d a = Py.path_join d b -> a = b.
Proof.
  intros Ha Hb. rewrite !path_join_relative by done.
  apply string_app_inv_head.
Qed.

Section Output.
Context {num : Type} `{Numeric num}.
Variable E : Env num.
Variable cfg : TaskConfig.
Local Abbreviation Dataset := (gmap string (list num)).

(** The end of both output stages: the plot, the completion mark and the
    final status. *)
Lemma output_finish (b : bool) (p msg : string) (w5 : World num) :
  exists w',
    (((if b then set_path "plot_path" p ;; create_2d_plot p else ret tt) ;;
      set_complete ;; update_status "OK" msg ;; ret VTrue)
     : stage num value value) w5 = Next VTrue w'
    /\ results w' = results w5
    /\ products_written (trace w') = products_written (trace w5)
    /\ plots_drawn (trace w')
       = (plots_drawn (trace w5) ++ (if b then [p] else []))%list
    /\ status (task w') = "OK" /\ message (task w') = msg
    /\ complete (task w') = true
    /\ scenes_processed (task w') = scenes_processed (task w5)
    /\ scratch w' = scratch w5.
Proof.
  destruct b; eexists; (split; [reflexivity|]); repeat split.
  cbn. by rewrite app_nil_r.
Qed.

(** With the flag clear and the final artifact in place the fractional
    cover output stage writes its four products from the one dataset, the
    GeoTIFF from its [int32] cast, in the order netCDF, GeoTIFF, mosaic,
    band math; it draws the plot exactly when the metadata lists more than
    one acquisition, marks the task complete with status OK and returns
    [True], leaving the scratch directory and the scene counter alone. *)
Theorem fc_output_products (c : ChunkOut) (ds : Dataset) (w : World num) :
  cancel_flag E (clock w) = false ->
  scratch w !! co_path c = Some ds ->
  exists w',
    FractionalCover.create_output_products E cfg (VChunk c) w = Next VTrue w'
    /\ status (task w') = "OK" /\ message (task w') = products_message
    /\ complete (task w') = true
    /\ scenes_processed (task w') = scenes_processed (task w)
    /\ scratch w' = scratch w
    /\ (forall name,
          In name ["data_netcdf.nc"; "data_tif.tif"; "png_mosaic.png";
                   "band_math.png"] ->
          results w' !! Py.path_join (result_dir cfg) name
          = Some (if String.eqb name "data_tif.tif" then astype_int32 E ds
                  else ds))
    /\ products_written (trace w')
       = (products_written (trace w) ++ fc_product_paths cfg)%list
    /\ plots_drawn (trace w')
       = (plots_drawn (trace w)
            ++ (if (1 <? length (acquisition_list E (co_meta c)))%nat
                then [Py.path_join (result_dir cfg) "plot_path.png"]
                else []))%list.
Proof.
  intros Hc Hfile.
  unfold FractionalCover.create_output_products.
  rewrite (bind_next _ _ _ _ _ (cancellable_false E w Hc)).
  rewrite (bind_next _ _ _ _ _ (open_dataset_some _ _ (checked E w) Hfile)).
  do 4 (erewrite bind_next; [|reflexivity]).
  do 4 (erewrite bind_next; [|reflexivity]).
  match goal with
  | |- context [bind _ _ ?w0] => set (w5 := w0)
  end.
  destruct (output_finish (1 <? length (acquisition_list E (co_meta c)))%nat
              (Py.path_join (result_dir cfg) "plot_path.png")
              products_message w5)
    as (w' & Hrun & Hres & Hprod & Hplot & Hst & Hmsg & Hcompl & Hscn & Hscr).
  exists w'. split; [exact Hrun|].
  split; [exact Hst|]. split; [exact Hmsg|]. split; [exact Hcompl|].
  split; [by rewrite Hscn|]. split; [by rewrite Hscr|].
  split; [|split].
  - intros name Hin. rewrite Hres. subst w5.
    cbn [results with_results log with_task tick checked].
    assert (Hne : forall a b, a <> b ->
              Py.starts_with_slash a = false ->
              Py.starts_with_slash b = false ->
              Py.path_join (result_dir cfg) a <> Py.path_join (result_dir cfg) b).
    { intros a b Hab Ha Hb Heq. apply Hab. by eapply path_join_inj. }
    cbn [In] in Hin.
    destruct Hin as [<-|[<-|[<-|[<-|[]]]]]; cbn [String.eqb Ascii.eqb Bool.eqb].
    + rewrite !lookup_insert_ne by (apply Hne; done).
      by rewrite lookup_insert_eq.
    + rewrite !lookup_insert_ne by (apply Hne; done).
      by rewrite lookup_insert_eq.
    + rewrite !lookup_insert_ne by (apply Hne; done).
      by rewrite lookup_insert_eq.
    + by rewrite lookup_insert_eq.
  - rewrite Hprod. subst w5. unfold products_written, fc_product_paths.
    cbn [trace log with_results with_task tick checked omap map rev app].
    cbn. by rewrite <- !app_assoc.
  - rewrite Hplot. subst w5. reflexivity.
Qed.

End Output.
Section TsmOutput.
Context {num : Type} `{Numeric num}.
Variable E : Env num.
Variable cfg : TaskConfig.
Local Abbreviation Dataset := (gmap string (list num)).

(** The frames of the animation are rendered next to the scratch files:
    the loop touches neither the task record nor the results. *)
Lemma render_frames_frame wofs (l : list nat) n (w : World num) :
  temp_exists w = true ->
  exists n' w',
    for_each (Tsm.render_frame E cfg wofs) l n w = Next n' w'
    /\ results w' = results w /\ task w' = task w
    /\ products_written (trace w') = products_written (trace w)
    /\ plots_drawn (trace w') = plots_drawn (trace w).
Proof.
  revert n w. induction l as [|i l IH]; intros n w Ht.
  { by exists n, w. }
  cbn [for_each]. unfold Tsm.render_frame at 1.
  rewrite bind_bind.
  rewrite (bind_next _ _ _ _ w (eq_refl : path_exists _ w = Next _ w)).
  destruct (bool_decide _) eqn:Hex.
  - apply bool_decide_eq_true in Hex as [d Hd].
    rewrite bind_bind.
    rewrite (bind_next _ _ _ _ _ (open_dataset_some _ d w Hd)).
    rewrite bind_bind.
    unfold to_netcdf at 1. unfold bind at 1. rewrite Ht.
    rewrite (bind_next _ _ _ (S n) _ eq_refl).
    match goal with
    | |- context [for_each _ l ?n1 ?w1] =>
        destruct (IH n1 w1 Ht) as (n' & w' & Hrun & Hr & Htk & Hp & Hpl)
    end.
    exists n', w'. split; [exact Hrun|]. done.
  - rewrite (bind_next _ _ _ n w eq_refl).
    apply IH, Ht.
Qed.

Lemma inserts_same {A} (m : gmap string A) (x : A)
  (p1 p2 p3 p4 p5 path : string) :
  In path [p1; p2; p3; p4; p5] ->
  (<[p5 := x]> (<[p4 := x]> (<[p3 := x]> (<[p2 := x]> (<[p1 := x]> m)))))
    !! path = Some x.
Proof.
  intros Hin. cbn [In] in Hin.
  repeat (destruct Hin as [<-|Hin];
          [repeat (rewrite lookup_insert; case_decide; [reflexivity|]);
           congruence|]).
  done.
Qed.

(** With the flag clear, the scratch directory and the final artifact in
    place, and the four variables it reads present, the TSM output stage
    adds the variability [max - normalized_data] and the water fraction
    [wofs / wofs_total_clean], replaces non-finite values by 0, masks the
    result by that water fraction, and writes this one masked dataset to
    all five products; it draws the plot exactly when the metadata lists
    more than one acquisition, marks the task complete with status OK and
    returns [True], leaving the scene counter alone. *)
Theorem tsm_output_products (c : ChunkOut) (w : World num)
  (ds : Dataset) (mx nd wo wtc : list num) :
  cancel_flag E (clock w) = false ->
  temp_exists w = true ->
  scratch w !! co_path c = Some ds ->
  ds !! "max" = Some mx ->
  ds !! "normalized_data" = Some nd ->
  ds !! "wofs" = Some wo ->
  ds !! "wofs_total_clean" = Some wtc ->
  let D := tsm_final_dataset ds mx nd wo wtc in
  let fraction := map fill (zip_with ndiv wo wtc) in
  let M := Tsm.mask_water_quality E D fraction in
  exists w',
    Tsm.create_output_products E cfg (VChunk c) w = Next VTrue w'
    /\ status (task w') = "OK" /\ message (task w') = products_message
    /\ complete (task w') = true
    /\ scenes_processed (task w') = scenes_processed (task w)
    /\ (forall path, In path (tsm_product_paths cfg) ->
                     results w' !! path = Some M)
    /\ products_written (trace w')
       = (products_written (trace w) ++ tsm_product_paths cfg)%list
    /\ plots_drawn (trace w')
       = (plots_drawn (trace w)
            ++ (if (1 <? length (acquisition_list E (co_meta c)))%nat
                then [Py.path_join (result_dir cfg) "plot_path.png"]
                else []))%list.
Proof.
  intros Hc Htemp Hfile Hmx Hnd Hwo Hwtc D fraction M.
  assert (HDw : D !! "wofs" = Some fraction).
  { unfold D, tsm_final_dataset, Tsm.nan_to_num.
    by rewrite lookup_fmap, lookup_insert_eq. }
  unfold Tsm.create_output_products.
  rewrite (bind_next _ _ _ _ _ (cancellable_false E w Hc)).
  rewrite (bind_next _ _ _ _ _ (open_dataset_some _ _ (checked E w) Hfile)).
  rewrite (bind_next _ _ _ _ _ (get_var_some _ _ _ _ Hmx)).
  rewrite (bind_next _ _ _ _ _ (get_var_some _ _ _ _ Hnd)).
  erewrite bind_next; [|apply get_var_some; by rewrite lookup_insert_ne].
  erewrite bind_next; [|apply get_var_some; by rewrite lookup_insert_ne].
  fold (tsm_final_dataset ds mx nd wo wtc). fold D.
  rewrite (bind_next _ _ _ _ _ (get_var_some _ _ _ _ HDw)).
  fold M.
  clearbody M. clearbody fraction. clearbody D.
  do 6 (erewrite bind_next; [|reflexivity]).
  do 5 (erewrite bind_next; [|reflexivity]).
  match goal with
  | |- context [bind _ _ ?w0] => set (w5 := w0)
  end.
  assert (Hres1 : forall path, In path (tsm_product_paths cfg) ->
                    results w5 !! path = Some M).
  { intros path Hin.
    exact (inserts_same (results w) M
             (Py.path_join (result_dir cfg) "data_netcdf.nc")
             (Py.path_join (result_dir cfg) "data_tif.tif")
             (Py.path_join (result_dir cfg) "tsm.png")
             (Py.path_join (result_dir cfg) "clear_observations.png")
             (Py.path_join (result_dir cfg) "water_percentage.png")
             path Hin). }
  assert (Hres2 : products_written (trace w5)
            = (products_written (trace w) ++ tsm_product_paths cfg)%list).
  { unfold products_written, tsm_product_paths. subst w5.
    cbn. by rewrite <- !app_assoc. }
  assert (Hres3 : plots_drawn (trace w5) = plots_drawn (trace w))
    by reflexivity.
  assert (Hres4 : scenes_processed (task w5) = scenes_processed (task w))
    by reflexivity.
  assert (Hres5 : temp_exists w5 = true) by exact Htemp.
  clearbody w5.
  assert (Hanim : exists w6,
    ((if negb (animation_id cfg =? "none")
      then frames <- for_each (Tsm.render_frame E cfg fraction)
                       (seq 0 (size (co_meta c))) 0%nat ;;
           write_animation
             (if negb (animation_id cfg =? "none")
              then Py.path_join (result_dir cfg) "animation.gif" else "")
             frames
      else ret tt) : stage num value unit) w5 = Next tt w6
    /\ results w6 = results w5 /\ task w6 = task w5
    /\ products_written (trace w6) = products_written (trace w5)
    /\ plots_drawn (trace w6) = plots_drawn (trace w5)).
  { destruct (negb (animation_id cfg =? "none")).
    - destruct (render_frames_frame fraction (seq 0 (size (co_meta c)))
                  0%nat w5 Hres5) as (n' & w6 & Hrun & Hr & Htk & Hp & Hpl).
      eexists. rewrite (bind_next _ _ _ _ _ Hrun).
      split; [reflexivity|]. done.
    - by exists w5. }
  destruct Hanim as (w6 & Hrun6 & Hr6 & Htk6 & Hp6 & Hpl6).
  rewrite (bind_next _ _ _ _ _ Hrun6).
  destruct (output_finish (1 <? length (acquisition_list E (co_meta c)))%nat
              (Py.path_join (result_dir cfg) "plot_path.png")
              products_message w6)
    as (w' & Hrun & Hres & Hprod & Hplot & Hst & Hmsg & Hcompl & Hscn & Hscr).
  exists w'. split; [exact Hrun|].
  split; [exact Hst|]. split; [exact Hmsg|]. split; [exact Hcompl|].
  split; [by rewrite Hscn, Htk6|].
  split; [intros path Hin; rewrite Hres, Hr6; by apply Hres1|].
  split; [by rewrite Hprod, Hp6|].
  by rewrite Hplot, Hpl6, Hres3.
Qed.


End TsmOutput.

Lemma fc_output_products_witness :
  let E := demo_env dates11 (fun _ => false) in
  let cfg := demo_cfg (Some 1%nat) in
  let c := fc_chunk_out cfg 0 0 in
  let ds := demo_artifact 3 in
  let w := with_scratch (fun _ => {[ co_path c := ds ]}) demo_world in
  exists w',
    FractionalCover.create_output_products E cfg (VChunk c) w = Next VTrue w'
    /\ status (task w') = "OK" /\ message (task w') = products_message
    /\ complete (task w') = true
    /\ scenes_processed (task w') = scenes_processed (task w)
    /\ scratch w' = scratch w
    /\ (forall name,
          In name ["data_netcdf.nc"; "data_tif.tif"; "png_mosaic.png";
                   "band_math.png"] ->
          results w' !! Py.path_join (result_dir cfg) name
          = Some (if String.eqb name "data_tif.tif" then astype_int32 E ds
                  else ds))
    /\ products_written (trace w')
       = (products_written (trace w) ++ fc_product_paths cfg)%list
    /\ plots_drawn (trace w')
       = (plots_drawn (trace w)
            ++ (if (1 <? length (acquisition_list E (co_meta c)))%nat
                then [Py.path_join (result_dir cfg) "plot_path.png"]
                else []))%list.
Proof.
  intros E cfg c ds w.
  apply (fc_output_products E cfg c ds w).
  - reflexivity.
  - apply lookup_singleton_eq.
Defined.

Lemma tsm_output_products_witness :
  let E := demo_env dates11 (fun _ => false) in
  let cfg := demo_cfg (Some 1%nat) in
  let c := tsm_geo_out cfg 0 0 in
  let ds := demo_artifact 3 in
  let w := with_scratch (fun _ => {[ co_path c := ds ]}) demo_world in
  let D := tsm_final_dataset ds [xz 3] [xz 3] [xz 1] [xz 1] in
  let fraction := map fill (zip_with ndiv [xz 1] [xz 1]) in
  let M := Tsm.mask_water_quality E D fraction in
  exists w',
    Tsm.create_output_products E cfg (VChunk c) w = Next VTrue w'
    /\ status (task w') = "OK" /\ message (task w') = products_message
    /\ complete (task w') = true
    /\ scenes_processed (task w') = scenes_processed (task w)
    /\ (forall path, In path (tsm_product_paths cfg) ->
                     results w' !! path = Some M)
    /\ products_written (trace w')
       = (products_written (trace w) ++ tsm_product_paths cfg)%list
    /\ plots_drawn (trace w')
       = (plots_drawn (trace w)
            ++ (if (1 <? length (acquisition_list E (co_meta c)))%nat
                then [Py.path_join (result_dir cfg) "plot_path.png"]
                else []))%list.
Proof.
  intros E cfg c ds w.
  apply (tsm_output_products E cfg c w ds [xz 3] [xz 3] [xz 1] [xz 1]).
  - reflexivity.
  - reflexivity.
  - apply lookup_singleton_eq.
  - vm_compute. reflexivity.
  - vm_compute. reflexivity.
  - vm_compute. reflexivity.
  - vm_compute. reflexivity.
Defined.


(** ** The fractional cover processing task *)

Section FcProcessing.
Context {num : Type} `{Numeric num}.
Variable E : Env num.
Variable cfg : TaskConfig.
Local Abbreviation Dataset := (gmap string (list num)).

Hypothesis never_cancelled : forall n, cancel_flag E n = false.

Lemma load_ranges_time_ranges {R} (time_chunk : list Z) (w : World num) :
  iterative cfg = true \/ time_chunk <> [] ->
  load_ranges (R := R) cfg time_chunk w = Next (time_ranges cfg time_chunk) w.
Proof.
  intros Hit. unfold load_ranges, time_ranges.
  destruct (iterative cfg); [done|].
  destruct time_chunk; [|done]. by destruct Hit.
Qed.

Lemma fc_composite_some (loads : list (range * Dataset)) (x : Dataset) :
  is_Some (fc_composite E loads (Some x)).
Proof.
  revert x. induction loads as [|[r d] loads IH]; intros x; [by eexists|].
  apply (IH (fc_processing_method E (add_timestamp_data_to_xr E d)
               (clean_mask_func E d) (Some x))).
Qed.

Lemma fc_composite_none (loads : list (range * Dataset)) :
  fc_composite E loads None = None <-> loads = [].
Proof.
  split; [|by intros ->].
  destruct loads as [|[r d] loads]; [done|]. intros Hnone.
  destruct (fc_composite_some loads
              (fc_processing_method E (add_timestamp_data_to_xr E d)
                 (clean_mask_func E d) None)) as [y Hy].
  change (fc_composite E ((r, d) :: loads) None)
    with (fc_composite E loads
            (Some (fc_processing_method E (add_timestamp_data_to_xr E d)
                     (clean_mask_func E d) None))) in Hnone.
  congruence.
Qed.

Lemma fc_load_loop (p0 : Params) (rs : list range) (p : Params)
  (it : option Dataset) (md : Meta) (w : World num) :
  (forall r, update_time p r = update_time p0 r) ->
  let loads := omap (loaded E p0) rs in
  exists p' w',
    progressed (length loads) w w'
    /\ for_each (FractionalCover.processing_step E) rs (p, it, md) w
       = Next (p', fc_composite E loads it, fc_metadata E p0 loads md) w'.
Proof.
  revert p it md w. induction rs as [|r rs IH]; intros p it md w Hp loads.
  { exists p, w. split; [apply progressed_refl|done]. }
  subst loads. cbn [for_each omap].
  unfold FractionalCover.processing_step at 1.
  rewrite bind_bind.
  rewrite (bind_next _ _ _ _ _ (cancellable_false E w (never_cancelled _))).
  rewrite Hp.
  assert (Hp' : forall r', update_time (update_time p0 r) r' = update_time p0 r')
    by done.
  assert (Hskip : loaded E p0 r = None ->
            exists p' w',
              progressed (length (omap (loaded E p0) (r :: rs))) w w'
              /\ for_each (FractionalCover.processing_step E) rs
                   (update_time p0 r, it, md) (checked E w)
                 = Next (p', fc_composite E (omap (loaded E p0) (r :: rs)) it,
                         fc_metadata E p0 (omap (loaded E p0) (r :: rs)) md) w').
  { intros Hl. cbn [omap list_omap]. rewrite Hl.
    destruct (IH (update_time p0 r) it md (checked E w) Hp')
      as (p' & w' & Hw' & Hloop).
    exists p', w'. split; [|exact Hloop].
    eapply (progressed_trans 0); [apply progressed_checked|exact Hw']. }
  destruct (get_stacked_datasets_by_extent E (update_time p0 r)) as [d|]
    eqn:Hload.
  2:{ rewrite (bind_next _ _ _ _ (checked E w) eq_refl).
      apply Hskip. unfold loaded. by rewrite Hload. }
  destruct (has_time d) eqn:Htime; cbn [negb].
  2:{ rewrite (bind_next _ _ _ _ (checked E w) eq_refl).
      apply Hskip. unfold loaded. by rewrite Hload, Htime. }
  clear Hskip.
  assert (Hl : loaded E p0 r = Some (r, d)).
  { unfold loaded. by rewrite Hload, Htime. }
  cbn [omap list_omap]. rewrite Hl.
  rewrite bind_bind.
  rewrite (bind_next _ _ _ _ _
             (cancellable_false E (checked E w) (never_cancelled _))).
  rewrite bind_bind.
  destruct (add_scenes_progressed (R := value) 1 (checked E (checked E w)))
    as (w1 & Hadd & Hw1).
  rewrite (bind_next _ _ _ _ _ Hadd).
  rewrite (bind_next _ _ _ _ w1 eq_refl).
  match goal with
  | |- context [for_each _ rs (?p1, ?it1, ?md1) w1] =>
      destruct (IH p1 it1 md1 w1 Hp') as (p' & w' & Hw' & Hloop)
  end.
  exists p', w'. split; [|exact Hloop].
  refine (progressed_trans 1 _ w w1 w' _ Hw').
  refine (progressed_trans 0 1 w _ w1 _ Hw1).
  apply (progressed_trans 0 0 w (checked E w)); apply progressed_checked.
Qed.

(** Without cancellation and with the scratch directory in place, the
    fractional cover [processing_task] loads the time ranges of its chunk
    in order and composites the loads that have data with a time dimension
    by the processing method of the task; the counter advances by one per
    such load and nothing else of the task record, the results or the other
    scratch files changes. It returns [None], writing nothing, exactly when
    no load had data; otherwise it writes the composite under
    [<geo id>_<time id>.nc] and returns that path with the metadata of the
    loads and its two ids. *)
Theorem fc_processing_task_composites (g t : nat) (gc : GeoChunk)
  (tc : list Z) (p : Params) (w : World num) :
  temp_exists w = true ->
  iterative cfg = true \/ tc <> [] ->
  let p0 := update_geo p gc in
  let loads := omap (loaded E p0) (time_ranges cfg tc) in
  (fc_composite E loads None = None <-> loads = [])
  /\ exists w1,
       progressed (length loads) w w1
       /\ FractionalCover.processing_task E cfg g t gc tc p w
          = match fc_composite E loads None with
            | None => Return VNone w1
            | Some d =>
                Next (VChunk (FractionalCover.chunk_path cfg g t,
                              fc_metadata E p0 loads ∅,
                              {| geo_chunk_id := g; time_chunk_id := t |}))
                  (written (FractionalCover.chunk_path cfg g t) d w1)
            end.
Proof.
  intros Htemp Hit p0 loads. split; [apply fc_composite_none|].
  unfold FractionalCover.processing_task.
  rewrite (bind_next _ _ _ _ _ (cancellable_false E w (never_cancelled _))).
  rewrite (bind_next _ _ _ true (checked E w)
             (f_equal (fun b => Next b (checked E w)) Htemp
              : temp_path_exists (checked E w) = Next true (checked E w))).
  cbn [negb].
  rewrite (bind_next _ _ _ _ _ (load_ranges_time_ranges tc (checked E w) Hit)).
  destruct (fc_load_loop p0 (time_ranges cfg tc) p0 None ∅ (checked E w))
    as (p' & w1 & Hw1 & Hloop); [done|].
  fold loads in Hw1, Hloop.
  exists w1. split.
  { eapply (progressed_trans 0); [apply progressed_checked|exact Hw1]. }
  fold p0. rewrite (bind_next _ _ _ _ _ Hloop).
  destruct (fc_composite E loads None) as [d|]; [|done].
  unfold bind, to_netcdf.
  destruct Hw1 as (_&_&_&_&_&_&Ht1&_). rewrite Ht1.
  cbn [checked log tick temp_exists]. rewrite Htemp. reflexivity.
Qed.

End FcProcessing.

Lemma fc_processing_task_composites_witness :
  let E := demo_env dates11 (fun _ => false) in
  let cfg := demo_cfg (Some 2%nat) in
  let tc := [10; 15; 20]%Z in
  let p0 := update_geo (parsed cfg) demo_geo in
  let loads := omap (loaded E p0) (time_ranges cfg tc) in
  length loads = 2%nat
  /\ exists w1,
       progressed (length loads) demo_world w1
       /\ FractionalCover.processing_task E cfg 0 0 demo_geo tc (parsed cfg)
            demo_world
          = match fc_composite E loads None with
            | None => Return VNone w1
            | Some d =>
                Next (VChunk (FractionalCover.chunk_path cfg 0 0,
                              fc_metadata E p0 loads ∅,
                              {| geo_chunk_id := 0; time_chunk_id := 0 |}))
                  (written (FractionalCover.chunk_path cfg 0 0) d w1)
            end.
Proof.
  intros E cfg tc p0 loads. split; [vm_compute; reflexivity|].
  refine (proj2 (fc_processing_task_composites E cfg (fun _ => eq_refl)
                   0 0 demo_geo tc (parsed cfg) demo_world eq_refl _)).
  left. reflexivity.
Defined.

(** ** The band math *)

Section BandMath.
Context {num : Type} `{Numeric num}.
Variable E : Env num.
Local Abbreviation Dataset := (gmap string (list num)).


End BandMath.


(** ** The frame of the worker stages *)

Section Frame.
Context {num : Type} `{Numeric num}.
Variable E : Env num.
Variable cfg : TaskConfig.
Local Abbreviation Dataset := (gmap string (list num)).

Lemma worker_frame_refl (w : World num) : worker_frame w w.
Proof. unfold worker_frame. done. Qed.

Lemma worker_frame_trans (w1 w2 w3 : World num) :
  worker_frame w1 w2 -> worker_frame w2 w3 -> worker_frame w1 w3.
Proof.
  intros (?&?&?&?&?&?&?&?&?) (?&?&?&?&?&?&?&?&?).
  unfold worker_frame. repeat split; try congruence. lia.
Qed.

Lemma keeps_ret {R A} (a : A) : keeps_frame (ret (num := num) (R := R) a).
Proof. intros w. apply worker_frame_refl. Qed.

Lemma keeps_return {R A} (r : R) :
  keeps_frame (return_ (num := num) (A := A) r).
Proof. intros w. apply worker_frame_refl. Qed.

Lemma keeps_raise {R A} (e : string) :
  keeps_frame (raise (num := num) (R := R) (A := A) e).
Proof. intros w. apply worker_frame_refl. Qed.

Lemma keeps_bind {R A B} (m : stage num R A) (k : A -> stage num R B) :
  keeps_frame m -> (forall a, keeps_frame (k a)) -> keeps_frame (bind m k).
Proof.
  intros Hm Hk w. unfold bind. specialize (Hm w).
  destruct (m w) as [a w'|r w'|e w']; cbn [world_of] in *; [|done..].
  eapply worker_frame_trans; [exact Hm|apply Hk].
Qed.

Lemma keeps_for_each {R A S} (body : A -> S -> stage num R S) (l : list A) :
  (forall x acc, keeps_frame (body x acc)) ->
  forall acc, keeps_frame (for_each body l acc).
Proof.
  intros Hbody. induction l as [|x l IH]; intros acc; cbn [for_each].
  - apply keeps_ret.
  - apply keeps_bind; [apply Hbody|exact IH].
Qed.

Lemma keeps_cancellable : keeps_frame (cancellable E).
Proof.
  intros w. unfold cancellable, bind, check_cancel_task.
  destruct (cancel_flag E (clock w)); unfold worker_frame; done.
Qed.

Lemma keeps_add_scenes {R} n : keeps_frame (add_scenes (num := num) (R := R) n).
Proof. intros w. unfold worker_frame. cbn. repeat split; lia. Qed.

Lemma keeps_add_scenes_opt {R} n :
  keeps_frame (add_scenes_opt (num := num) (R := R) n).
Proof. destruct n; [apply keeps_add_scenes|apply keeps_raise]. Qed.

Lemma keeps_open_dataset {R} path :
  keeps_frame (open_dataset (num := num) (R := R) path).
Proof.
  intros w. unfold open_dataset.
  destruct (scratch w !! path); apply worker_frame_refl.
Qed.

Lemma keeps_to_netcdf {R} (d : Dataset) path :
  keeps_frame (to_netcdf (R := R) d path).
Proof.
  intros w. unfold to_netcdf.
  destruct (temp_exists w) eqn:Ht; unfold worker_frame; cbn; done.
Qed.

Lemma keeps_os_remove {R} path :
  keeps_frame (os_remove (num := num) (R := R) path).
Proof.
  intros w. unfold os_remove.
  destruct (scratch w !! path); unfold worker_frame; done.
Qed.

Lemma keeps_path_exists {R} path :
  keeps_frame (path_exists (num := num) (R := R) path).
Proof. intros w. apply worker_frame_refl. Qed.

Lemma keeps_temp_path_exists {R} :
  keeps_frame (temp_path_exists (num := num) (R := R)).
Proof. intros w. apply worker_frame_refl. Qed.

Lemma keeps_get_var {R} (d : Dataset) name :
  keeps_frame (get_var (R := R) d name).
Proof. unfold get_var. destruct (d !! name); [apply keeps_ret|apply keeps_raise]. Qed.

Lemma keeps_lift_key {R A} (o : option A) :
  keeps_frame (lift_key (num := num) (R := R) o).
Proof. destruct o; [apply keeps_ret|apply keeps_raise]. Qed.

Lemma keeps_as_chunks {R} (l : list value) :
  keeps_frame (as_chunks (num := num) (R := R) l).
Proof.
  induction l as [|v l IH]; [apply keeps_ret|].
  destruct v; try apply keeps_raise.
  cbn [as_chunks]. apply keeps_bind; [exact IH|]. intros. apply keeps_ret.
Qed.

Lemma keeps_load_ranges {R} tc :
  keeps_frame (load_ranges (num := num) (R := R) cfg tc).
Proof.
  unfold load_ranges. destruct (iterative cfg); [apply keeps_ret|].
  destruct tc; [apply keeps_raise|apply keeps_ret].
Qed.

Ltac frame :=
  repeat first
    [ apply keeps_ret | apply keeps_return | apply keeps_raise
    | apply keeps_cancellable | apply keeps_add_scenes
    | apply keeps_add_scenes_opt | apply keeps_open_dataset
    | apply keeps_to_netcdf | apply keeps_os_remove | apply keeps_path_exists
    | apply keeps_temp_path_exists | apply keeps_get_var
    | apply keeps_lift_key | apply keeps_as_chunks | apply keeps_load_ranges
    | apply keeps_bind; [|intros]
    | apply keeps_for_each; intros
    | match goal with
      | |- keeps_frame (match ?x with _ => _ end) => destruct x
      | |- keeps_frame (let '(_, _) := ?x in _) => destruct x
      end ].

Lemma keeps_fc_processing_task g t gc tc p :
  keeps_frame (FractionalCover.processing_task E cfg g t gc tc p).
Proof.
  unfold FractionalCover.processing_task. frame.
  all: unfold FractionalCover.processing_step; frame.
Qed.

Lemma keeps_tsm_processing_task g t gc tc p :
  keeps_frame (Tsm.processing_task E cfg g t gc tc p).
Proof.
  unfold Tsm.processing_task. frame.
  all: unfold Tsm.processing_step; frame.
Qed.

Lemma keeps_fc_recombine_time_chunks n chunks :
  keeps_frame (FractionalCover.recombine_time_chunks E cfg n chunks).
Proof.
  unfold FractionalCover.recombine_time_chunks. frame.
  all: unfold FractionalCover.recombine_time_step; frame.
Qed.

Lemma keeps_fc_recombine_geographic_chunks chunks :
  keeps_frame (FractionalCover.recombine_geographic_chunks E cfg chunks).
Proof.
  unfold FractionalCover.recombine_geographic_chunks. frame.
  all: unfold FractionalCover.recombine_geographic_step; frame.
Qed.

Lemma keeps_tsm_recombine_geographic_chunks n chunks :
  keeps_frame (Tsm.recombine_geographic_chunks E cfg n chunks).
Proof.
  unfold Tsm.recombine_geographic_chunks. frame.
  all: unfold Tsm.recombine_geographic_step, Tsm.combine_frames; frame.
  all: unfold Tsm.collect_frame; frame.
Qed.

Lemma keeps_tsm_recombine_time_chunks chunks :
  keeps_frame (Tsm.recombine_time_chunks E cfg chunks).
Proof.
  unfold Tsm.recombine_time_chunks. frame.
  all: unfold Tsm.recombine_time_step; frame.
  all: unfold Tsm.generate_animation; frame.
  all: unfold Tsm.animate_frame; frame.
Qed.

Lemma keeps_process_band_math n chunk :
  keeps_frame (FractionalCover.process_band_math E n chunk).
Proof.
  unfold FractionalCover.process_band_math. frame.
  all: unfold FractionalCover.apply_band_math; frame.
Qed.

(** Whatever the data, the flag and the state of the scratch directory,
    and whether they finish, return early or fail, the worker stages of
    both pipelines (the processing tasks, the reducers and the band math)
    never touch the status, the message, the completion mark, the estimate
    of the work, the registered paths, the results or the schedule, and
    never lower the scene counter: only the validation and the output stage
    decide the fate of a task. *)
Theorem workers_leave_the_record_alone :
  (forall g t gc tc p,
     keeps_frame (FractionalCover.processing_task E cfg g t gc tc p)
     /\ keeps_frame (Tsm.processing_task E cfg g t gc tc p))
  /\ (forall n chunks,
        keeps_frame (FractionalCover.recombine_time_chunks E cfg n chunks)
        /\ keeps_frame (FractionalCover.recombine_geographic_chunks E cfg chunks)
        /\ keeps_frame (Tsm.recombine_geographic_chunks E cfg n chunks)
        /\ keeps_frame (Tsm.recombine_time_chunks E cfg chunks))
  /\ (forall n chunk,
        keeps_frame (FractionalCover.process_band_math E n chunk)).
Proof.
  split; [|split].
  - intros. split;
      [apply keeps_fc_processing_task|apply keeps_tsm_processing_task].
  - intros. split; [apply keeps_fc_recombine_time_chunks|].
    split; [apply keeps_fc_recombine_geographic_chunks|].
    split; [apply keeps_tsm_recombine_geographic_chunks
           |apply keeps_tsm_recombine_time_chunks].
  - intros. apply keeps_process_band_math.
Qed.

End Frame.

(** ** The measurement check of the validation *)

Section Measurements.
Context {num : Type} `{Numeric num}.
Variable E : Env num.
Variable cfg : TaskConfig.

(** A run whose parameters pass the checks on acquisitions and time range
    reports "Validated parameters." before it looks at the measurements.
    When the data access layer then rejects the measurements of the first
    product, both pipelines set the status [ERROR] with a message naming
    the satellite, mark the task complete and run to the end of the chain
    on [None]; with no product at all the validation fails with an
    [IndexError] and the task stays incomplete in the status [WAIT].
    Either way nothing is scheduled. *)
Theorem invalid_measurements_halt_the_run (w : World num) :
  cancel_flag E (clock w) = false ->
  cancel_flag E (S (clock w)) = false ->
  cancel_flag E (S (S (clock w))) = false ->
  list_combined_acquisition_dates E (parsed cfg) <> [] ->
  (compositor_is_iterative cfg = true
   \/ (Py.days (time_end cfg - time_start cfg) <= 367)%Z) ->
  (forall product rest,
     cfg_products cfg = product :: rest ->
     validate_measurements E product (cfg_measurements cfg) = false ->
     let halted (o : outcome num value value) :=
       exists w',
         o = Next VNone w'
         /\ status (task w') = "ERROR"
         /\ message (task w') = invalid_measurements_message cfg
         /\ complete (task w') = true
         /\ stopped_after_validation
              [EvStatus "ERROR" (invalid_measurements_message cfg)] w w' in
     halted (FractionalCover.run E cfg w) /\ halted (Tsm.run E cfg w))
  /\ (cfg_products cfg = [] ->
      let failed (o : outcome num value value) :=
        exists w',
          o = Raise "IndexError" w'
          /\ status (task w') = "WAIT"
          /\ message (task w') = "Validated parameters."
          /\ complete (task w') = complete (task w)
          /\ stopped_after_validation [] w w' in
      failed (FractionalCover.run E cfg w) /\ failed (Tsm.run E cfg w)).
Proof.
  intros Hc0 Hc1 Hc2 Hacq Htime.
  assert (Hlen : (length (list_combined_acquisition_dates E (parsed cfg)) <? 1)%nat
                 = false).
  { destruct (list_combined_acquisition_dates E (parsed cfg)); [done|done]. }
  assert (Hmed : (negb (compositor_is_iterative cfg)
                  && (367 <? Py.days (time_end cfg - time_start cfg))%Z)%bool
                 = false).
  { destruct Htime as [->|Hd]; [done|].
    apply Z.ltb_ge in Hd. rewrite Hd. apply andb_false_r. }
  split.
  - intros product rest Hprod Hvalid halted. subst halted. cbv beta.
    split.
    + unfold FractionalCover.run, FractionalCover.parse_parameters_from_task,
        FractionalCover.validate_parameters.
      unfold bind, call, cancellable, check_cancel_task, bind.
      rewrite Hc0. cbn -[parsed Nat.ltb Z.ltb Py.days].
      rewrite Hc1. cbn -[parsed Nat.ltb Z.ltb Py.days].
      fold (parsed cfg). rewrite Hlen, Hmed.
      cbn -[parsed Nat.ltb Z.ltb Py.days]. rewrite Hc2.
      cbn -[parsed Nat.ltb Z.ltb Py.days]. rewrite Hprod, Hvalid.
      cbn -[parsed Nat.ltb Z.ltb Py.days].
      eexists. split; [reflexivity|]. done.
    + unfold Tsm.run, Tsm.parse_parameters_from_task,
        Tsm.validate_parameters.
      unfold bind, call, cancellable, check_cancel_task, bind.
      rewrite Hc0. cbn -[parsed Nat.ltb Z.ltb Py.days].
      rewrite Hc1. cbn -[parsed Nat.ltb Z.ltb Py.days].
      fold (parsed cfg). rewrite Hlen.
      cbn -[parsed Nat.ltb Z.ltb Py.days]. rewrite Hc2.
      cbn -[parsed Nat.ltb Z.ltb Py.days]. rewrite Hprod, Hvalid.
      cbn -[parsed Nat.ltb Z.ltb Py.days].
      eexists. split; [reflexivity|]. done.
  - intros Hprod failed. subst failed. cbv beta.
    split.
    + unfold FractionalCover.run, FractionalCover.parse_parameters_from_task,
        FractionalCover.validate_parameters.
      unfold bind, call, cancellable, check_cancel_task, bind.
      rewrite Hc0. cbn -[parsed Nat.ltb Z.ltb Py.days].
      rewrite Hc1. cbn -[parsed Nat.ltb Z.ltb Py.days].
      fold (parsed cfg). rewrite Hlen, Hmed.
      cbn -[parsed Nat.ltb Z.ltb Py.days]. rewrite Hc2.
      cbn -[parsed Nat.ltb Z.ltb Py.days]. rewrite Hprod.
      cbn -[parsed Nat.ltb Z.ltb Py.days].
      eexists. split; [reflexivity|]. done.
    + unfold Tsm.run, Tsm.parse_parameters_from_task,
        Tsm.validate_parameters.
      unfold bind, call, cancellable, check_cancel_task, bind.
      rewrite Hc0. cbn -[parsed Nat.ltb Z.ltb Py.days].
      rewrite Hc1. cbn -[parsed Nat.ltb Z.ltb Py.days].
      fold (parsed cfg). rewrite Hlen.
      cbn -[parsed Nat.ltb Z.ltb Py.days]. rewrite Hc2.
      cbn -[parsed Nat.ltb Z.ltb Py.days]. rewrite Hprod.
      cbn -[parsed Nat.ltb Z.ltb Py.days].
      eexists. split; [reflexivity|]. done.
Qed.

End Measurements.

Lemma invalid_measurements_halt_the_run_witness :
  let E := rejecting_measurements (demo_env dates11 (fun _ => false)) in
  let cfg := demo_cfg None in
  let halted (o : outcome xnum value value) :=
    exists w',
      o = Next VNone w'
      /\ status (task w') = "ERROR"
      /\ message (task w') = invalid_measurements_message cfg
      /\ complete (task w') = true
      /\ stopped_after_validation
           [EvStatus "ERROR" (invalid_measurements_message cfg)]
           demo_world w' in
  halted (FractionalCover.run E cfg demo_world)
  /\ halted (Tsm.run E cfg demo_world).
Proof.
  intros E cfg.
  refine (proj1 (invalid_measurements_halt_the_run E cfg demo_world
                   eq_refl eq_refl eq_refl _ _) "ls8_ledaps" [] eq_refl eq_refl).
  - discriminate.
  - left. reflexivity.
Defined.

(** ** Execution of a canvas *)

Section Canvas.
Context {num : Type} `{Numeric num}.
Variable call_task : signature -> option value -> stage num value value.

Lemma exec_chain_nil input :
  exec call_task (Chain []) input = ret (default VNone input).
Proof. reflexivity. Qed.

Lemma exec_chain_cons m l input :
  exec call_task (Chain (m :: l)) input
  = (v <- exec call_task (maybe_unroll_group m) input ;;
     exec call_task (Chain l) (Some v)).
Proof. reflexivity. Qed.

(** A group whose members all come back with [None], having done nothing
    but check the flag, hands on a list of [None]s; when celery unrolls
    the group it hands on the bare [None]. *)
Lemma group_all_none (ms : list canvas) input (w : World num) :
  Forall (fun m => forall w, exists w',
            exec call_task m input w = Next VNone w' /\ only_checked w w') ms ->
  exists v w',
    exec call_task (maybe_unroll_group (Group ms)) input w = Next v w'
    /\ all_none v /\ only_checked w w'.
Proof.
  intros Hms.
  assert (Hgroup : forall w, exists vs w',
            exec call_task (Group ms) input w = Next (VList vs) w'
            /\ Forall (fun v => v = VNone) vs /\ only_checked w w').
  { clear w. induction Hms as [|m ms Hm _ IH]; intros w.
    - exists [], w. split; [done|]. split; [constructor|apply only_checked_refl].
    - destruct (Hm w) as (w1 & Hrun1 & Hw1).
      destruct (IH w1) as (vs & w2 & Hrun2 & Hvs & Hw2).
      exists (VNone :: vs), w2. split; [|split].
      + cbn [exec] in Hrun2 |- *.
        match type of Hrun2 with
        | bind (?f ms) _ w1 = _ => set (F := f) in *
        end.
        rewrite bind_bind, (bind_next _ _ _ _ _ Hrun1), bind_bind.
        unfold bind in Hrun2 |- *.
        destruct (F ms w1) as [a w'| |]; [|done..].
        cbn in Hrun2 |- *. by injection Hrun2 as -> ->.
      + by constructor.
      + eapply only_checked_trans; [exact Hw1|exact Hw2]. }
  destruct ms as [|m [|m' ms]].
  - destruct (Hgroup w) as (vs & w' & Hrun & Hvs & Hw'). by exists (VList vs), w'.
  - inversion Hms as [|? ? Hm _]; subst. destruct (Hm w) as (w' & Hrun & Hw').
    exists VNone, w'. done.
  - destruct (Hgroup w) as (vs & w' & Hrun & Hvs & Hw'). by exists (VList vs), w'.
Qed.

End Canvas.

(** ** A run without data *)

Section EmptyRun.
Context {num : Type} `{Numeric num}.
Variable E : Env num.
Variable cfg : TaskConfig.

Hypothesis no_data : no_data_anywhere E.

Lemma call_returns_none (m : stage num value value) (w : World num) :
  returns_none w (m w) ->
  exists w', call m w = Next VNone w' /\ only_checked w w'.
Proof. intros (w' & Hm & Hw'). exists w'. unfold call. by rewrite Hm. Qed.

Lemma Forall_map_enumerate {A B} (P : B -> Prop) (f : nat * A -> B)
  (l : list A) :
  (forall i x, In x l -> P (f (i, x))) ->
  Forall P (map f (Py.enumerate l)).
Proof.
  intros Hf. apply Forall_map, Forall_forall. intros [i x] Hin.
  apply Hf. unfold Py.enumerate in Hin.
  apply list_elem_of_In in Hin. by apply in_combine_r in Hin.
Qed.

Lemma reducer_call_none (m : stage num value value) (w : World num) :
  m w = Return VNone (checked E w) ->
  exists w', call m w = Next VNone w' /\ only_checked w w'.
Proof.
  intros Hm. exists (checked E w). unfold call. rewrite Hm.
  split; [done|apply only_checked_check].
Qed.

Lemma fc_geo_chain_empty p gi gc times n m (w : World num) :
  iterative cfg = true \/ Forall (fun tc => tc <> []) times ->
  exists w',
    exec (FractionalCover.call_task E cfg)
      (Chain
         [ Group
             (map (fun '(time_index, time_chunk) =>
                     Sig (ProcessingTask gi time_index gc time_chunk p))
                (Py.enumerate times));
           Sig (RecombineTimeChunks (Some n));
           Sig (ProcessBandMath m) ]) None w = Next VNone w'
    /\ only_checked w w'.
Proof.
  intros Hit. rewrite exec_chain_cons.
  edestruct (group_all_none (FractionalCover.call_task E cfg)) as
    (v & w1 & Hrun & Hv & Hw1); [|rewrite (bind_next _ _ _ _ _ Hrun)].
  { apply Forall_map_enumerate. intros i tc Hin w0.
    apply call_returns_none, fc_processing_no_data; [done|].
    destruct Hit as [Hit|Hit]; [by left|right].
    rewrite Forall_forall in Hit. apply Hit. by apply list_elem_of_In. }
  rewrite exec_chain_cons.
  destruct (reducer_call_none
              (FractionalCover.recombine_time_chunks E cfg (Some n) v) w1)
    as (w2 & Hrun2 & Hw2).
  { by apply reducers_all_none. }
  change (exec _ (maybe_unroll_group (Sig (RecombineTimeChunks (Some n))))
            (Some v))
    with (call (FractionalCover.recombine_time_chunks E cfg (Some n) v)).
  rewrite (bind_next _ _ _ _ _ Hrun2).
  rewrite exec_chain_cons.
  change (exec _ (maybe_unroll_group (Sig (ProcessBandMath m))) (Some VNone))
    with (call (FractionalCover.process_band_math E m VNone)).
  assert (Hbm : call (FractionalCover.process_band_math E m VNone) w2
                = Next VNone (checked E w2)).
  { unfold call, FractionalCover.process_band_math, bind.
    destruct (cancellable_cases E w2) as [[-> _]|[-> _]]; done. }
  rewrite (bind_next _ _ _ _ _ Hbm).
  exists (checked E w2). split; [done|].
  eapply only_checked_trans; [exact Hw1|].
  eapply only_checked_trans; [exact Hw2|apply only_checked_check].
Qed.

Lemma tsm_time_chain_empty p ti tc geos n (w : World num) :
  iterative cfg = true \/ tc <> [] ->
  exists w',
    exec (Tsm.call_task E cfg)
      (Chain
         [ Group
             (map (fun '(geo_index, geographic_chunk) =>
                     Sig (ProcessingTask geo_index ti geographic_chunk tc p))
                (Py.enumerate geos));
           Sig (RecombineGeographicChunks (Some n)) ]) None w = Next VNone w'
    /\ only_checked w w'.
Proof.
  intros Hit. rewrite exec_chain_cons.
  edestruct (group_all_none (Tsm.call_task E cfg)) as
    (v & w1 & Hrun & Hv & Hw1); [|rewrite (bind_next _ _ _ _ _ Hrun)].
  { apply Forall_map_enumerate. intros i gc Hin w0.
    by apply call_returns_none, tsm_processing_no_data. }
  rewrite exec_chain_cons.
  destruct (reducer_call_none
              (Tsm.recombine_geographic_chunks E cfg (Some n) v) w1)
    as (w2 & Hrun2 & Hw2).
  { by apply reducers_all_none. }
  change (exec _ (maybe_unroll_group (Sig (RecombineGeographicChunks (Some n))))
            (Some v))
    with (call (Tsm.recombine_geographic_chunks E cfg (Some n) v)).
  rewrite (bind_next _ _ _ _ _ Hrun2).
  exists w2. split; [done|].
  eapply only_checked_trans; [exact Hw1|exact Hw2].
Qed.

(** The tail of both pipelines on [None]: the output stage and the
    clean-up. *)
Lemma output_tail_none
  (call_task : signature -> option value -> stage num value value)
  (create_output_products : value -> stage num value value) (w : World num) :
  (forall d, call_task CreateOutputProducts (Some d)
             = call (create_output_products d)) ->
  call_task TaskCleanUp None = task_clean_up ->
  (forall w,
     create_output_products VNone w
     = if cancel_flag E (clock w)
       then Return VNone (checked E w) else Raise "TypeError" (checked E w)) ->
  exec call_task (Chain [Sig CreateOutputProducts; SigI TaskCleanUp])
    (Some VNone) w
  = if cancel_flag E (clock w)
    then task_clean_up (checked E w) else Raise "TypeError" (checked E w).
Proof.
  intros Hcop Htcu Hout. rewrite exec_chain_cons.
  change (exec call_task (maybe_unroll_group (Sig CreateOutputProducts))
            (Some VNone))
    with (call_task CreateOutputProducts (Some VNone)).
  rewrite Hcop. unfold bind at 1. unfold call at 1. rewrite Hout.
  destruct (cancel_flag E (clock w)); [|done].
  rewrite exec_chain_cons.
  change (exec call_task (maybe_unroll_group (SigI TaskCleanUp)) (Some VNone))
    with (call_task TaskCleanUp None).
  rewrite Htcu. reflexivity.
Qed.

(** When no load returns data, every processing task and every reducer of
    the scheduled pipeline comes back with [None] having done nothing but
    check the flag, and the output stage is handed [None]: unless the run
    is cancelled at that very check (the clean-up then runs), the pipeline
    dies there with a [TypeError]. The task record is as the start of the
    processing left it, never complete and never in error, and the scratch
    directory is not removed. Both pipelines, whatever the chunking. *)
Theorem run_without_data_dies_at_the_output_stage (p : Params)
  (geos : list GeoChunk) (times : list (list Z)) (n m : nat)
  (w : World num) :
  iterative cfg = true \/ Forall (fun tc => tc <> []) times ->
  (exists w',
     only_checked w w'
     /\ exec (FractionalCover.call_task E cfg)
          (FractionalCover.processing_pipeline p geos times n m) None w
        = if cancel_flag E (clock w')
          then task_clean_up (checked E w')
          else Raise "TypeError" (checked E w'))
  /\ (exists w',
        only_checked w w'
        /\ exec (Tsm.call_task E cfg)
             (Tsm.processing_pipeline p geos times n) None w
           = if cancel_flag E (clock w')
             then task_clean_up (checked E w')
             else Raise "TypeError" (checked E w')).
Proof.
  intros Hit. split.
  - unfold FractionalCover.processing_pipeline. rewrite exec_chain_cons.
    edestruct (group_all_none (FractionalCover.call_task E cfg)) as
      (v & w1 & Hrun & Hv & Hw1); [|rewrite (bind_next _ _ _ _ _ Hrun)].
    { apply Forall_map_enumerate. intros i gc Hin w0.
      by apply fc_geo_chain_empty. }
    rewrite exec_chain_cons.
    destruct (reducer_call_none
                (FractionalCover.recombine_geographic_chunks E cfg v) w1)
      as (w2 & Hrun2 & Hw2).
    { by apply (reducers_all_none E cfg None). }
    change (exec _ (maybe_unroll_group (Sig (RecombineGeographicChunks None)))
              (Some v))
      with (call (FractionalCover.recombine_geographic_chunks E cfg v)).
    rewrite (bind_next _ _ _ _ _ Hrun2).
    exists w2. split.
    { eapply only_checked_trans; [exact Hw1|exact Hw2]. }
    apply (output_tail_none (FractionalCover.call_task E cfg)
             (FractionalCover.create_output_products E cfg)); [intros; reflexivity|reflexivity|].
    intros w0. unfold FractionalCover.create_output_products.
    destruct (cancel_flag E (clock w0)) eqn:Hc.
    + by rewrite (bind_return _ _ _ _ _ (cancellable_true E w0 Hc)).
    + by rewrite (bind_next _ _ _ _ _ (cancellable_false E w0 Hc)).
  - unfold Tsm.processing_pipeline. rewrite exec_chain_cons.
    edestruct (group_all_none (Tsm.call_task E cfg)) as
      (v & w1 & Hrun & Hv & Hw1); [|rewrite (bind_next _ _ _ _ _ Hrun)].
    { apply Forall_map_enumerate. intros i tc Hin w0.
      apply tsm_time_chain_empty.
      destruct Hit as [Hit|Hit]; [by left|right].
      rewrite Forall_forall in Hit. apply Hit. by apply list_elem_of_In. }
    rewrite exec_chain_cons.
    destruct (reducer_call_none (Tsm.recombine_time_chunks E cfg v) w1)
      as (w2 & Hrun2 & Hw2).
    { by apply (reducers_all_none E cfg None). }
    change (exec _ (maybe_unroll_group (Sig (RecombineTimeChunks None)))
              (Some v))
      with (call (Tsm.recombine_time_chunks E cfg v)).
    rewrite (bind_next _ _ _ _ _ Hrun2).
    exists w2. split.
    { eapply only_checked_trans; [exact Hw1|exact Hw2]. }
    apply (output_tail_none (Tsm.call_task E cfg)
             (Tsm.create_output_products E cfg)); [intros; reflexivity|reflexivity|].
    intros w0. unfold Tsm.create_output_products.
    destruct (cancel_flag E (clock w0)) eqn:Hc.
    + by rewrite (bind_return _ _ _ _ _ (cancellable_true E w0 Hc)).
    + by rewrite (bind_next _ _ _ _ _ (cancellable_false E w0 Hc)).
Qed.

End EmptyRun.

Lemma run_without_data_dies_at_the_output_stage_witness :
  let E := demo_env [] (fun _ => false) in
  let cfg := demo_cfg (Some 2%nat) in
  let geos := [demo_geo; demo_geo] in
  let times := [[10; 20]; [30]]%Z in
  (exists w',
     only_checked demo_world w'
     /\ exec (FractionalCover.call_task E cfg)
          (FractionalCover.processing_pipeline (parsed cfg) geos times 2 3)
          None demo_world
        = Raise "TypeError" (checked E w'))
  /\ (exists w',
        only_checked demo_world w'
        /\ exec (Tsm.call_task E cfg)
             (Tsm.processing_pipeline (parsed cfg) geos times 2) None
             demo_world
           = Raise "TypeError" (checked E w')).
Proof.
  intros E cfg geos times.
  refine (run_without_data_dies_at_the_output_stage E cfg _
            (parsed cfg) geos times 2 3 demo_world _).
  - intros p. exact I.
  - left. reflexivity.
Defined.

(** ** A whole fractional cover run with data *)

Lemma insert_by_perm {A} (key : A -> string) (x : A) (l : list A) :
  Permutation (Py.insert_by key x l) (x :: l).
Proof.
  induction l as [|y l IH]; cbn [Py.insert_by]; [done|].
  destruct (Py.str_lt (key y) (key x)); [|done].
  rewrite IH. apply perm_swap.
Qed.

Lemma sorted_perm {A} (key : A -> string) (l : list A) :
  Permutation (Py.sorted key l) l.
Proof.
  unfold Py.sorted. induction l as [|x l IH]; cbn [fold_right]; [done|].
  rewrite insert_by_perm. by constructor.
Qed.

Lemma filter_not_none_chunks (cs : list ChunkOut) :
  List.filter not_none (map VChunk cs) = map VChunk cs.
Proof. induction cs as [|c cs IH]; [done|]. cbn. by rewrite IH. Qed.

Section FullRun.
Context {num : Type} `{Numeric num}.
Variable E : Env num.
Variable cfg : TaskConfig.
Local Abbreviation Dataset := (gmap string (list num)).

Hypothesis never_cancelled : forall n, cancel_flag E n = false.
Hypothesis water : water_classified E.
Hypothesis is_iterative : iterative cfg = true.

Lemma advanced_refl (w : World num) : advanced 0 w w.
Proof. unfold advanced. rewrite Nat.add_0_r. done. Qed.

Lemma advanced_trans n m (w1 w2 w3 : World num) :
  advanced n w1 w2 -> advanced m w2 w3 -> advanced (n + m) w1 w3.
Proof.
  intros (?&?&?&?&?&Hn&?&?&?&Hs1) (?&?&?&?&?&Hm&?&?&?&Hs2).
  unfold advanced. rewrite Hm, Hn.
  repeat split; try congruence; [lia|]. intros path Hp. by apply Hs2, Hs1.
Qed.

Lemma progressed_advanced n (w w' : World num) :
  progressed n w w' -> advanced n w w'.
Proof.
  intros (?&?&?&?&?&?&?&Hs&?&?). unfold advanced.
  repeat split; try done. intros path. by rewrite Hs.
Qed.

Lemma advanced_written path (d : Dataset) (w : World num) :
  advanced 0 w (written path d w).
Proof.
  unfold advanced, written. cbn. rewrite Nat.add_0_r.
  repeat split; try done. intros p Hp.
  destruct (decide (path = p)) as [->|Hne].
  - rewrite lookup_insert_eq. by eexists.
  - by rewrite lookup_insert_ne.
Qed.

Lemma present_written path (d : Dataset) md ids (w : World num) :
  present (written path d w) (path, md, ids).
Proof. unfold present, written. cbn. rewrite lookup_insert_eq. by eexists. Qed.

Lemma present_advanced n (w w' : World num) c :
  advanced n w w' -> present w c -> present w' c.
Proof. intros (_&_&_&_&_&_&_&_&_&Hs) Hc. by apply Hs. Qed.

Lemma advanced_temp n (w w' : World num) :
  advanced n w w' -> temp_exists w = true -> temp_exists w' = true.
Proof. intros (_&_&_&_&_&_&Ht&_) Hw. by rewrite Ht. Qed.

Lemma present_files (w : World num) (cs : list ChunkOut) :
  Forall (present w) cs ->
  exists ds, Forall2 (fun c d => scratch w !! co_path c = Some d) cs ds.
Proof.
  induction 1 as [|c cs [d Hd] _ [ds IH]]; [by exists []|].
  exists (d :: ds). by constructor.
Qed.

Lemma loads_everywhere p gc (tc : list Z) :
  Forall (has_data E p gc) tc ->
  length (omap (loaded E (update_geo p gc))
            (map (fun t => get_datetime_range_containing t t) tc))
  = length tc.
Proof.
  induction 1 as [|t tc (d & Hd & Ht) _ IH]; [done|].
  cbn [map omap list_omap].
  unfold loaded at 1. rewrite Hd, Ht. cbn [length]. by rewrite IH.
Qed.

(** A processing task over a non-empty time chunk writes its chunk and
    counts every acquisition. *)
Lemma fc_processing_full g t gc tc p (w : World num) :
  temp_exists w = true ->
  tc <> [] ->
  Forall (has_data E p gc) tc ->
  exists c w',
    call (FractionalCover.processing_task E cfg g t gc tc p) w
    = Next (VChunk c) w'
    /\ advanced (length tc) w w' /\ present w' c.
Proof.
  intros Htemp Htc Hdata.
  set (p0 := update_geo p gc).
  set (loads := omap (loaded E p0) (time_ranges cfg tc)).
  assert (Hlen : length loads = length tc).
  { unfold loads, time_ranges. rewrite is_iterative.
    by apply loads_everywhere. }
  destruct (fc_load_loop E never_cancelled p0 (time_ranges cfg tc) p0 None ∅
              (checked E w)) as (p' & w1 & Hw1 & Hloop); [done|].
  fold loads in Hw1, Hloop.
  destruct (fc_composite E loads None) as [d|] eqn:Hcomp.
  2:{ apply fc_composite_none in Hcomp. rewrite Hcomp in Hlen.
      destruct tc; [done|discriminate]. }
  exists (FractionalCover.chunk_path cfg g t, fc_metadata E p0 loads ∅,
          {| geo_chunk_id := g; time_chunk_id := t |}),
         (written (FractionalCover.chunk_path cfg g t) d w1).
  split; [|split].
  - unfold call, FractionalCover.processing_task.
    rewrite (bind_next _ _ _ _ _ (cancellable_false E w (never_cancelled _))).
    rewrite (bind_next _ _ _ true (checked E w)
               (f_equal (fun b => Next b (checked E w)) Htemp
                : temp_path_exists (checked E w) = Next true (checked E w))).
    cbn [negb].
    rewrite (bind_next _ _ _ _ _
               (load_ranges_time_ranges cfg tc (checked E w)
                  (or_introl is_iterative))).
    fold p0. rewrite (bind_next _ _ _ _ _ Hloop).
    unfold bind, to_netcdf.
    destruct Hw1 as (_&_&_&_&_&_&Ht1&_). rewrite Ht1.
    cbn [checked log tick temp_exists]. rewrite Htemp. reflexivity.
  - rewrite <- Hlen.
    replace (length loads) with (0 + length loads + 0)%nat by lia.
    eapply advanced_trans; [|apply advanced_written].
    eapply advanced_trans; apply progressed_advanced;
      [apply progressed_checked|exact Hw1].
  - apply present_written.
Qed.

(** The time reduction of chunks that are all in place. *)
Lemma fc_recombine_time_full n (v : value) (cs : list ChunkOut)
  (w : World num) :
  temp_exists w = true ->
  List.filter not_none (as_chunk_list v) = map VChunk cs ->
  cs <> [] ->
  Forall (present w) cs ->
  exists c w',
    call (FractionalCover.recombine_time_chunks E cfg (Some n) v) w
    = Next (VChunk c) w'
    /\ advanced (n * length cs) w w' /\ present w' c.
Proof.
  intros Htemp Hv Hcs Hpresent.
  pose proof (sorted_perm co_path cs) as Hperm.
  destruct (Py.sorted co_path cs) as [|first rest] eqn:Hsorted.
  { apply Permutation_nil in Hperm. by subst. }
  assert (Hlen : length cs = S (length rest)).
  { by rewrite <- (Permutation_length Hperm). }
  rewrite <- Hperm in Hpresent.
  destruct (present_files w _ Hpresent) as (ds & Hfiles).
  inversion Hfiles as [|? d0 ? ds' Hd0 Hrest]; subst.
  destruct (add_scenes_progressed (R := value) n (checked E w))
    as (w0 & Hadd & Hw0).
  destruct (fc_time_loop E never_cancelled n rest ds' (co_meta first ∪ ∅) d0 w0)
    as (w1 & Hw1 & Hloop).
  { destruct Hw0 as (_&_&_&_&_&_&_&Hs&_). rewrite Hs. exact Hrest. }
  eexists (_, _, _), (written _ (fc_fold E d0 ds') w1).
  split; [|split].
  - unfold call, FractionalCover.recombine_time_chunks.
    rewrite (bind_next _ _ _ _ _ (cancellable_false E w (never_cancelled _))).
    rewrite Hv.
    assert (Hl : (length (map VChunk cs) =? 0)%nat = false).
    { rewrite length_map, Hlen. done. }
    rewrite Hl.
    rewrite (bind_next _ _ _ _ _ (as_chunks_chunks cs (checked E w))).
    rewrite Hsorted. cbn [for_each].
    rewrite bind_bind.
    unfold FractionalCover.recombine_time_step at 1. rewrite bind_bind.
    rewrite (bind_next _ _ _ _ _
               (open_dataset_some (co_path first) d0 (checked E w) Hd0)).
    rewrite bind_bind. cbn [add_scenes_opt].
    rewrite (bind_next _ _ _ _ _ Hadd).
    rewrite (bind_next _ _ _ _ w0 eq_refl).
    rewrite (bind_next _ _ _ _ _ Hloop).
    unfold bind, to_netcdf.
    destruct Hw1 as (_&_&_&_&_&_&Ht1&_). destruct Hw0 as (_&_&_&_&_&_&Ht0&_).
    rewrite Ht1, Ht0. cbn [checked log tick temp_exists].
    rewrite Htemp. reflexivity.
  - rewrite Hlen.
    replace (n * S (length rest))%nat
      with (0 + n + n * length rest + 0)%nat by lia.
    eapply advanced_trans; [|apply advanced_written].
    eapply advanced_trans; [|apply progressed_advanced, Hw1].
    eapply advanced_trans; apply progressed_advanced;
      [apply progressed_checked|exact Hw0].
  - apply present_written.
Qed.

(** The band math of a chunk that is in place. *)
Lemma fc_band_math_full m c (w : World num) :
  temp_exists w = true ->
  present w c ->
  exists w',
    call (FractionalCover.process_band_math E m (VChunk c)) w
    = Next (VChunk c) w'
    /\ advanced m w w' /\ present w' c.
Proof.
  intros Htemp [ds Hfile].
  destruct (water ds (clean_mask_func E ds)) as [wt Hwater].
  eexists. split; [|split].
  - unfold call, FractionalCover.process_band_math.
    rewrite (bind_next _ _ _ _ _ (cancellable_false E w (never_cancelled _))).
    rewrite (bind_next _ _ _ _ _ (open_dataset_some _ _ (checked E w) Hfile)).
    unfold FractionalCover.apply_band_math. rewrite bind_bind.
    rewrite (bind_next _ _ _ _ _ (get_var_some _ _ _ (checked E w) Hwater)).
    rewrite (bind_next _ _ _ _ (checked E w) eq_refl).
    unfold os_remove at 1. unfold bind at 1.
    change (scratch (checked E w)) with (scratch w). rewrite Hfile.
    unfold to_netcdf at 1. unfold bind at 1.
    cbn [temp_exists log with_scratch checked tick]. rewrite Htemp.
    reflexivity.
  - unfold advanced. cbn. repeat split; try done.
    intros path Hp. destruct (decide (co_path c = path)) as [->|Hne].
    + rewrite lookup_insert_eq. by eexists.
    + by rewrite lookup_insert_ne, lookup_delete_ne.
  - unfold present. cbn. rewrite lookup_insert_eq. by eexists.
Qed.

(** The geographic reduction of chunks that are all in place. *)
Lemma fc_recombine_geographic_full (v : value) (cs : list ChunkOut)
  (w : World num) :
  temp_exists w = true ->
  List.filter not_none (as_chunk_list v) = map VChunk cs ->
  cs <> [] ->
  Forall (present w) cs ->
  exists c w',
    call (FractionalCover.recombine_geographic_chunks E cfg v) w
    = Next (VChunk c) w'
    /\ advanced 0 w w' /\ present w' c.
Proof.
  intros Htemp Hv Hcs Hpresent.
  destruct cs as [|first rest]; [done|].
  destruct (present_files w _ Hpresent) as (ds & Hfiles).
  eexists (_, _, _), (written _ (combine_geographic_chunks E ds) (checked E w)).
  split; [|split].
  - unfold call, FractionalCover.recombine_geographic_chunks.
    rewrite (bind_next _ _ _ _ _ (cancellable_false E w (never_cancelled _))).
    rewrite Hv. cbn [map length Nat.eqb].
    rewrite (bind_next _ _ _ _ _
               (as_chunks_chunks (first :: rest) (checked E w))).
    rewrite (bind_next _ _ _ _ _
               (fc_geo_loop E (first :: rest) ds ∅ [] (checked E w) Hfiles)).
    cbn [app]. unfold bind, to_netcdf. cbn [checked log tick temp_exists].
    rewrite Htemp. reflexivity.
  - change 0%nat with (0 + 0)%nat.
    eapply advanced_trans; [|apply advanced_written].
    apply progressed_advanced, progressed_checked.
  - apply present_written.
Qed.

Lemma output_finish_total (b : bool) (p msg : string) (w5 w' : World num) :
  (((if b then set_path "plot_path" p ;; create_2d_plot p else ret tt) ;;
    set_complete ;; update_status "OK" msg ;; ret VTrue)
   : stage num value value) w5 = Next VTrue w' ->
  total_scenes (task w') = total_scenes (task w5).
Proof. destruct b; intros [= <-]; reflexivity. Qed.

(** The output stage on a chunk that is in place, followed by the
    clean-up. *)
Lemma fc_output_tail_full c (w : World num) :
  present w c ->
  exists w',
    exec (FractionalCover.call_task E cfg)
      (Chain [Sig CreateOutputProducts; SigI TaskCleanUp]) (Some (VChunk c)) w
    = Next VNone w'
    /\ status (task w') = "OK" /\ message (task w') = products_message
    /\ complete (task w') = true
    /\ scenes_processed (task w') = scenes_processed (task w)
    /\ total_scenes (task w') = total_scenes (task w)
    /\ temp_exists w' = false /\ scratch w' = ∅
    /\ Forall (fun path => is_Some (results w' !! path)) (fc_product_paths cfg).
Proof.
  intros [ds Hfile].
  rewrite exec_chain_cons.
  change (exec _ (maybe_unroll_group (Sig CreateOutputProducts))
            (Some (VChunk c)))
    with (call (FractionalCover.create_output_products E cfg (VChunk c))).
  assert (Hout : exists w1,
    call (FractionalCover.create_output_products E cfg (VChunk c)) w
    = Next VTrue w1
    /\ status (task w1) = "OK" /\ message (task w1) = products_message
    /\ complete (task w1) = true
    /\ scenes_processed (task w1) = scenes_processed (task w)
    /\ total_scenes (task w1) = total_scenes (task w)
    /\ Forall (fun path => is_Some (results w1 !! path)) (fc_product_paths cfg)).
  { unfold call, FractionalCover.create_output_products.
    rewrite (bind_next _ _ _ _ _ (cancellable_false E w (never_cancelled _))).
    rewrite (bind_next _ _ _ _ _ (open_dataset_some _ _ (checked E w) Hfile)).
    do 4 (erewrite bind_next; [|reflexivity]).
    do 4 (erewrite bind_next; [|reflexivity]).
    match goal with
    | |- context [bind _ _ ?w0] => set (w5 := w0)
    end.
    destruct (output_finish (1 <? length (acquisition_list E (co_meta c)))%nat
                (Py.path_join (result_dir cfg) "plot_path.png")
                "All products have been generated. Your result will be loaded on the map."
                w5)
      as (w1 & Hrun & Hres & _ & _ & Hst & Hmsg & Hcompl & Hscn & _).
    exists w1. rewrite Hrun.
    split; [done|]. split; [done|]. split; [exact Hmsg|].
    split; [done|]. split; [by rewrite Hscn|].
    split; [by rewrite (output_finish_total _ _ _ _ _ Hrun)|].
    rewrite Hres. unfold fc_product_paths. cbn [map].
    repeat apply Forall_cons_2; [..|apply Forall_nil_2];
      subst w5; cbn [results with_results log with_task tick checked];
      apply lookup_insert_is_Some';
      repeat first [by left | right; apply lookup_insert_is_Some'].
  }
  destruct Hout as (w1 & Hrun & Hst & Hmsg & Hcompl & Hscn & Htot & Hres).
  rewrite (bind_next _ _ _ _ _ Hrun).
  rewrite exec_chain_cons.
  change (exec _ (maybe_unroll_group (SigI TaskCleanUp)) (Some VTrue))
    with (task_clean_up (num := num)).
  eexists. split; [reflexivity|]. done.
Qed.

Lemma Forall2_map_enumerate {A B C} (P : B -> C -> Prop) (f : nat * A -> B)
  (g : A -> C) (l : list A) :
  (forall i x, In x l -> P (f (i, x)) (g x)) ->
  Forall2 P (map f (Py.enumerate l)) (map g l).
Proof.
  unfold Py.enumerate. generalize 0%nat.
  induction l as [|x l IH]; intros k Hf; cbn [length seq combine map];
    [constructor|].
  constructor; [apply Hf; by left|].
  apply IH. intros i y Hy. apply Hf. by right.
Qed.

Lemma length_map_enumerate {A B} (f : nat * A -> B) (l : list A) :
  length (map f (Py.enumerate l)) = length l.
Proof.
  unfold Py.enumerate. rewrite length_map, length_combine, length_seq. lia.
Qed.

Lemma list_sum_const {A} (k : nat) (l : list A) :
  list_sum (map (fun _ => k) l) = (length l * k)%nat.
Proof.
  induction l as [|x l IH]; [done|].
  change (list_sum (map (fun _ => k) (x :: l)))
    with (k + list_sum (map (fun _ : A => k) l))%nat.
  rewrite IH. cbn [length]. lia.
Qed.

(** A group whose members each write a chunk hands on all these chunks,
    still in place; when celery unrolls the group it hands on the bare
    chunk. *)
Lemma group_chunks
  (call_task : signature -> option value -> stage num value value)
  (ms : list canvas) (ks : list nat) input (w : World num) :
  temp_exists w = true ->
  Forall2 (fun m k => forall w, temp_exists w = true ->
             exists c w',
               exec call_task m input w = Next (VChunk c) w'
               /\ advanced k w w' /\ present w' c) ms ks ->
  exists v cs w',
    exec call_task (maybe_unroll_group (Group ms)) input w = Next v w'
    /\ List.filter not_none (as_chunk_list v) = map VChunk cs
    /\ length cs = length ms
    /\ Forall (present w') cs
    /\ advanced (list_sum ks) w w'.
Proof.
  intros Htemp Hms.
  assert (Hgroup : forall w, temp_exists w = true -> exists cs w',
            exec call_task (Group ms) input w = Next (VList (map VChunk cs)) w'
            /\ length cs = length ms
            /\ Forall (present w') cs
            /\ advanced (list_sum ks) w w').
  { clear w Htemp. induction Hms as [|m k ms ks Hm _ IH]; intros w Htemp.
    - exists [], w. split; [done|]. split; [done|].
      split; [constructor|apply advanced_refl].
    - destruct (Hm w Htemp) as (c & w1 & Hrun1 & Hw1 & Hc).
      destruct (IH w1 (advanced_temp _ _ _ Hw1 Htemp))
        as (cs & w2 & Hrun2 & Hlen & Hcs & Hw2).
      exists (c :: cs), w2. split; [|split; [|split]].
      + cbn [exec] in Hrun2 |- *.
        match type of Hrun2 with
        | bind (?f ms) _ w1 = _ => set (F := f) in *
        end.
        rewrite bind_bind, (bind_next _ _ _ _ _ Hrun1), bind_bind.
        unfold bind in Hrun2 |- *.
        destruct (F ms w1) as [a w'| |]; [|done..].
        cbn in Hrun2 |- *. by injection Hrun2 as -> ->.
      + cbn [length]. by rewrite Hlen.
      + constructor; [|done]. by eapply present_advanced.
      + cbn [list_sum fold_right]. by eapply advanced_trans. }
  destruct ms as [|m [|m' ms]].
  - destruct (Hgroup w Htemp) as (cs & w' & Hrun & Hlen & Hcs & Hw').
    exists (VList (map VChunk cs)), cs, w'.
    split; [done|]. split; [apply filter_not_none_chunks|done].
  - inversion Hms as [|? k ? ks' Hm Hnil]; subst.
    inversion Hnil; subst.
    destruct (Hm w Htemp) as (c & w' & Hrun & Hw' & Hc).
    exists (VChunk c), [c], w'. split; [done|]. split; [done|].
    split; [done|]. split; [by constructor|].
    cbn. by rewrite Nat.add_0_r.
  - destruct (Hgroup w Htemp) as (cs & w' & Hrun & Hlen & Hcs & Hw').
    exists (VList (map VChunk cs)), cs, w'.
    split; [done|]. split; [apply filter_not_none_chunks|done].
Qed.

(** The chain of one geographic chunk: its processing tasks, the time
    reduction and the band math. *)
Lemma fc_geo_chain_full p gi gc times n m (w : World num) :
  temp_exists w = true ->
  times <> [] ->
  Forall (fun tc => tc <> []) times ->
  Forall (Forall (has_data E p gc)) times ->
  exists c w',
    exec (FractionalCover.call_task E cfg)
      (Chain
         [ Group
             (map (fun '(time_index, time_chunk) =>
                     Sig (ProcessingTask gi time_index gc time_chunk p))
                (Py.enumerate times));
           Sig (RecombineTimeChunks (Some n));
           Sig (ProcessBandMath m) ]) None w = Next (VChunk c) w'
    /\ advanced (sum_len times + n * length times + m) w w'
    /\ present w' c.
Proof.
  intros Htemp Htimes Hne Hdata. rewrite exec_chain_cons.
  edestruct (group_chunks (FractionalCover.call_task E cfg)) as
    (v & cs & w1 & Hrun & Hv & Hlen & Hcs & Hw1);
    [exact Htemp| |rewrite (bind_next _ _ _ _ _ Hrun)].
  { apply (Forall2_map_enumerate _ _ (length (A := Z))).
    intros i tc Hin w0 Hw0. apply list_elem_of_In in Hin.
    rewrite Forall_forall in Hne. rewrite Forall_forall in Hdata.
    apply fc_processing_full; [done|by apply Hne|by apply Hdata]. }
  rewrite length_map_enumerate in Hlen.
  pose proof (advanced_temp _ _ _ Hw1 Htemp) as Htemp1.
  rewrite exec_chain_cons.
  change (exec _ (maybe_unroll_group (Sig (RecombineTimeChunks (Some n))))
            (Some v))
    with (call (FractionalCover.recombine_time_chunks E cfg (Some n) v)).
  destruct (fc_recombine_time_full n v cs w1 Htemp1 Hv)
    as (c & w2 & Hrun2 & Hw2 & Hc2); [|done|].
  { destruct cs; [|done]. destruct times; [done|discriminate]. }
  rewrite (bind_next _ _ _ _ _ Hrun2).
  pose proof (advanced_temp _ _ _ Hw2 Htemp1) as Htemp2.
  rewrite exec_chain_cons.
  change (exec _ (maybe_unroll_group (Sig (ProcessBandMath m)))
            (Some (VChunk c)))
    with (call (FractionalCover.process_band_math E m (VChunk c))).
  destruct (fc_band_math_full m c w2 Htemp2 Hc2) as (w3 & Hrun3 & Hw3 & Hc3).
  rewrite (bind_next _ _ _ _ _ Hrun3).
  exists c, w3. split; [done|]. split; [|done].
  rewrite Hlen in Hw2.
  eapply advanced_trans; [|exact Hw3].
  eapply advanced_trans; [exact Hw1|exact Hw2].
Qed.

(** The whole pipeline. *)
Lemma fc_pipeline_full (p : Params) (geos : list GeoChunk)
  (times : list (list Z)) (n m : nat) (w : World num) :
  temp_exists w = true ->
  geos <> [] ->
  times <> [] ->
  Forall (fun tc => tc <> []) times ->
  data_for E p geos times ->
  exists w',
    exec (FractionalCover.call_task E cfg)
      (FractionalCover.processing_pipeline p geos times n m) None w
    = Next VNone w'
    /\ status (task w') = "OK" /\ message (task w') = products_message
    /\ complete (task w') = true
    /\ scenes_processed (task w')
       = (scenes_processed (task w)
          + length geos * (sum_len times + n * length times + 2 * m))%nat
    /\ total_scenes (task w') = total_scenes (task w)
    /\ temp_exists w' = false /\ scratch w' = ∅
    /\ Forall (fun path => is_Some (results w' !! path)) (fc_product_paths cfg).
Proof.
  intros Htemp Hgeos Htimes Hne Hdata.
  unfold FractionalCover.processing_pipeline. rewrite exec_chain_cons.
  edestruct (group_chunks (FractionalCover.call_task E cfg)) as
    (v & cs & w1 & Hrun & Hv & Hlen & Hcs & Hw1);
    [exact Htemp| |rewrite (bind_next _ _ _ _ _ Hrun)].
  { apply (Forall2_map_enumerate _ _
             (fun _ => sum_len times + n * length times + 2 * m)%nat).
    intros i gc Hin w0 Hw0. apply list_elem_of_In in Hin.
    unfold data_for in Hdata. rewrite Forall_forall in Hdata.
    apply fc_geo_chain_full; [done|done|done|by apply Hdata]. }
  rewrite length_map_enumerate in Hlen.
  rewrite list_sum_const in Hw1.
  pose proof (advanced_temp _ _ _ Hw1 Htemp) as Htemp1.
  rewrite exec_chain_cons.
  change (exec _ (maybe_unroll_group (Sig (RecombineGeographicChunks None)))
            (Some v))
    with (call (FractionalCover.recombine_geographic_chunks E cfg v)).
  destruct (fc_recombine_geographic_full v cs w1 Htemp1 Hv)
    as (c & w2 & Hrun2 & Hw2 & Hc2); [|done|].
  { destruct cs; [|done]. destruct geos; [done|discriminate]. }
  rewrite (bind_next _ _ _ _ _ Hrun2).
  destruct (fc_output_tail_full c w2 Hc2)
    as (w' & Hrun3 & Hst & Hmsg & Hcompl & Hscn & Htot & Hcl & Hscr & Hres).
  exists w'. split; [exact Hrun3|].
  split; [done|]. split; [done|]. split; [done|].
  destruct Hw1 as (_&_&_&Ht1&_&Hn1&_). destruct Hw2 as (_&_&_&Ht2&_&Hn2&_).
  split; [rewrite Hscn, Hn2, Hn1; lia|].
  split; [by rewrite Htot, Ht2, Ht1|]. done.
Qed.

(** With data in every load and no cancellation, the scheduled pipeline of
    an iterative fractional cover task runs to its end: every processing
    task writes its chunk, every reducer finds the chunks it is handed, the
    output stage marks the task complete with status OK and the clean-up
    removes the scratch directory. The counter has then advanced by one
    scene per acquisition and geographic chunk, by [num_scn_per_chk] per
    processing task, and by the band math weight per geographic chunk. *)
Theorem fc_pipeline_with_data_completes (p : Params) (geos : list GeoChunk)
  (times : list (list Z)) (n m : nat) (w : World num) :
  temp_exists w = true ->
  geos <> [] ->
  times <> [] ->
  Forall (fun tc => tc <> []) times ->
  data_for E p geos times ->
  exists w',
    exec (FractionalCover.call_task E cfg)
      (FractionalCover.processing_pipeline p geos times n m) None w
    = Next VNone w'
    /\ status (task w') = "OK" /\ message (task w') = products_message
    /\ complete (task w') = true
    /\ scenes_processed (task w')
       = (scenes_processed (task w)
          + length geos * (sum_len times + n * length times + 2 * m))%nat
    /\ total_scenes (task w') = total_scenes (task w)
    /\ temp_exists w' = false /\ scratch w' = ∅
    /\ Forall (fun path => is_Some (results w' !! path)) (fc_product_paths cfg).
Proof. apply fc_pipeline_full. Qed.

(** The four stages of [run] on a task that passes the validation. *)
Lemma fc_run_schedules (product : string) (rest : list string)
  (w : World num) :
  let p := parsed cfg in
  let dates := list_combined_acquisition_dates E p in
  let geos :=
    create_geographic_chunks E (longitude p) (latitude p)
      (chunk_size_geographic cfg) in
  let times :=
    create_time_chunks E dates (reverse_time cfg) (chunk_size_time cfg) in
  dates <> [] ->
  (compositor_is_iterative cfg = true
   \/ (Py.days (time_end cfg - time_start cfg) <= 367)%Z) ->
  cfg_products cfg = product :: rest ->
  validate_measurements E product (cfg_measurements cfg) = true ->
  geos <> [] ->
  times <> [] ->
  exists n w',
    Py.round_div (length geos * sum_len times) (length times * length geos)
    = Some n
    /\ FractionalCover.run E cfg w = Next VTrue w'
    /\ scheduled w'
       = Some (FractionalCover.processing_pipeline p geos times n
                 (sum_len times))
    /\ total_scenes (task w') = (4 * (length geos * sum_len times))%nat
    /\ scenes_processed (task w') = 0%nat
    /\ temp_exists w' = temp_exists w.
Proof.
  intros p dates geos times Hacq Htime Hprod Hvalid Hgeos Htimes.
  assert (Hlen : (length (list_combined_acquisition_dates E p) <? 1)%nat
                 = false).
  { fold dates. destruct dates; [done|done]. }
  assert (Hmed : (negb (compositor_is_iterative cfg)
                  && (367 <? Py.days (time_end cfg - time_start cfg))%Z)%bool
                 = false).
  { destruct Htime as [->|Hd]; [done|].
    apply Z.ltb_ge in Hd. rewrite Hd. apply andb_false_r. }
  destruct (Py.round_div (length geos * sum_len times)
              (length times * length geos)) as [n|] eqn:Hn.
  2:{ unfold Py.round_div in Hn.
      destruct (Nat.eqb_spec (length times * length geos) 0) as [Hz|]; [|done].
      destruct geos, times; try done; cbn in Hz; lia. }
  assert (Hgeo : Py.round_div (length geos * sum_len times) (length geos)
                 = Some (sum_len times)).
  { rewrite (Nat.mul_comm (length geos)). apply round_div_mul.
    by destruct geos. }
  exists n.
  assert (Hparse : exists w1,
    call (FractionalCover.parse_parameters_from_task E cfg) w
    = Next (VParams p) w1 /\ temp_exists w1 = temp_exists w).
  { unfold call, FractionalCover.parse_parameters_from_task.
    rewrite (bind_next _ _ _ _ _ (cancellable_false E w (never_cancelled _))).
    eexists. split; reflexivity. }
  destruct Hparse as (w1 & Hparse & Ht1).
  assert (Hval : exists w2,
    call (FractionalCover.validate_parameters E cfg (VParams p)) w1
    = Next (VParams p) w2 /\ temp_exists w2 = temp_exists w1).
  { unfold call, FractionalCover.validate_parameters.
    rewrite (bind_next _ _ _ _ _ (cancellable_false E w1 (never_cancelled _))).
    rewrite (bind_next _ _ _ p (checked E w1)
               (eq_refl : as_params (VParams p) (checked E w1) = Next p _)).
    rewrite Hlen, Hmed.
    rewrite (bind_next _ _ _ _ _
               (cancellable_false E (checked E w1) (never_cancelled _))).
    erewrite bind_next; [|reflexivity].
    change (products p) with (cfg_products cfg). rewrite Hprod.
    change (measurements p) with (cfg_measurements cfg). rewrite Hvalid.
    eexists. split; reflexivity. }
  destruct Hval as (w2 & Hval & Ht2).
  assert (Hchunk : exists w3,
    call (FractionalCover.perform_task_chunking E cfg (VParams p)) w2
    = Next (VDetails p geos times) w3 /\ temp_exists w3 = temp_exists w2).
  { unfold call, FractionalCover.perform_task_chunking.
    rewrite (bind_next _ _ _ _ _ (cancellable_false E w2 (never_cancelled _))).
    rewrite (bind_next _ _ _ p (checked E w2)
               (eq_refl : as_params (VParams p) (checked E w2) = Next p _)).
    rewrite (bind_next _ _ _ _ _
               (cancellable_false E (checked E w2) (never_cancelled _))).
    eexists. split; reflexivity. }
  destruct Hchunk as (w3 & Hchunk & Ht3).
  assert (Hstart : exists w4,
    call (FractionalCover.start_chunk_processing E (VDetails p geos times)) w3
    = Next VTrue w4
    /\ scheduled w4
       = Some (FractionalCover.processing_pipeline p geos times n
                 (sum_len times))
    /\ total_scenes (task w4) = (4 * (length geos * sum_len times))%nat
    /\ scenes_processed (task w4) = 0%nat
    /\ temp_exists w4 = temp_exists w3).
  { unfold call, FractionalCover.start_chunk_processing.
    rewrite (bind_next _ _ _ _ _ (round_div_some _ _ _ w3 Hn)).
    rewrite (bind_next _ _ _ _ _ (round_div_some _ _ _ w3 Hgeo)).
    erewrite bind_next; [|reflexivity].
    match goal with
    | |- context [bind (cancellable E) _ ?w0] =>
        rewrite (bind_next _ _ _ _ _
                   (cancellable_false E w0 (never_cancelled _)))
    end.
    eexists. split; [reflexivity|]. done. }
  destruct Hstart as (w4 & Hstart & Hsched & Htot & Hscn & Ht4).
  exists w4. split; [done|]. split.
  { unfold FractionalCover.run.
    rewrite (bind_next _ _ _ _ _ Hparse), (bind_next _ _ _ _ _ Hval).
    by rewrite (bind_next _ _ _ _ _ Hchunk). }
  split; [done|]. split; [done|]. split; [done|]. congruence.
Qed.

(** A whole run of an iterative fractional cover task whose loads all have
    data, without cancellation: the four stages of [run] schedule the
    pipeline, the pipeline completes the task with status OK and removes
    the scratch directory. The estimate of the work is four times the
    number of scenes, and the counter ends at three times that number plus
    [num_scn_per_chk] per processing task: the task ends at exactly 100
    percent if and only if the rounded mean length of the time chunks,
    times their number, is the number of acquisitions. *)
Theorem fc_run_with_data_accounts (product : string) (rest : list string)
  (w : World num) :
  let p := parsed cfg in
  let dates := list_combined_acquisition_dates E p in
  let geos :=
    create_geographic_chunks E (longitude p) (latitude p)
      (chunk_size_geographic cfg) in
  let times :=
    create_time_chunks E dates (reverse_time cfg) (chunk_size_time cfg) in
  temp_exists w = true ->
  dates <> [] ->
  (compositor_is_iterative cfg = true
   \/ (Py.days (time_end cfg - time_start cfg) <= 367)%Z) ->
  cfg_products cfg = product :: rest ->
  validate_measurements E product (cfg_measurements cfg) = true ->
  geos <> [] ->
  times <> [] ->
  Forall (fun tc => tc <> []) times ->
  data_for E p geos times ->
  exists n w',
    Py.round_div (length geos * sum_len times) (length times * length geos)
    = Some n
    /\ FractionalCover.run_pipeline E cfg w = Next VNone w'
    /\ status (task w') = "OK"
    /\ complete (task w') = true
    /\ total_scenes (task w') = (4 * (length geos * sum_len times))%nat
    /\ scenes_processed (task w')
       = (length geos * (3 * sum_len times + n * length times))%nat
    /\ (scenes_processed (task w') = total_scenes (task w')
        <-> (n * length times = sum_len times)%nat)
    /\ temp_exists w' = false
    /\ scratch w' = ∅.
Proof.
  intros p dates geos times Htemp Hacq Htime Hprod Hvalid Hgeos Htimes Hne
    Hdata.
  destruct (fc_run_schedules product rest w Hacq Htime Hprod Hvalid Hgeos
              Htimes)
    as (n & w1 & Hn & Hrun & Hsched & Htot & Hscn & Ht1).
  fold p dates geos times in Hn, Hrun, Hsched, Htot.
  destruct (fc_pipeline_full p geos times n (sum_len times) w1)
    as (w' & Hexec & Hst & _ & Hcompl & Hscn' & Htot' & Hcl & Hscr & _);
    [congruence|done..|].
  exists n, w'. split; [done|]. split.
  { unfold FractionalCover.run_pipeline.
    rewrite (bind_next _ _ _ _ _ Hrun). by rewrite Hsched. }
  split; [done|]. split; [done|].
  rewrite Htot', Htot, Hscn', Hscn.
  split; [done|]. split; [lia|]. split; [|done].
  assert (length geos <> 0)%nat by (by destruct geos). nia.
Qed.

End FullRun.

Lemma fc_pipeline_with_data_completes_witness :
  let E := demo_env dates11 (fun _ => false) in
  let cfg := demo_cfg (Some 2%nat) in
  let p := parsed cfg in
  let geos := [demo_geo; demo_geo] in
  let times := [[10; 20]; [30]]%Z in
  exists w',
    exec (FractionalCover.call_task E cfg)
      (FractionalCover.processing_pipeline p geos times 2 3) None demo_world
    = Next VNone w'
    /\ status (task w') = "OK" /\ message (task w') = products_message
    /\ complete (task w') = true
    /\ scenes_processed (task w')
       = (scenes_processed (task demo_world)
          + length geos * (sum_len times + 2 * length times + 2 * 3))%nat
    /\ total_scenes (task w') = total_scenes (task demo_world)
    /\ temp_exists w' = false /\ scratch w' = ∅
    /\ Forall (fun path => is_Some (results w' !! path)) (fc_product_paths cfg).
Proof.
  intros E cfg p geos times.
  refine (fc_pipeline_with_data_completes E cfg (fun _ => eq_refl) _ eq_refl
            p geos times 2 3 demo_world eq_refl _ _ _ _).
  - intros ds mask. eexists. apply lookup_singleton_eq.
  - discriminate.
  - discriminate.
  - repeat first [apply Forall_nil_2 | apply Forall_cons_2]; discriminate.
  - repeat first [apply Forall_nil_2 | apply Forall_cons_2];
      (eexists; split; [reflexivity|vm_compute; reflexivity]).
Defined.

Lemma fc_run_with_data_accounts_witness :
  let E := demo_env dates11 (fun _ => false) in
  let cfg := demo_cfg (Some 2%nat) in
  exists n w',
    Py.round_div (1 * 11) (6 * 1) = Some n
    /\ FractionalCover.run_pipeline E cfg demo_world = Next VNone w'
    /\ status (task w') = "OK"
    /\ complete (task w') = true
    /\ total_scenes (task w') = (4 * (1 * 11))%nat
    /\ scenes_processed (task w') = (1 * (3 * 11 + n * 6))%nat
    /\ (scenes_processed (task w') = total_scenes (task w')
        <-> (n * 6 = 11)%nat)
    /\ temp_exists w' = false
    /\ scratch w' = ∅.
Proof.
  intros E cfg.
  refine (fc_run_with_data_accounts E cfg (fun _ => eq_refl) _ eq_refl
            "ls8_ledaps" [] demo_world eq_refl _ _ eq_refl eq_refl _ _ _ _).
  - intros ds mask. eexists. apply lookup_singleton_eq.
  - discriminate.
  - left. reflexivity.
  - discriminate.
  - discriminate.
  - repeat first [apply Forall_nil_2 | apply Forall_cons_2]; discriminate.
  - repeat first [apply Forall_nil_2 | apply Forall_cons_2];
      (eexists; split; [reflexivity|vm_compute; reflexivity]).
Defined.

(** ** Cancellation in the middle of a stage *)

Section Cancellation.
Context {num : Type} `{Numeric num}.
Variable E : Env num.
Variable cfg : TaskConfig.
Local Abbreviation Dataset := (gmap string (list num)).

Lemma went_on_refl (w : World num) : went_on w w.
Proof. exists []. split; [done|constructor]. Qed.

Lemma went_on_trans (w1 w2 w3 : World num) :
  went_on w1 w2 -> went_on w2 w3 -> went_on w1 w3.
Proof.
  intros (evs1 & Ht1 & H1) (evs2 & Ht2 & H2).
  exists (evs2 ++ evs1)%list. split.
  - rewrite Ht2, Ht1. by rewrite app_assoc.
  - by apply Forall_app.
Qed.

Lemma went_on_log ev (w w' : World num) :
  flag_seen ev = false -> trace w' = ev :: trace w -> went_on w w'.
Proof. intros Hev Ht. exists [ev]. split; [done|]. by constructor. Qed.

Lemma undisturbed_refl (w : World num) : undisturbed w w.
Proof. split; [done|apply went_on_refl]. Qed.

Lemma undisturbed_trans (w1 w2 w3 : World num) :
  undisturbed w1 w2 -> undisturbed w2 w3 -> undisturbed w1 w3.
Proof.
  intros [Hs1 H1] [Hs2 H2]. split; [congruence|by eapply went_on_trans].
Qed.

Lemma undisturbed_stopped (w1 w2 w3 : World num) :
  undisturbed w1 w2 -> stopped_by_flag w2 w3 -> stopped_by_flag w1 w3.
Proof.
  intros [Hs1 (evs1 & Ht1 & H1)] [Hs2 (evs2 & Ht2 & H2)].
  split; [congruence|]. exists (evs2 ++ evs1)%list. split.
  - rewrite Ht2, Ht1. by rewrite app_assoc.
  - by apply Forall_app.
Qed.

Lemma went_on_stopped (w1 w2 w3 : World num) :
  undisturbed w1 w2 -> went_on w2 w3 -> went_on w1 w3.
Proof. intros [_ H1] H2. by eapply went_on_trans. Qed.

Lemma clean_ret {A} (a : A) : cancels_cleanly (ret (num := num) a).
Proof. intros w. apply undisturbed_refl. Qed.

Lemma clean_return {A} (r : value) :
  cancels_cleanly (return_ (num := num) (A := A) r).
Proof. intros w. left. apply undisturbed_refl. Qed.

Lemma clean_raise {A} (e : string) :
  cancels_cleanly (raise (num := num) (R := value) (A := A) e).
Proof. intros w. apply undisturbed_refl. Qed.

Lemma clean_bind {A B} (m : stage num value A) (k : A -> stage num value B) :
  cancels_cleanly m -> (forall a, cancels_cleanly (k a)) ->
  cancels_cleanly (bind m k).
Proof.
  intros Hm Hk w. unfold bind. specialize (Hm w).
  destruct (m w) as [a w1|r w1|e w1]; [|done..].
  specialize (Hk a w1).
  destruct (k a w1) as [b w2|r w2|e w2].
  - by eapply undisturbed_trans.
  - destruct Hk as [Hk|[-> Hk]]; [left|right].
    + by eapply undisturbed_trans.
    + split; [done|]. by eapply undisturbed_stopped.
  - by eapply undisturbed_trans.
Qed.

Lemma clean_for_each {A S} (body : A -> S -> stage num value S) (l : list A) :
  (forall x acc, cancels_cleanly (body x acc)) ->
  forall acc, cancels_cleanly (for_each body l acc).
Proof.
  intros Hbody. induction l as [|x l IH]; intros acc; cbn [for_each].
  - apply clean_ret.
  - apply clean_bind; [apply Hbody|exact IH].
Qed.

Lemma clean_cancellable : cancels_cleanly (cancellable E).
Proof.
  intros w. unfold cancellable, bind, check_cancel_task.
  destruct (cancel_flag E (clock w)).
  - right. split; [done|]. split; [done|]. exists []. split; [done|constructor].
  - split; [done|]. by eapply (went_on_log (EvCheck false)).
Qed.

Lemma clean_add_scenes n : cancels_cleanly (add_scenes (num := num) n).
Proof.
  intros w. split; [done|]. by eapply (went_on_log (EvScenes n)).
Qed.

Lemma clean_add_scenes_opt n :
  cancels_cleanly (add_scenes_opt (num := num) n).
Proof. destruct n; [apply clean_add_scenes|apply clean_raise]. Qed.

Lemma clean_open_dataset path :
  cancels_cleanly (open_dataset (num := num) (R := value) path).
Proof.
  intros w. unfold open_dataset.
  destruct (scratch w !! path); apply undisturbed_refl.
Qed.

Lemma clean_temp_path_exists :
  cancels_cleanly (temp_path_exists (num := num) (R := value)).
Proof. intros w. apply undisturbed_refl. Qed.

Lemma clean_get_var (d : Dataset) name :
  cancels_cleanly (get_var (R := value) d name).
Proof.
  unfold get_var. destruct (d !! name); [apply clean_ret|apply clean_raise].
Qed.

Lemma clean_lift_key {A} (o : option A) :
  cancels_cleanly (lift_key (num := num) (R := value) o).
Proof. destruct o; [apply clean_ret|apply clean_raise]. Qed.

Lemma clean_as_chunks (l : list value) :
  cancels_cleanly (as_chunks (num := num) (R := value) l).
Proof.
  induction l as [|v l IH]; [apply clean_ret|].
  destruct v; try apply clean_raise.
  cbn [as_chunks]. apply clean_bind; [exact IH|]. intros. apply clean_ret.
Qed.

Lemma clean_load_ranges tc :
  cancels_cleanly (load_ranges (num := num) (R := value) cfg tc).
Proof.
  unfold load_ranges. destruct (iterative cfg); [apply clean_ret|].
  destruct tc; [apply clean_raise|apply clean_ret].
Qed.

Lemma immediate_clean {A} (m : stage num value A) :
  cancels_cleanly m -> cancellation_immediate m.
Proof.
  intros Hm w. specialize (Hm w).
  destruct (m w); [by destruct Hm|done|by destruct Hm].
Qed.

Lemma immediate_bind {A B} (m : stage num value A)
  (k : A -> stage num value B) :
  cancels_cleanly m -> (forall a, cancellation_immediate (k a)) ->
  cancellation_immediate (bind m k).
Proof.
  intros Hm Hk w. unfold bind. specialize (Hm w).
  destruct (m w) as [a w1|r w1|e w1]; [|done|by destruct Hm].
  specialize (Hk a w1).
  destruct (k a w1) as [b w2|r w2|e w2].
  - by eapply went_on_stopped.
  - destruct Hk as [Hk|[-> Hk]]; [left|right].
    + by eapply undisturbed_trans.
    + split; [done|]. by eapply undisturbed_stopped.
  - by eapply went_on_stopped.
Qed.

(** The write that ends a stage. *)
Lemma immediate_write (d : Dataset) path (v : value) :
  cancellation_immediate (to_netcdf d path ;; ret v).
Proof.
  intros w. unfold bind, to_netcdf.
  destruct (temp_exists w); [|apply went_on_refl].
  by eapply (went_on_log (EvWrite path)).
Qed.

Ltac clean_with tac :=
  repeat first
    [ tac
    | apply clean_ret | apply clean_return | apply clean_raise
    | apply clean_cancellable | apply clean_add_scenes
    | apply clean_add_scenes_opt | apply clean_open_dataset
    | apply clean_temp_path_exists | apply clean_get_var
    | apply clean_lift_key | apply clean_as_chunks | apply clean_load_ranges
    | apply clean_bind; [|intros]
    | apply clean_for_each; intros
    | match goal with
      | |- cancels_cleanly (match ?x with _ => _ end) => destruct x
      end ].

Ltac immediate_with tac :=
  repeat first
    [ tac
    | apply immediate_write
    | match goal with
      | |- cancellation_immediate (match ?x with _ => _ end) => destruct x
      end
    | apply immediate_bind; [clean_with tac|intros]
    | solve [apply immediate_clean; clean_with tac] ].

Ltac clean := clean_with fail.
Ltac immediate := immediate_with fail.

Lemma immediate_fc_processing_task g t gc tc p :
  cancellation_immediate (FractionalCover.processing_task E cfg g t gc tc p).
Proof.
  unfold FractionalCover.processing_task. immediate.
  all: unfold FractionalCover.processing_step; clean.
Qed.

Lemma immediate_fc_recombine_time_chunks n chunks :
  cancellation_immediate
    (FractionalCover.recombine_time_chunks E cfg n chunks).
Proof.
  unfold FractionalCover.recombine_time_chunks. immediate.
  all: unfold FractionalCover.recombine_time_step; clean.
Qed.

Lemma immediate_fc_recombine_geographic_chunks chunks :
  cancellation_immediate
    (FractionalCover.recombine_geographic_chunks E cfg chunks).
Proof.
  unfold FractionalCover.recombine_geographic_chunks. immediate.
  all: unfold FractionalCover.recombine_geographic_step; clean.
Qed.

Lemma immediate_process_band_math n chunk :
  cancellation_immediate (FractionalCover.process_band_math E n chunk).
Proof.
  unfold FractionalCover.process_band_math.
  apply immediate_bind; [clean|intros _].
  destruct chunk; try solve [apply immediate_clean; clean].
  apply immediate_bind; [clean|intros ds].
  apply immediate_bind; [unfold FractionalCover.apply_band_math; clean|].
  intros bm w. unfold bind, os_remove, to_netcdf, add_scenes.
  destruct (scratch w !! co_path c); [|apply went_on_refl].
  cbn [temp_exists log with_scratch].
  destruct (temp_exists w).
  - exists [EvScenes n; EvWrite (co_path c); EvRemove (co_path c)].
    split; [done|]. by repeat constructor.
  - by eapply (went_on_log (EvRemove (co_path c))).
Qed.

Section NotAnimated.
Hypothesis not_animated : animation_id cfg = "none".

Lemma not_animated_eqb : negb (animation_id cfg =? "none")%string = false.
Proof. by rewrite not_animated. Qed.

Ltac plain := rewrite not_animated_eqb.

Lemma immediate_tsm_processing_task g t gc tc p :
  cancellation_immediate (Tsm.processing_task E cfg g t gc tc p).
Proof.
  unfold Tsm.processing_task. immediate_with plain.
  all: unfold Tsm.processing_step; clean_with plain.
Qed.

Lemma immediate_tsm_recombine_geographic_chunks n chunks :
  cancellation_immediate (Tsm.recombine_geographic_chunks E cfg n chunks).
Proof.
  unfold Tsm.recombine_geographic_chunks. immediate_with plain.
  all: unfold Tsm.recombine_geographic_step; clean_with plain.
Qed.

Lemma immediate_tsm_recombine_time_chunks chunks :
  cancellation_immediate (Tsm.recombine_time_chunks E cfg chunks).
Proof.
  unfold Tsm.recombine_time_chunks. immediate_with plain.
  all: unfold Tsm.recombine_time_step; clean_with plain.
Qed.

End NotAnimated.

(** Cancellation in the middle of a worker stage. In every run of a
    processing task, a reducer or the band math, the first check that
    finds the flag set is the last thing that happens: the stage returns
    [None] without an error and the scratch directory is as it was when
    the stage was entered, so no partial artifact is persisted and the
    artifacts of other units stay in place. For the TSM stages this holds
    when no animation is requested (with an animation, frames are written
    as the stage goes). *)
Theorem cancellation_is_immediate :
  (forall g t gc tc p,
     cancellation_immediate
       (FractionalCover.processing_task E cfg g t gc tc p))
  /\ (forall n chunks,
        cancellation_immediate
          (FractionalCover.recombine_time_chunks E cfg n chunks)
        /\ cancellation_immediate
             (FractionalCover.recombine_geographic_chunks E cfg chunks))
  /\ (forall n chunk,
        cancellation_immediate (FractionalCover.process_band_math E n chunk))
  /\ (animation_id cfg = "none" ->
      (forall g t gc tc p,
         cancellation_immediate (Tsm.processing_task E cfg g t gc tc p))
      /\ (forall n chunks,
            cancellation_immediate
              (Tsm.recombine_geographic_chunks E cfg n chunks)
            /\ cancellation_immediate
                 (Tsm.recombine_time_chunks E cfg chunks))).
Proof.
  split; [|split; [|split]].
  - apply immediate_fc_processing_task.
  - intros. split; [apply immediate_fc_recombine_time_chunks
                   |apply immediate_fc_recombine_geographic_chunks].
  - apply immediate_process_band_math.
  - intros Hanim. split.
    + intros. by apply immediate_tsm_processing_task.
    + intros. split; [by apply immediate_tsm_recombine_geographic_chunks
                     |by apply immediate_tsm_recombine_time_chunks].
Qed.

End Cancellation.

Lemma cancellation_is_immediate_witness :
  let E := demo_env dates11 (fun n => (2 <=? n)%nat) in
  let cfg := demo_cfg (Some 2%nat) in
  cancellation_immediate
    (Tsm.processing_task E cfg 0 0 demo_geo [10; 20]%Z (parsed cfg))
  /\ cancellation_immediate
       (Tsm.recombine_time_chunks E cfg (VList [VNone])).
Proof.
  intros E cfg.
  pose proof (proj2 (proj2 (proj2 (cancellation_is_immediate E cfg))) eq_refl)
    as Htsm.
  split.
  - apply (proj1 Htsm).
  - apply (proj2 (proj2 Htsm None (VList [VNone]))).
Defined.

(** ** The pixel drills *)

Section PixelDrill.
Context {num : Type} `{Numeric num}.
Variable E : Env num.
Variable cfg : TaskConfig.
Local Abbreviation Dataset := (gmap string (list num)).

Lemma quiet_checked (w : World num) : quiet w (checked E w).
Proof. unfold quiet. done. Qed.

Lemma quiet_trans (w1 w2 w3 : World num) :
  quiet w1 w2 -> quiet w2 w3 -> quiet w1 w3.
Proof.
  intros (?&?&?&?&?&?&?&?&?) (?&?&?&?&?&?&?&?&?).
  unfold quiet. repeat split; congruence.
Qed.

Lemma quiet_status st msg (w : World num) :
  quiet w (log (EvStatus st msg)
             (with_task (fun t =>
                {| status := st; message := msg; complete := complete t;
                   scenes_processed := scenes_processed t;
                   total_scenes := total_scenes t; paths := paths t |}) w)).
Proof. unfold quiet. done. Qed.

(** The parsing stage of a drill that is not cancelled. *)
Lemma drill_parse (w : World num) :
  cancel_flag E (clock w) = false ->
  exists w1,
    call (FractionalCover.parse_parameters_from_task E cfg) w
    = Next (VParams (parsed cfg)) w1
    /\ call (Tsm.parse_parameters_from_task E cfg) w
       = Next (VParams (parsed cfg)) w1
    /\ clock w1 = S (clock w)
    /\ status (task w1) = "WAIT"
    /\ quiet w w1.
Proof.
  intros Hc.
  unfold call, FractionalCover.parse_parameters_from_task,
    Tsm.parse_parameters_from_task.
  rewrite !(bind_next _ _ _ _ _ (cancellable_false E w Hc)).
  eexists. split; [reflexivity|]. split; [reflexivity|]. split; [done|].
  split; [done|].
  eapply quiet_trans; [apply quiet_checked|apply quiet_status].
Qed.

(** The validation of a drill: cancelled or passed, it leaves the status
    [WAIT]. *)
Lemma drill_validate_fc (w1 : World num) :
  status (task w1) = "WAIT" ->
  validation_lets_through E cfg true (clock w1) ->
  exists v w2,
    call (FractionalCover.validate_parameters E cfg (VParams (parsed cfg))) w1
    = Next v w2
    /\ status (task w2) = "WAIT" /\ quiet w1 w2.
Proof.
  intros Hst [Hc1|(Hc1 & Hacq & Htime & Hrest)];
    unfold call, FractionalCover.validate_parameters.
  { rewrite (bind_return _ _ _ _ _ (cancellable_true E w1 Hc1)).
    eexists _, _. split; [reflexivity|]. split; [done|apply quiet_checked]. }
  rewrite (bind_next _ _ _ _ _ (cancellable_false E w1 Hc1)).
  rewrite (bind_next _ _ _ (parsed cfg) (checked E w1)
             (eq_refl : as_params (VParams (parsed cfg)) (checked E w1)
                        = Next (parsed cfg) _)).
  assert (Hlen : (length (list_combined_acquisition_dates E (parsed cfg)) <? 1)%nat
                 = false).
  { destruct (list_combined_acquisition_dates E (parsed cfg)); [done|done]. }
  assert (Hmed : (negb (compositor_is_iterative cfg)
                  && (367 <? Py.days (time_end cfg - time_start cfg))%Z)%bool
                 = false).
  { destruct (Htime eq_refl) as [->|Hd]; [done|].
    apply Z.ltb_ge in Hd. rewrite Hd. apply andb_false_r. }
  rewrite Hlen, Hmed.
  destruct Hrest as [Hc2|(Hc2 & product & rest & Hprod & Hvalid)].
  { rewrite (bind_return _ _ _ _ _
               (cancellable_true E (checked E w1) Hc2)).
    eexists _, _. split; [reflexivity|]. split; [done|].
    eapply quiet_trans; apply quiet_checked. }
  rewrite (bind_next _ _ _ _ _ (cancellable_false E (checked E w1) Hc2)).
  erewrite bind_next; [|reflexivity].
  change (products (parsed cfg)) with (cfg_products cfg). rewrite Hprod.
  change (measurements (parsed cfg)) with (cfg_measurements cfg).
  rewrite Hvalid.
  eexists _, _. split; [reflexivity|]. split; [done|].
  eapply quiet_trans; [apply quiet_checked|].
  eapply quiet_trans; [apply quiet_checked|apply quiet_status].
Qed.

Lemma drill_validate_tsm (w1 : World num) :
  status (task w1) = "WAIT" ->
  validation_lets_through E cfg false (clock w1) ->
  exists v w2,
    call (Tsm.validate_parameters E cfg (VParams (parsed cfg))) w1
    = Next v w2
    /\ status (task w2) = "WAIT" /\ quiet w1 w2.
Proof.
  intros Hst [Hc1|(Hc1 & Hacq & _ & Hrest)];
    unfold call, Tsm.validate_parameters.
  { rewrite (bind_return _ _ _ _ _ (cancellable_true E w1 Hc1)).
    eexists _, _. split; [reflexivity|]. split; [done|apply quiet_checked]. }
  rewrite (bind_next _ _ _ _ _ (cancellable_false E w1 Hc1)).
  rewrite (bind_next _ _ _ (parsed cfg) (checked E w1)
             (eq_refl : as_params (VParams (parsed cfg)) (checked E w1)
                        = Next (parsed cfg) _)).
  assert (Hlen : (length (list_combined_acquisition_dates E (parsed cfg)) <? 1)%nat
                 = false).
  { destruct (list_combined_acquisition_dates E (parsed cfg)); [done|done]. }
  rewrite Hlen.
  destruct Hrest as [Hc2|(Hc2 & product & rest & Hprod & Hvalid)].
  { rewrite (bind_return _ _ _ _ _
               (cancellable_true E (checked E w1) Hc2)).
    eexists _, _. split; [reflexivity|]. split; [done|].
    eapply quiet_trans; apply quiet_checked. }
  rewrite (bind_next _ _ _ _ _ (cancellable_false E (checked E w1) Hc2)).
  erewrite bind_next; [|reflexivity].
  change (products (parsed cfg)) with (cfg_products cfg). rewrite Hprod.
  change (measurements (parsed cfg)) with (cfg_measurements cfg).
  rewrite Hvalid.
  eexists _, _. split; [reflexivity|]. split; [done|].
  eapply quiet_trans; [apply quiet_checked|].
  eapply quiet_trans; [apply quiet_checked|apply quiet_status].
Qed.

Lemma drilled_quiet (dates : list num) (w w2 : World num) o :
  quiet w w2 -> drilled cfg dates w2 o -> drilled cfg dates w o.
Proof.
  intros (Hc&Hn&Ht&Hp&Hte&Hs&Hr&Hsch&Hpl) (w' & H1 & H2 & H3 & H4 & H5 & H6 & Hif).
  exists w'. rewrite <- Hn, <- Ht, <- Hte, <- Hs, <- Hr, <- Hsch.
  do 6 (split; [done|]).
  destruct (length dates <? 2)%nat.
  - by rewrite <- Hc, <- Hp, <- Hpl.
  - by rewrite <- Hp, <- Hpl.
Qed.

(** A pixel drill that gets past its parsing check loads the whole extent
    at once and looks at the acquisitions of the load. With fewer than two
    it reports the error and returns [None], drawing nothing and leaving
    the task incomplete; with two or more it registers and draws the plot,
    marks the task complete with status OK and returns [None]. It never
    writes to the scratch directory or the results, never counts a scene
    and never schedules a pipeline. The drill only stops after validation
    when the status is ERROR, so a validation that was cancelled at one of
    its checks lets the drill go on as a validation that passed does. *)
Theorem pixel_drill_outcomes (w : World num) (single_pixel : Dataset)
  (dates : list num) :
  cancel_flag E (clock w) = false ->
  get_stacked_datasets_by_extent E (parsed cfg) = Some single_pixel ->
  where_valid E single_pixel !! "time" = Some dates ->
  (validation_lets_through E cfg true (S (clock w)) ->
   drilled cfg dates w (FractionalCover.pixel_drill E cfg w))
  /\ (validation_lets_through E cfg false (S (clock w)) ->
      drilled cfg dates w (Tsm.pixel_drill E cfg w)).
Proof.
  intros Hc Hload Hdates.
  destruct (drill_parse w Hc) as (w1 & Hfc & Htsm & Hclock & Hst1 & Hq1).
  rewrite <- Hclock.
  split; intros Hval.
  - destruct (drill_validate_fc w1 Hst1 Hval) as (v & w2 & Hrun & Hst2 & Hq2).
    apply (drilled_quiet dates w w2); [by eapply quiet_trans|].
    unfold FractionalCover.pixel_drill.
    rewrite (bind_next _ _ _ _ _ Hfc), (bind_next _ _ _ _ _ Hrun).
    rewrite (bind_next _ _ _ (status (task w2)) w2
               (eq_refl : get_status w2 = Next _ _)).
    rewrite Hst2. cbn [String.eqb Ascii.eqb Bool.eqb].
    rewrite (bind_next _ _ _ (parsed cfg) w2
               (eq_refl : as_params (VParams (parsed cfg)) w2 = Next _ _)).
    rewrite Hload.
    rewrite (bind_next _ _ _ _ _ (get_var_some _ _ _ w2 Hdates)).
    unfold drilled.
    destruct (length dates <? 2)%nat;
      (eexists; repeat apply conj; [| | | | | |reflexivity|..]; done).
  - destruct (drill_validate_tsm w1 Hst1 Hval) as (v & w2 & Hrun & Hst2 & Hq2).
    apply (drilled_quiet dates w w2); [by eapply quiet_trans|].
    unfold Tsm.pixel_drill.
    rewrite (bind_next _ _ _ _ _ Htsm), (bind_next _ _ _ _ _ Hrun).
    rewrite (bind_next _ _ _ (status (task w2)) w2
               (eq_refl : get_status w2 = Next _ _)).
    rewrite Hst2. cbn [String.eqb Ascii.eqb Bool.eqb].
    rewrite (bind_next _ _ _ (parsed cfg) w2
               (eq_refl : as_params (VParams (parsed cfg)) w2 = Next _ _)).
    rewrite Hload.
    rewrite (bind_next _ _ _ _ _ (get_var_some _ _ _ w2 Hdates)).
    unfold drilled.
    destruct (length dates <? 2)%nat;
      (eexists; repeat apply conj; [| | | | | |reflexivity|..]; done).
Qed.

End PixelDrill.

Lemma pixel_drill_outcomes_witness :
  let E := demo_env dates11 (fun n => (n =? 1)%nat) in
  let cfg := demo_cfg None in
  let dates := map xz dates11 in
  drilled cfg dates demo_world (FractionalCover.pixel_drill E cfg demo_world)
  /\ drilled cfg dates demo_world (Tsm.pixel_drill E cfg demo_world).
Proof.
  intros E cfg dates.
  destruct (pixel_drill_outcomes E cfg demo_world
              {[ "time" := map xz dates11; "red" := [xz 110];
                 "swir2" := [xz 50] ]} dates eq_refl)
    as [Hfc Htsm].
  - vm_compute. reflexivity.
  - vm_compute. reflexivity.
  - split; [apply Hfc|apply Htsm]; left; reflexivity.
Defined.

(** ** The load ranges of a time chunk *)




Section LoadRanges.
Context {num : Type}.
Variable cfg : TaskConfig.


End LoadRanges.

